(** * Legal Document Simplifier: request handling, prompt building, charts

    A shallow embedding of [backend/server.js] (the Express service) and of
    the chart aggregation of the browser client, with the properties the
    specification states about them.

    Conventions.
    - A JavaScript string is the list of its UTF-16 code units, so that
      [length] is the source's [.length] and [take] its [substring(0, n)].
    - Third-party collaborators (the generation service, the PDF parser,
      the UTF-8 decoder of [fs], the clock) are fields of an environment
      record; every theorem quantifies over them.  So are the few things
      the JavaScript engine computes on doubles and the one point where
      express 4 and express 5 differ.
    - The packages the service is built on (express and its JSON body
      parser, cors, multer) are not part of the repository.  What the
      service's behaviour needs of them is modelled from their documented
      behaviour, in definitions whose comment starts [Library model].
    - The file system and the list of prompts sent to the generation
      service form the state threaded through a handler. *)

From Stdlib Require Import String Ascii NArith ZArith List.
From stdpp Require Import gmap strings list pretty.

Set Warnings "-register-all".

Local Open Scope N_scope.

(** ** JavaScript strings *)

Abbreviation jsstring := (list N).

(** Code units of an ASCII literal. *)
Fixpoint lit (s : string) : jsstring :=
  match s with
  | EmptyString => []
  | String a s' => N_of_ascii a :: lit s'
  end.
Arguments lit s%_string.

(** Same, for source literals that contain the double-quote character: the
    tilde stands for it (no source literal contains a tilde). *)
Definition ql (s : string) : jsstring :=
  map (fun c => if c =? 126 then 34 else c) (lit s).
Arguments ql s%_string.

Definition LF : N := 10.

(** The lines of a multi-line literal, joined by line feeds. *)
Fixpoint unlines (ls : list jsstring) : jsstring :=
  match ls with
  | [] => []
  | [l] => l
  | l :: ls' => l ++ LF :: unlines ls'
  end.

(** ECMAScript [WhiteSpace] and [LineTerminator] code units, the ones
    [String.prototype.trim] removes. *)
Definition is_js_whitespace (c : N) : bool :=
  (c =? 9) || (c =? 10) || (c =? 11) || (c =? 12) || (c =? 13) || (c =? 32)
  || (c =? 160) || (c =? 5760) || ((8192 <=? c) && (c <=? 8202))
  || (c =? 8232) || (c =? 8233) || (c =? 8239) || (c =? 8287)
  || (c =? 12288) || (c =? 65279).

Fixpoint trimStart (s : jsstring) : jsstring :=
  match s with
  | [] => []
  | c :: s' => if is_js_whitespace c then trimStart s' else s
  end.

Definition trimEnd (s : jsstring) : jsstring := rev (trimStart (rev s)).

(** [s.trim()] *)
Definition trim (s : jsstring) : jsstring := trimEnd (trimStart s).

(** [s] with the prefix [pat] removed, when [s] starts with [pat]. *)
Fixpoint match_prefix (pat s : jsstring) : option jsstring :=
  match pat, s with
  | [], _ => Some s
  | p :: pat', c :: s' => if p =? c then match_prefix pat' s' else None
  | _ :: _, [] => None
  end.

(** [s.startsWith(pat)] *)
Definition startsWith (s pat : jsstring) : bool :=
  match match_prefix pat s with Some _ => true | None => false end.

(** The optional [\n?] that ends both fence patterns: it is greedy. *)
Definition skip_optional_LF (s : jsstring) : jsstring :=
  match s with
  | c :: s' => if c =? LF then s' else s
  | [] => []
  end.

(** [s.replace(/<pat>\n?/g, '')] for a literal, non-empty [pat]: scan from
    the left; at a match drop it and resume after it, otherwise keep the
    code unit.  One unit of fuel is spent per step. *)
Fixpoint remove_fences (pat : jsstring) (fuel : nat) (s : jsstring) : jsstring :=
  match fuel with
  | O => s
  | S fuel' =>
      match s with
      | [] => []
      | c :: s' =>
          match match_prefix pat s with
          | Some rest => remove_fences pat fuel' (skip_optional_LF rest)
          | None => c :: remove_fences pat fuel' s'
          end
      end
  end.

Definition fence_json : jsstring := lit "```json".
Definition fence : jsstring := lit "```".

Definition replace_all (pat s : jsstring) : jsstring :=
  remove_fences pat (length s) s.

(** [responseText.replace(/```json\n?/g, '').replace(/```\n?/g, '').trim()] *)
Definition cleanText (responseText : jsstring) : jsstring :=
  trim (replace_all fence (replace_all fence_json responseText)).

(** ** The prompt builder *)

Definition prompt_head : jsstring :=
  unlines (map ql [
    "You are an expert legal document analyst. Analyze the following legal text and provide a comprehensive breakdown.";
    EmptyString;
    "LEGAL TEXT:";
    "~" ]).

Definition prompt_mid : jsstring :=
  unlines (map ql [ "~"; EmptyString; EmptyString ]).

Definition prompt_tail : jsstring :=
  unlines (map ql [
    EmptyString;
    EmptyString;
    "Please provide a detailed analysis in the following JSON format:";
    EmptyString;
    "{";
    "  ~simplified~: ~A clear, plain English explanation of the document's main points, preserving all important details and legal implications. Break down complex clauses into understandable language.~,";
    "  ~riskAssessment~: {";
    "    ~overallRisk~: ~low/medium/high~,";
    "    ~riskFactors~: [";
    "      {";
    "        ~clause~: ~Specific clause or section~,";
    "        ~risk~: ~high/medium/low~,";
    "        ~explanation~: ~Why this is risky and what it means for the user~,";
    "        ~impact~: ~Financial/Legal/Operational impact description~";
    "      }";
    "    ]";
    "  },";
    "  ~keyTerms~: [";
    "    {";
    "      ~term~: ~Legal term or phrase~,";
    "      ~definition~: ~Simple explanation of what this means~,";
    "      ~importance~: ~Why this term matters~";
    "    }";
    "  ],";
    "  ~actionItems~: [";
    "    {";
    "      ~action~: ~What the user should do~,";
    "      ~priority~: ~high/medium/low~,";
    "      ~deadline~: ~When this should be done (if applicable)~";
    "    }";
    "  ],";
    "  ~warnings~: [";
    "    ~Important warnings or red flags the user should be aware of~";
    "  ]";
    "}";
    EmptyString;
    "Important guidelines:";
    "1. Focus on making complex legal language accessible to non-lawyers";
    "2. Highlight potential risks and their real-world implications";
    "3. Identify terms that could be problematic or unfair";
    "4. Provide actionable advice where appropriate";
    "5. Be objective but help users understand what they're agreeing to";
    "6. If analyzing a specific question, prioritize that in your response";
    EmptyString;
    "Respond ONLY with valid JSON - no additional text or formatting." ]).

(** Truthiness of an optional string argument: [undefined], [null] and the
    empty string are falsy. *)
Definition truthy_string (o : option jsstring) : bool :=
  match o with
  | Some (_ :: _) => true
  | _ => false
  end.

(** [query ? `SPECIFIC QUESTION: "${query}"` : ''] *)
Definition question_line (query : option jsstring) : jsstring :=
  match query with
  | Some (c :: q) => ql "SPECIFIC QUESTION: ~" ++ (c :: q) ++ ql "~"
  | _ => []
  end.

Definition buildLegalAnalysisPrompt (text : jsstring) (query : option jsstring)
  : jsstring :=
  prompt_head ++ text ++ prompt_mid ++ question_line query ++ prompt_tail.

(** ** JSON values and [JSON.parse] *)

(** A JSON value as the text denotes it.

    A number carries the exact decimal value [m * 10^e] of its literal.
    The code has doubles: literals that round to the same double are one
    number to it, and a literal beyond the range of the doubles is
    [Infinity], which [JSON.stringify] writes as [null].  The model is
    exact where the service looks at a number ([number_is_zero]); what is
    stated about values the service relays is stated for values without
    numbers ([number_free]).

    An object carries its properties in the order of the text, a repeated
    key keeping its first place and its last value.  JavaScript
    enumerates keys that look like array indices first; the service and
    the statements read objects by key only. *)
Inductive json : Type :=
| JNull
| JBool (b : bool)
| JNum (m e : Z)
| JStr (s : jsstring)
| JArr (items : list json)
| JObj (props : list (jsstring * json)).

Definition jsstring_eqb (a b : jsstring) : bool := bool_decide (a = b).

(** Own-property lookup and assignment on an object's property list.  A
    key that is assigned again keeps its place. *)
Fixpoint obj_get (k : jsstring) (props : list (jsstring * json)) : option json :=
  match props with
  | [] => None
  | (k', v) :: props' => if jsstring_eqb k k' then Some v else obj_get k props'
  end.

Fixpoint obj_set (k : jsstring) (v : json) (props : list (jsstring * json))
  : list (jsstring * json) :=
  match props with
  | [] => [(k, v)]
  | (k', v') :: props' =>
      if jsstring_eqb k k' then (k, v) :: props' else (k', v') :: obj_set k v props'
  end.

Definition is_json_ws (c : N) : bool :=
  (c =? 32) || (c =? 9) || (c =? 10) || (c =? 13).

Fixpoint skip_ws (s : jsstring) : jsstring :=
  match s with
  | [] => []
  | c :: s' => if is_json_ws c then skip_ws s' else s
  end.

Definition is_digit (c : N) : bool := (48 <=? c) && (c <=? 57).

Definition hex_value (c : N) : option N :=
  if is_digit c then Some (c - 48)
  else if (97 <=? c) && (c <=? 102) then Some (c - 87)
  else if (65 <=? c) && (c <=? 70) then Some (c - 55)
  else None.

(** [s] after its first code unit, when that is [c]. *)
Definition expect (c : N) (s : jsstring) : option jsstring :=
  match s with
  | x :: rest => if x =? c then Some rest else None
  | [] => None
  end.

(** The code unit a two-character escape stands for. *)
Definition simple_escape (e : N) : option N :=
  if e =? 34 then Some 34 else if e =? 92 then Some 92
  else if e =? 47 then Some 47 else if e =? 98 then Some 8
  else if e =? 102 then Some 12 else if e =? 110 then Some 10
  else if e =? 114 then Some 13 else if e =? 116 then Some 9
  else None.

(** The four hexadecimal digits of a [\u] escape. *)
Definition hex4 (a b c d : N) : option N :=
  match hex_value a, hex_value b, hex_value c, hex_value d with
  | Some x3, Some x2, Some x1, Some x0 => Some (((x3 * 16 + x2) * 16 + x1) * 16 + x0)
  | _, _, _, _ => None
  end.

(** The body of a string literal, after the opening quote. *)
Fixpoint parse_string (s : jsstring) : option (jsstring * jsstring) :=
  match s with
  | [] => None
  | c :: s1 =>
      if c =? 34 then Some ([], s1)
      else if c =? 92 then
        match s1 with
        | [] => None
        | e :: s2 =>
            if e =? 117 then
              match s2 with
              | x3 :: x2 :: x1 :: x0 :: s6 =>
                  match hex4 x3 x2 x1 x0, parse_string s6 with
                  | Some u, Some (str, rest) => Some (u :: str, rest)
                  | _, _ => None
                  end
              | _ => None
              end
            else
              match simple_escape e, parse_string s2 with
              | Some u, Some (str, rest) => Some (u :: str, rest)
              | _, _ => None
              end
        end
      else if c <? 32 then None
      else
        match parse_string s1 with
        | Some (str, rest) => Some (c :: str, rest)
        | None => None
        end
  end.

(** The longest prefix of decimal digits, and what follows it. *)
Fixpoint span_digits (s : jsstring) : jsstring * jsstring :=
  match s with
  | c :: s' =>
      if is_digit c then let '(ds, rest) := span_digits s' in (c :: ds, rest)
      else ([], s)
  | [] => ([], [])
  end.

(** At least one digit. *)
Definition span_digits1 (s : jsstring) : option (jsstring * jsstring) :=
  match span_digits s with
  | ([], _) => None
  | (d :: ds, rest) => Some (d :: ds, rest)
  end.

Definition digits_value (ds : jsstring) : Z :=
  fold_left (fun acc c => (acc * 10 + Z.of_N (c - 48))%Z) ds 0%Z.

(** A number literal: an optional minus sign; an integer part that is a
    single zero or starts with a non-zero digit; an optional fraction of at
    least one digit; an optional exponent with optional sign. *)
Definition parse_number (s : jsstring) : option (Z * Z * jsstring) :=
  let '(neg, s1) :=
    match expect 45 s with
    | Some s' => (true, s')
    | None => (false, s)
    end in
  let int_part :=
    match expect 48 s1 with
    | Some s2 => Some ([48], s2)
    | None => span_digits1 s1
    end in
  match int_part with
  | None => None
  | Some (ds, s2) =>
      let frac_part :=
        match expect 46 s2 with
        | Some s3 => span_digits1 s3
        | None => Some ([], s2)
        end in
      match frac_part with
      | None => None
      | Some (fs, s4) =>
          let exp_part :=
            match s4 with
            | c :: s5 =>
                if (c =? 101) || (c =? 69) then
                  let '(eneg, s6) :=
                    match expect 45 s5 with
                    | Some s' => (true, s')
                    | None =>
                        match expect 43 s5 with
                        | Some s' => (false, s')
                        | None => (false, s5)
                        end
                    end in
                  match span_digits1 s6 with
                  | Some (es, s7) =>
                      Some ((if eneg then - digits_value es else digits_value es)%Z, s7)
                  | None => None
                  end
                else Some (0%Z, s4)
            | [] => Some (0%Z, s4)
            end in
          match exp_part with
          | None => None
          | Some (ex, s7) =>
              let m := digits_value (ds ++ fs) in
              Some ((if neg then - m else m)%Z, (ex - Z.of_nat (length fs))%Z, s7)
          end
      end
  end.

(** Recursive descent on the value grammar; every call spends one unit of
    fuel. *)
Fixpoint parse_value (fuel : nat) (s : jsstring) {struct fuel}
  : option (json * jsstring) :=
  match fuel with
  | O => None
  | S fuel' =>
      match s with
      | [] => None
      | c :: s' =>
          if c =? 110 then
            match match_prefix (lit "ull") s' with
            | Some rest => Some (JNull, rest) | None => None end
          else if c =? 116 then
            match match_prefix (lit "rue") s' with
            | Some rest => Some (JBool true, rest) | None => None end
          else if c =? 102 then
            match match_prefix (lit "alse") s' with
            | Some rest => Some (JBool false, rest) | None => None end
          else if c =? 34 then
            match parse_string s' with
            | Some (str, rest) => Some (JStr str, rest) | None => None end
          else if c =? 91 then
            match expect 93 (skip_ws s') with
            | Some rest => Some (JArr [], rest)
            | None =>
                match parse_elements fuel' (skip_ws s') with
                | Some (items, rest) => Some (JArr items, rest) | None => None end
            end
          else if c =? 123 then
            match expect 125 (skip_ws s') with
            | Some rest => Some (JObj [], rest)
            | None =>
                match parse_members fuel' (skip_ws s') with
                | Some (props, rest) =>
                    Some (JObj (fold_left (fun o kv => obj_set kv.1 kv.2 o) props []), rest)
                | None => None
                end
            end
          else
            match parse_number s with
            | Some (m, e, rest) => Some (JNum m e, rest) | None => None end
      end
  end
with parse_elements (fuel : nat) (s : jsstring) {struct fuel}
  : option (list json * jsstring) :=
  match fuel with
  | O => None
  | S fuel' =>
      match parse_value fuel' s with
      | Some (v, r) =>
          match expect 93 (skip_ws r) with
          | Some rest => Some ([v], rest)
          | None =>
              match expect 44 (skip_ws r) with
              | Some r' =>
                  match parse_elements fuel' (skip_ws r') with
                  | Some (vs, rest) => Some (v :: vs, rest) | None => None end
              | None => None
              end
          end
      | None => None
      end
  end
with parse_members (fuel : nat) (s : jsstring) {struct fuel}
  : option (list (jsstring * json) * jsstring) :=
  match fuel with
  | O => None
  | S fuel' =>
      match expect 34 s with
      | Some s' =>
          match parse_string s' with
          | Some (k, r0) =>
              match expect 58 (skip_ws r0) with
              | Some r1 =>
                  match parse_value fuel' (skip_ws r1) with
                  | Some (v, r) =>
                      match expect 125 (skip_ws r) with
                      | Some rest => Some ([(k, v)], rest)
                      | None =>
                          match expect 44 (skip_ws r) with
                          | Some r' =>
                              match parse_members fuel' (skip_ws r') with
                              | Some (kvs, rest) => Some ((k, v) :: kvs, rest)
                              | None => None
                              end
                          | None => None
                          end
                      end
                  | None => None
                  end
              | None => None
              end
          | None => None
          end
      | None => None
      end
  end.

(** [JSON.parse(s)]; [None] is the thrown [SyntaxError].  A call consumes
    at least one code unit for every two units of fuel it spends, so twice
    the length is enough: more fuel gives the same result
    ([JSON_parse_fuel]). *)
Definition JSON_parse (s : jsstring) : option json :=
  match parse_value (2 * length s + 2) (skip_ws s) with
  | Some (v, rest) =>
      match skip_ws rest with
      | [] => Some v
      | _ :: _ => None
      end
  | None => None
  end.

(** ** Values as the handlers inspect them *)

(** A number is falsy when it is zero as a double: its literal is zero or
    rounds to zero, that is, lies within half the least subnormal. *)
Definition number_is_zero (m e : Z) : bool :=
  ((m =? 0) || ((e <? 0) && (Z.abs m * 2 ^ 1075 <=? 10 ^ (- e))))%Z.

(** [!!v], with [None] for [undefined]. *)
Definition truthy (v : option json) : bool :=
  match v with
  | None => false
  | Some JNull => false
  | Some (JBool b) => b
  | Some (JNum m e) => negb (number_is_zero m e)
  | Some (JStr s) => match s with [] => false | _ :: _ => true end
  | Some (JArr _) => true
  | Some (JObj _) => true
  end.

Definition index_key (i : nat) : jsstring := lit (pretty (N.of_nat i)).

(** The own enumerable properties [{...v}] copies. *)
Definition spread (v : json) : list (jsstring * json) :=
  match v with
  | JObj props => props
  | JArr items => imap (fun i x => (index_key i, x)) items
  | JStr s => imap (fun i c => (index_key i, JStr [c])) s
  | JNull | JBool _ | JNum _ _ => []
  end.

(** ** State, exceptions and the outside world *)

Record world := World {
  files : gmap jsstring (list Byte.byte);   (* the file system, by path *)
  prompts : list jsstring                   (* prompts sent so far, oldest first *)
}.

Definition set_files (f : gmap jsstring (list Byte.byte)) (w : world) : world :=
  World f (prompts w).

Inductive outcome (A : Type) : Type :=
| Returned (a : A)
| Thrown.
Arguments Returned {A} a.
Arguments Thrown {A}.

(** A computation runs in a world and either returns or throws; the
    effects it had before throwing stay. *)
Definition M (A : Type) : Type := world -> outcome A * world.

#[global] Instance M_ret : MRet M := fun A a w => (Returned a, w).
#[global] Instance M_bind : MBind M := fun A B f m w =>
  match m w with
  | (Returned a, w') => f a w'
  | (Thrown, w') => (Thrown, w')
  end.

Definition throw {A} : M A := fun w => (Thrown, w).

(** [try { body } catch (error) { handler }] *)
Definition try_catch {A} (body handler : M A) : M A := fun w =>
  match body w with
  | (Returned a, w') => (Returned a, w')
  | (Thrown, w') => handler w'
  end.

Definition lift_option {A} (o : option A) : M A :=
  match o with Some a => mret a | None => throw end.

(** [fs.readFileSync(path)], [fs.existsSync(path)], [fs.unlinkSync(path)] *)
Definition readFileSync (path : jsstring) : M (list Byte.byte) := fun w =>
  lift_option (files w !! path) w.

Definition existsSync (path : jsstring) : M bool := fun w =>
  (Returned (bool_decide (is_Some (files w !! path))), w).

Definition unlinkSync (path : jsstring) : M unit := fun w =>
  match files w !! path with
  | Some _ => (Returned tt, set_files (delete path (files w)) w)
  | None => (Thrown, w)
  end.

(** The collaborators the service calls but does not implement. [None] is
    a rejected promise or a thrown error.

    The last three fields are not collaborators but what is left open
    about the platform.  [to_string] and [exceeds_10000] are the engine's
    [ToString] and [> 10000] on a JSON value that is no string: on
    numbers they go through doubles, and on objects and arrays they may
    throw a [TypeError] ([None]).  [unread_body] is [req.body] when the
    JSON body parser read nothing: the empty object in express 4,
    [undefined] ([None]) in express 5; the source does not fix the
    version. *)
Record env := Env {
  generate : jsstring -> option jsstring;        (* model.generateContent, response.text() *)
  pdf_parse : list Byte.byte -> option jsstring; (* (await pdf(buffer)).text *)
  utf8_decode : list Byte.byte -> jsstring;      (* the 'utf8' decoding of fs *)
  now_iso : jsstring;                            (* new Date().toISOString() *)
  to_string : json -> option jsstring;           (* `${v}`, v not a string *)
  exceeds_10000 : json -> option bool;           (* v > 10000, v any JSON value *)
  unread_body : option json                      (* req.body when nothing was parsed *)
}.

(** [analysisData.<k>] for the two names the service reads; neither is a
    prototype property, so only own properties of objects count, and
    reading from [null] throws a [TypeError]. *)
Definition get_prop (v : json) (k : jsstring) : M (option json) :=
  match v with
  | JNull => throw
  | JObj props => mret (obj_get k props)
  | _ => mret None
  end.

(** ** Responses *)

Record response := Response { status : N; body : json }.

(** [res.status(code).json({ error, message })] *)
Definition error_response (code : N) (error message : jsstring) : response :=
  Response code (JObj [(lit "error", JStr error); (lit "message", JStr message)]).

Definition js_length (s : jsstring) : N := N.of_nat (length s).

(** [s.substring(0, n)] *)
Definition substring0 (n : N) (s : jsstring) : jsstring := take (N.to_nat n) s.

Definition JInt (n : N) : json := JNum (Z.of_N n) 0.

Section Service.

Variable E : env.

(** [model.generateContent(prompt)] and the reading of its text. *)
Definition generateContent (prompt : jsstring) : M jsstring := fun w =>
  lift_option (generate E prompt) (World (files w) (prompts w ++ [prompt])).

(** The parsing block shared by both routes; [None] is the caught
    [SyntaxError]. *)
Definition parseAnalysis (responseText : jsstring) : option json :=
  JSON_parse (cleanText responseText).

Definition parse_failure : response :=
  error_response 500 (lit "API Processing Error")
    (lit "Failed to parse analysis from AI service").

(** *** POST /analyze *)

(** The two fields the handler destructures from [req.body], each a
    string or absent, as the data model of the specification has them.
    [analyze] is the handler on such a body; [analyze_value] below is the
    handler on whatever the body parser hands over, and agrees with it on
    these bodies. *)
Record analyze_body := AnalyzeBody {
  text : option jsstring;
  query : option jsstring
}.

(** [!analysisData.simplified || !analysisData.riskAssessment] *)
Definition structure_invalid (analysisData : json) : M bool :=
  simplified ← get_prop analysisData (lit "simplified");
  if negb (truthy simplified) then mret true
  else
    riskAssessment ← get_prop analysisData (lit "riskAssessment");
    mret (negb (truthy riskAssessment)).

Definition analyze_try (b : analyze_body) : M response :=
  match text b with
  | None | Some [] =>
      mret (error_response 400 (lit "Validation Error") (lit "Text content is required"))
  | Some text =>
      if 10000 <? js_length text then
        mret (error_response 400 (lit "Validation Error")
                (lit "Text must be less than 10,000 characters"))
      else
        let prompt := buildLegalAnalysisPrompt text (query b) in
        responseText ← generateContent prompt;
        match parseAnalysis responseText with
        | None => mret parse_failure
        | Some analysisData =>
            invalid ← structure_invalid analysisData;
            if invalid : bool then
              mret (error_response 500 (lit "API Processing Error")
                      (lit "Invalid analysis response structure"))
            else
              let metadata := JObj [
                (lit "timestamp", JStr (now_iso E));
                (lit "textLength", JInt (js_length text));
                (lit "hasQuery", JBool (truthy_string (query b))) ] in
              mret (Response 200 (JObj (obj_set (lit "metadata") metadata (spread analysisData))))
        end
  end.

Definition analyze (b : analyze_body) : M response :=
  try_catch (analyze_try b)
    (mret (error_response 500 (lit "Internal Server Error")
             (lit "An unexpected error occurred while analyzing the document"))).

(** *** POST /analyze on any body *)

(** [req.body.<k>] for the two names the handler destructures: an own
    property of an object; an array (the other value the body parser lets
    through) has neither. *)
Definition body_member (k : jsstring) (body : json) : option json :=
  match body with
  | JObj props => obj_get k props
  | _ => None
  end.

(** [text.length], [None] for [undefined]: strings and arrays have one,
    an object has what its own property of that name holds. *)
Definition length_of (text : json) : option json :=
  match text with
  | JStr s => Some (JInt (js_length s))
  | JArr items => Some (JInt (N.of_nat (length items)))
  | JObj props => obj_get (lit "length") props
  | JNull | JBool _ | JNum _ _ => None
  end.

(** [text.length > 10000]; [undefined > 10000] is false. *)
Definition too_long (text : json) : M bool :=
  match text with
  | JStr s => mret (10000 <? js_length s)
  | JArr items => mret (10000 <? N.of_nat (length items))
  | JObj props =>
      match obj_get (lit "length") props with
      | Some v => lift_option (exceeds_10000 E v)
      | None => mret false
      end
  | JNull | JBool _ | JNum _ _ => mret false
  end.

(** [`${v}`] *)
Definition template_string (v : json) : M jsstring :=
  match v with
  | JStr s => mret s
  | _ => lift_option (to_string E v)
  end.

(** [buildLegalAnalysisPrompt(text, query)] on values: the question line
    is there for a truthy query. *)
Definition build_prompt (text : json) (query : option json) : M jsstring :=
  textString ← template_string text;
  match query with
  | Some q =>
      if truthy (Some q) then
        queryString ← template_string q;
        mret (prompt_head ++ textString ++ prompt_mid
              ++ ql "SPECIFIC QUESTION: ~" ++ queryString ++ ql "~" ++ prompt_tail)
      else mret (prompt_head ++ textString ++ prompt_mid ++ prompt_tail)
  | None => mret (prompt_head ++ textString ++ prompt_mid ++ prompt_tail)
  end.

(** The [metadata] of /analyze; a property whose value is [undefined] is
    not written. *)
Definition analyze_metadata (text : json) (query : option json) : json :=
  JObj ((lit "timestamp", JStr (now_iso E))
        :: match length_of text with
           | Some l => [(lit "textLength", l)]
           | None => []
           end
        ++ [(lit "hasQuery", JBool (truthy query))]).

Definition analyze_value_try (body : option json) : M response :=
  match body with
  | None | Some JNull => throw     (* destructuring [undefined] or [null] *)
  | Some body =>
      let query := body_member (lit "query") body in
      match body_member (lit "text") body with
      | None =>
          mret (error_response 400 (lit "Validation Error") (lit "Text content is required"))
      | Some text =>
          if negb (truthy (Some text)) then
            mret (error_response 400 (lit "Validation Error")
                    (lit "Text content is required"))
          else
            long ← too_long text;
            if long : bool then
              mret (error_response 400 (lit "Validation Error")
                      (lit "Text must be less than 10,000 characters"))
            else
              prompt ← build_prompt text query;
              responseText ← generateContent prompt;
              match parseAnalysis responseText with
              | None => mret parse_failure
              | Some analysisData =>
                  invalid ← structure_invalid analysisData;
                  if invalid : bool then
                    mret (error_response 500 (lit "API Processing Error")
                            (lit "Invalid analysis response structure"))
                  else
                    mret (Response 200
                            (JObj (obj_set (lit "metadata") (analyze_metadata text query)
                                     (spread analysisData))))
              end
      end
  end.

(** The handler of [app.post('/analyze', ...)] on [req.body]. *)
Definition analyze_value (body : option json) : M response :=
  try_catch (analyze_value_try body)
    (mret (error_response 500 (lit "Internal Server Error")
             (lit "An unexpected error occurred while analyzing the document"))).

(** *** POST /upload *)

(** [req.file] as multer leaves it. *)
Record uploaded_file := UploadedFile {
  originalname : jsstring;
  mimetype : jsstring;
  size : N;
  path : jsstring
}.

Record upload_request := UploadRequest {
  file : option uploaded_file;
  body_query : option jsstring          (* req.body.query *)
}.

Definition extractText (f : uploaded_file) : M jsstring :=
  if jsstring_eqb (mimetype f) (lit "application/pdf") then
    pdfBuffer ← readFileSync (path f);
    lift_option (pdf_parse E pdfBuffer)
  else if jsstring_eqb (mimetype f) (lit "text/plain") then
    buffer ← readFileSync (path f);
    mret (utf8_decode E buffer)
  else mret [].

(** [if (extractedText.length > 10000) extractedText = extractedText.substring(0, 10000) + '...'] *)
Definition truncate (extractedText : jsstring) : jsstring :=
  if 10000 <? js_length extractedText
  then substring0 10000 extractedText ++ lit "..."
  else extractedText.

Definition upload_try (req : upload_request) : M response :=
  match file req with
  | None =>
      mret (error_response 400 (lit "Validation Error") (lit "No file uploaded"))
  | Some f =>
      extractedText ← extractText f;
      unlinkSync (path f);;
      match trim extractedText with
      | [] =>
          mret (error_response 400 (lit "Processing Error")
                  (lit "Could not extract text from the uploaded file"))
      | _ :: _ =>
          let extractedText := truncate extractedText in
          let prompt := buildLegalAnalysisPrompt extractedText (body_query req) in
          responseText ← generateContent prompt;
          match parseAnalysis responseText with
          | None => mret parse_failure
          | Some analysisData =>
              let metadata := JObj [
                (lit "timestamp", JStr (now_iso E));
                (lit "fileName", JStr (originalname f));
                (lit "fileSize", JInt (size f));
                (lit "textLength", JInt (js_length extractedText)) ] in
              mret (Response 200 (JObj (obj_set (lit "metadata") metadata (spread analysisData))))
          end
      end
  end.

Definition upload_catch (req : upload_request) : M response :=
  match file req with
  | Some f =>
      present ← existsSync (path f);
      (if present : bool then unlinkSync (path f) else mret tt)
  | None => mret tt
  end;;
  mret (error_response 500 (lit "Internal Server Error")
          (lit "An unexpected error occurred while processing the file")).

Definition upload (req : upload_request) : M response :=
  try_catch (upload_try req) (upload_catch req).

End Service.

(** ** The transport layer of /upload: multer and the error middleware *)

(** What reaches [next(err)]: multer's own errors carry a code, the file
    filter's is a plain [Error], and the JSON body parser's carry an HTTP
    status and a type. *)
Inductive js_error : Type :=
| MulterError (code : jsstring)
| PlainError (message : jsstring)
| BodyParserError (status_code : N) (type : jsstring).

(** The [document] part of a multipart request, with the number of bytes
    the transport counted for it. *)
Record multipart_file := MultipartFile {
  part_originalname : jsstring;
  part_mimetype : jsstring;
  part_size : N;
  part_data : list Byte.byte
}.

Record multipart_request := MultipartRequest {
  document : option multipart_file;
  query_field : option jsstring;
  tmp_path : jsstring              (* the name multer picks under uploads/ *)
}.

(** [limits: { fileSize: 10 * 1024 * 1024 }] *)
Definition fileSize_limit : N := 10 * 1024 * 1024.

(** [fileFilter]: [None] is [cb(null, true)]. *)
Definition fileFilter (f : multipart_file) : option js_error :=
  if jsstring_eqb (part_mimetype f) (lit "application/pdf")
     || jsstring_eqb (part_mimetype f) (lit "text/plain")
  then None
  else Some (PlainError (lit "Only PDF and text files are allowed")).

(** Library model (multer 1.4.5, not part of the repository):
    [upload.single('document')] with the options of the source.  The
    filter decides first; an accepted file is written to disk storage
    under a name of multer's choice, unless it reaches the size limit:
    a file of [fileSize] bytes or more is the error [LIMIT_FILE_SIZE] and
    leaves nothing behind. *)
Definition upload_single (r : multipart_request) (w : world)
  : (js_error + upload_request) * world :=
  match document r with
  | None => (inr (UploadRequest None (query_field r)), w)
  | Some p =>
      match fileFilter p with
      | Some err => (inl err, w)
      | None =>
          if fileSize_limit <=? part_size p
          then (inl (MulterError (lit "LIMIT_FILE_SIZE")), w)
          else
            (inr (UploadRequest
                    (Some (UploadedFile (part_originalname p) (part_mimetype p)
                             (part_size p) (tmp_path r)))
                    (query_field r)),
             set_files (<[tmp_path r := part_data p]> (files w)) w)
      end
  end.

(** The error-handling middleware. *)
Definition error_middleware (err : js_error) : response :=
  match err with
  | MulterError code =>
      if jsstring_eqb code (lit "LIMIT_FILE_SIZE") then
        error_response 400 (lit "File Error")
          (lit "File size too large. Maximum size is 10MB.")
      else
        error_response 500 (lit "Internal Server Error") (lit "An unexpected error occurred")
  | PlainError _ | BodyParserError _ _ =>
      error_response 500 (lit "Internal Server Error") (lit "An unexpected error occurred")
  end.

(** The route [app.post('/upload', upload.single('document'), handler)]
    followed by the error middleware. *)
Definition post_upload (E : env) (r : multipart_request) : M response := fun w =>
  match upload_single r w with
  | (inl err, w') => (Returned (error_middleware err), w')
  | (inr req, w') => upload E req w'
  end.

(** ** The final handler *)

Record request := Request { method : jsstring; req_path : jsstring }.

(** The last [app.use]: [None] when it returns without responding. *)
Definition not_found_handler (req : request) : option response :=
  if startsWith (req_path req) (lit "/api")
     || startsWith (req_path req) (lit "/analyze")
     || startsWith (req_path req) (lit "/upload")
  then
    Some (error_response 404 (lit "Not Found")
            (lit "Route " ++ method req ++ lit " " ++ req_path req ++ lit " not found"))
  else None.

(** ** The application: middleware, routes, final handlers *)

(** The body of a request as the body parsers see it: none (or one of a
    type no parser of this service reads), a JSON body with its length in
    bytes and its text, or a multipart form. *)
Inductive http_body : Type :=
| NoBody
| JsonBody (bytes : N) (content : jsstring)
| FormBody (form : multipart_request).

Record http_request := HttpRequest {
  request_line : request;
  payload : http_body
}.

(** What the client gets: a JSON response, a status without body, or
    nothing at all (no handler responds and the request stays open). *)
Inductive reply : Type :=
| Replied (r : response)
| EmptyReply (code : N)
| NoReply.

(** Library model (cors 2.8, not part of the repository): with the
    options of the source, a request of method OPTIONS is a preflight and
    is ended with 204 and no body; every other request goes on, with
    headers added.  Node hands over method names in capitals. *)
Definition cors_preflight (req : request) : bool :=
  jsstring_eqb (method req) (lit "OPTIONS").

(** [limit: '10mb'] *)
Definition json_limit : N := 10 * 1024 * 1024.

(** Library model (express.json, that is body-parser, not part of the
    repository), with the limit of the source and [strict] left at its
    default.  A body longer than the limit is refused ([entity.too.large],
    status 413); an empty body reads as the empty object; otherwise the
    first character after white space must open an object or an array
    and the text must parse ([entity.parse.failed], status 400).  The
    result is what [req.body] becomes, [inl] what goes to [next(err)].
    Requests without a JSON body are not read.  Bodies are taken to be
    UTF-8 without content encoding; the parser refuses others in the
    same way. *)
Definition express_json (E : env) (b : http_body) : js_error + option json :=
  match b with
  | NoBody | FormBody _ => inr (unread_body E)
  | JsonBody bytes content =>
      if json_limit <? bytes then inl (BodyParserError 413 (lit "entity.too.large"))
      else
        match content with
        | [] => inr (Some (JObj []))
        | _ :: _ =>
            match skip_ws content with
            | c :: _ =>
                if (c =? 123) || (c =? 91) then
                  match JSON_parse content with
                  | Some v => inr (Some v)
                  | None => inl (BodyParserError 400 (lit "entity.parse.failed"))
                  end
                else inl (BodyParserError 400 (lit "entity.parse.failed"))
            | [] => inl (BodyParserError 400 (lit "entity.parse.failed"))
            end
        end
  end.

(** Library model (the router of express, not part of the repository):
    a route path matches a request path without regard to the case of
    ASCII letters and with or without one closing slash. *)
Definition ascii_lower (c : N) : N :=
  if (65 <=? c) && (c <=? 90) then c + 32 else c.

Definition path_matches (route path : jsstring) : bool :=
  let p := map ascii_lower path in
  if jsstring_eqb route (lit "/") then jsstring_eqb p (lit "/")
  else jsstring_eqb p route || jsstring_eqb p (route ++ lit "/").

(** A route registered with [app.get] also serves HEAD. *)
Definition method_matches (route_method m : jsstring) : bool :=
  jsstring_eqb m route_method
  || (jsstring_eqb route_method (lit "GET") && jsstring_eqb m (lit "HEAD")).

Definition route_matches (route_method route_path : jsstring) (req : request) : bool :=
  method_matches route_method (method req) && path_matches route_path (req_path req).

(** [res.json(...)]: a HEAD request gets the status without the body. *)
Definition send (req : request) (r : response) : reply :=
  if jsstring_eqb (method req) (lit "HEAD") then EmptyReply (status r) else Replied r.

(** [res.status(200).json({ message: 'Backend is running ✅' })] *)
Definition root_response : response :=
  Response 200 (JObj [(lit "message", JStr (lit "Backend is running " ++ [9989]))]).

(** The body of /health. *)
Definition health_response (E : env) : response :=
  Response 200 (JObj [ (lit "status", JStr (lit "OK"));
                       (lit "timestamp", JStr (now_iso E));
                       (lit "service", JStr (lit "Legal Document Simplifier"));
                       (lit "version", JStr (lit "1.0.0")) ]).

(** [upload.single('document')] and the handler of /upload on any body:
    multer reads multipart forms only; without one there is no
    [req.file]. *)
Definition upload_route (E : env) (b : http_body) : M response :=
  match b with
  | FormBody form => post_upload E form
  | NoBody | JsonBody _ _ => upload E (UploadRequest None None)
  end.

(** The application, in the order of its [app.use], [app.get] and
    [app.post] calls: cors, the JSON body parser, the four routes, the
    error middleware for what the parsers refuse, and the final
    handler. *)
Definition app (E : env) (req : http_request) : M reply := fun w =>
  let line := request_line req in
  if cors_preflight line then (Returned (EmptyReply 204), w)
  else
    match express_json E (payload req) with
    | inl err => (Returned (send line (error_middleware err)), w)
    | inr body =>
        if route_matches (lit "GET") (lit "/") line then
          (Returned (send line root_response), w)
        else if route_matches (lit "POST") (lit "/analyze") line then
          match analyze_value E body w with
          | (Returned r, w') => (Returned (send line r), w')
          | (Thrown, w') => (Thrown, w')
          end
        else if route_matches (lit "POST") (lit "/upload") line then
          match upload_route E (payload req) w with
          | (Returned r, w') => (Returned (send line r), w')
          | (Thrown, w') => (Thrown, w')
          end
        else if route_matches (lit "GET") (lit "/health") line then
          (Returned (send line (health_response E)), w)
        else
          match not_found_handler line with
          | Some r => (Returned (send line r), w)
          | None => (Returned NoReply, w)
          end
    end.

(** ** The client: chart aggregation *)

Record riskFactor := RiskFactor {
  clause : jsstring;
  risk : jsstring;
  explanation : jsstring;
  impact : jsstring
}.

Record actionItem := ActionItem {
  action : jsstring;
  priority : jsstring;
  deadline : option jsstring
}.

(** The part of an [AnalysisResult] the charts read. *)
Record AnalysisResult := {
  riskFactors : list riskFactor;          (* data.riskAssessment.riskFactors *)
  actionItems : option (list actionItem)  (* data.actionItems, possibly absent *)
}.

(** A counter is a number; incrementing what is not a number gives [NaN]. *)
Inductive jsnum : Type :=
| Num (n : N)
| NaN.

(** [{ high: 0, medium: 0, low: 0 }] *)
Definition zero_counts : gmap jsstring jsnum :=
  <[lit "low" := Num 0]> (<[lit "medium" := Num 0]> (<[lit "high" := Num 0]> ∅)).

(** [counts[k]++].  A key the object does not own reads as [undefined] or
    as an inherited member, and the increment stores [NaN] under it;
    assigning a number to [__proto__] changes nothing. *)
Definition increment (k : jsstring) (counts : gmap jsstring jsnum)
  : gmap jsstring jsnum :=
  if jsstring_eqb k (lit "__proto__") then counts
  else
    match counts !! k with
    | Some (Num n) => <[k := Num (n + 1)]> counts
    | Some NaN | None => <[k := NaN]> counts
    end.

(** [[counts.high, counts.medium, counts.low]] *)
Definition chart_data (counts : gmap jsstring jsnum) : list (option jsnum) :=
  [counts !! lit "high"; counts !! lit "medium"; counts !! lit "low"].

Definition riskCounts (data : AnalysisResult) : gmap jsstring jsnum :=
  fold_left (fun counts factor => increment (risk factor) counts)
    (riskFactors data) zero_counts.

Definition actionCounts (data : AnalysisResult) : gmap jsstring jsnum :=
  match actionItems data with
  | Some items =>
      fold_left (fun counts item => increment (priority item) counts) items zero_counts
  | None => zero_counts
  end.

(** The [data] arrays of the two charts [updateChartsWithRiskData] draws:
    the bar chart, then the doughnut.  A chart is drawn only when its
    canvas is in the page. *)
Definition updateChartsWithRiskData (violationsCtx penaltyCtx : bool)
    (data : AnalysisResult)
  : option (list (option jsnum)) * option (list (option jsnum)) :=
  ((if violationsCtx then Some (chart_data (riskCounts data)) else None),
   (if penaltyCtx then Some (chart_data (actionCounts data)) else None)).

(** ** Fence wrapping *)

(** A text wrapped the way the generation service wraps JSON: an opening
    fence line tagged [json], the text, a closing fence line. *)
Definition fenced (s : jsstring) : jsstring :=
  fence_json ++ LF :: s ++ LF :: fence.

(** Whether [pat] occurs somewhere in [s]. *)
Fixpoint occurs (pat s : jsstring) : bool :=
  match s with
  | [] => false
  | _ :: s' => startsWith s pat || occurs pat s'
  end.

(** ** Vocabulary of the parser lemmas *)

(** [s] is some text, then a code unit satisfying [P], then [rest]: what a
    parser consumed of [s] ends with such a code unit. *)
Definition consumed_upto (P : N -> Prop) (s rest : jsstring) : Prop :=
  exists pre c, s = pre ++ c :: rest /\ P c.

(** The last code unit of a JSON value: not the letter [n], not white
    space. *)
Definition value_end (c : N) : Prop := c <> 110 /\ is_js_whitespace c = false.

(** A parser result when [w] is appended to the text: the same value,
    with [w] after what was left. *)
Definition extend_rest {A} (w : jsstring) (p : A * jsstring) : A * jsstring :=
  (p.1, p.2 ++ w).

(** Made of JSON white space only. *)
Definition json_blank (w : jsstring) : Prop :=
  Forall (fun c => is_json_ws c = true) w.

(** ** Vocabulary of the statements *)

(** [s.includes(t)]: [t] is a contiguous part of [s]. *)
Definition includes (s t : jsstring) : Prop :=
  exists before after, s = before ++ t ++ after.

(** How many of the given levels are [level]. *)
Definition count_level (level : jsstring) (levels : list jsstring) : N :=
  N.of_nat (length (filter (fun l => l = level) levels)).

(** The [data] array a chart shows for the given levels:
    high, medium, low. *)
Definition counts_by_level (levels : list jsstring) : list (option jsnum) :=
  map (fun level => Some (Num (count_level level levels)))
    [lit "high"; lit "medium"; lit "low"].

(** [body.metadata.textLength] of a response. *)
Definition metadata_textLength (r : response) : option json :=
  match body r with
  | JObj props =>
      match obj_get (lit "metadata") props with
      | Some (JObj metadata) => obj_get (lit "textLength") metadata
      | _ => None
      end
  | _ => None
  end.

(** The own property [k] of a value, if it is an object that has it. *)
Definition own_property (k : jsstring) (v : json) : option json :=
  match v with
  | JObj props => obj_get k props
  | _ => None
  end.

(** [body.<k>] of a response. *)
Definition body_field (k : jsstring) (r : response) : option json :=
  own_property k (body r).

(** Empty or made of white space only: what [trim] reduces to nothing. *)
Definition blank (s : jsstring) : Prop :=
  Forall (fun c => is_js_whitespace c = true) s.

(** ** Concrete requests *)

Definition ascii_bytes (s : string) : list Byte.byte :=
  map byte_of_ascii (list_ascii_of_string s).
Arguments ascii_bytes s%_string.

(** An environment for the examples: the generation service answers
    [answer] to every prompt, the PDF parser rejects its input, and the
    decoder maps a byte to the code unit of the same value, as UTF-8 does
    on the ASCII files of the examples.  The platform is express 4; the
    examples have no text or query that is not a string, so the other two
    platform fields are never consulted. *)
Definition example_env (answer : option jsstring) : env :=
  Env (fun _ => answer) (fun _ => None) (map Byte.to_N)
      (lit "2024-05-01T12:00:00.000Z")
      (fun _ => None) (fun _ => None) (Some (JObj [])).

Definition no_files : world := World ∅ [].

(** A text file sent to /upload. *)
Definition text_upload (content : list Byte.byte) : multipart_request :=
  MultipartRequest
    (Some (MultipartFile (lit "lease.txt") (lit "text/plain")
             (N.of_nat (length content)) content))
    None (lit "uploads/5f1d2c").

(** An image sent to /upload. *)
Definition image_upload : multipart_request :=
  MultipartRequest
    (Some (MultipartFile (lit "scan.png") (lit "image/png") 2048 []))
    None (lit "uploads/5f1d2c").

(** [req] as the handler of /upload sees [text_upload content], and the
    world multer leaves. *)
Definition stored_text_upload (content : list Byte.byte) : upload_request * world :=
  match upload_single (text_upload content) no_files with
  | (inr req, w) => (req, w)
  | (inl _, w) => (UploadRequest None None, w)
  end.

(** An answer of the generation service that is valid JSON but has no
    [riskAssessment]. *)
Definition answer_without_risk : jsstring := ql "{~simplified~: ~A lease.~}".

(** A complete answer, raw. *)
Definition answer_complete : jsstring :=
  ql "{~simplified~: ~A lease.~, ~riskAssessment~: {~overallRisk~: ~high~, ~riskFactors~: []}}".

Definition answer_complete_value : json :=
  JObj [ (lit "simplified", JStr (lit "A lease."));
         (lit "riskAssessment",
          JObj [ (lit "overallRisk", JStr (lit "high"));
                 (lit "riskFactors", JArr []) ]) ].

(** A file of 10001 letters, and its text. *)
Definition long_content : list Byte.byte := repeat Byte.x61 (N.to_nat 10001).
Definition long_text : jsstring := repeat 97 (N.to_nat 10001).

(** A file of spaces and a line feed. *)
Definition blank_content : list Byte.byte := ascii_bytes "   " ++ [Byte.x0a].

(** The environment of the worked examples: a complete answer, fenced. *)
Definition example_service : env := example_env (Some (fenced answer_complete)).

(** The long file, as the handler of /upload receives it. *)
Definition long_request : upload_request := (stored_text_upload long_content).1.
Definition long_world : world := (stored_text_upload long_content).2.
Definition long_file : uploaded_file :=
  UploadedFile (lit "lease.txt") (lit "text/plain") 10001 (lit "uploads/5f1d2c").

(** The blank file, likewise. *)
Definition blank_request : upload_request := (stored_text_upload blank_content).1.
Definition blank_world : world := (stored_text_upload blank_content).2.
Definition blank_file : uploaded_file :=
  UploadedFile (lit "lease.txt") (lit "text/plain") 4 (lit "uploads/5f1d2c").
Definition blank_text : jsstring := [32; 32; 32; 10].

(** ** More of the surface *)

(** The same wrapping with an untagged opening fence. *)
Definition plain_fenced (s : jsstring) : jsstring :=
  fence ++ LF :: s ++ LF :: fence.

(** ** The client: theme *)

(** What the theme code reads and writes: the [theme] item of
    [localStorage] ([None] when [getItem] gives [null]), the [data-theme]
    attribute of the root element ([None] when [getAttribute] gives
    [null]), and the text of the toggle's icon. *)
Record theme_state := ThemeState {
  stored_theme : option jsstring;
  data_theme : option jsstring;
  theme_icon : jsstring
}.

(** The sun (U+2600 U+FE0F) and the crescent moon (U+1F319, a surrogate
    pair). *)
Definition sun_icon : jsstring := [9728; 65039].
Definition moon_icon : jsstring := [55356; 57113].

(** [theme === "dark" ? sun : moon] *)
Definition updateThemeIcon (theme : jsstring) : jsstring :=
  if jsstring_eqb theme (lit "dark") then sun_icon else moon_icon.

(** On load: [localStorage.getItem("theme") || "light"] goes to the
    attribute and decides the icon. *)
Definition load_theme (st : theme_state) : theme_state :=
  let savedTheme :=
    match stored_theme st with
    | Some (c :: t) => c :: t
    | Some [] | None => lit "light"
    end in
  ThemeState (stored_theme st) (Some savedTheme) (updateThemeIcon savedTheme).

(** The click handler of the toggle. *)
Definition toggle_theme (st : theme_state) : theme_state :=
  let newTheme :=
    if bool_decide (data_theme st = Some (lit "dark")) then lit "light" else lit "dark" in
  ThemeState (Some newTheme) (Some newTheme) (updateThemeIcon newTheme).

(** ** The client: requests *)

(** The chosen file, if any, and the value of the search box. *)
Record client_state := ClientState {
  currentFile : option multipart_file;
  searchInput : jsstring
}.

(** What [fetch] is called with: the JSON body [{ text }] for /analyze, or
    the form data for /upload with its optional [query] field. *)
Inductive fetch_request : Type :=
| PostAnalyze (text : jsstring)
| PostUpload (document : multipart_file) (query : option jsstring).

(** [analyzeText()]: [None] when it returns without calling [fetch]. *)
Definition analyzeText (st : client_state) : option fetch_request :=
  match trim (searchInput st) with
  | [] => None
  | c :: text => Some (PostAnalyze (c :: text))
  end.

(** [analyzeDocument(query)]: the query is appended only when truthy. *)
Definition analyzeDocument (st : client_state) (query : option jsstring)
  : option fetch_request :=
  match currentFile st with
  | None => None
  | Some f => Some (PostUpload f (if truthy_string query then query else None))
  end.

(** The [keypress] handler of the search box, for the Enter key. *)
Definition on_enter (st : client_state) : option fetch_request :=
  match currentFile st with
  | Some _ => analyzeDocument st (Some (trim (searchInput st)))
  | None => analyzeText st
  end.

(** The [change] handler of the file input, for [files[0]]: a chosen file
    becomes the current one and is analyzed at once, without query. *)
Definition on_file_chosen (st : client_state) (chosen : option multipart_file)
  : client_state * option fetch_request :=
  match chosen with
  | Some f =>
      let st' := ClientState (Some f) (searchInput st) in
      (st', analyzeDocument st' None)
  | None => (st, None)
  end.

(** ** More vocabulary *)

(** One of the three levels the charts know. *)
Definition known_level (l : jsstring) : bool :=
  jsstring_eqb l (lit "high") || jsstring_eqb l (lit "medium") || jsstring_eqb l (lit "low").

(** The sum of a chart's data, when all of them are numbers. *)
Fixpoint chart_total (data : list (option jsnum)) : option N :=
  match data with
  | [] => Some 0
  | Some (Num n) :: rest =>
      match chart_total rest with
      | Some t => Some (n + t)
      | None => None
      end
  | _ => None
  end.

(** A PDF sent to /upload, and an environment whose PDF parser rejects
    it. *)
Definition pdf_upload : multipart_request :=
  MultipartRequest
    (Some (MultipartFile (lit "lease.pdf") (lit "application/pdf") 4
             (ascii_bytes "%PDF")))
    None (lit "uploads/77aa01").

(** A file one byte over the limit. *)
Definition oversize_upload : multipart_request :=
  MultipartRequest
    (Some (MultipartFile (lit "lease.pdf") (lit "application/pdf")
             (fileSize_limit + 1) []))
    None (lit "uploads/77aa01").

(** A short text file, as the handler of /upload receives it. *)
Definition short_content : list Byte.byte := ascii_bytes "Rent is due monthly.".
Definition short_request : upload_request := (stored_text_upload short_content).1.
Definition short_world : world := (stored_text_upload short_content).2.
Definition short_file : uploaded_file :=
  UploadedFile (lit "lease.txt") (lit "text/plain") 20 (lit "uploads/5f1d2c").
Definition short_text : jsstring := lit "Rent is due monthly.".


(** The short text sent to /analyze, without query. *)
Definition short_body : analyze_body := AnalyzeBody (Some short_text) None.

(** The PDF, as the handler of /upload receives it. *)
Definition stored_pdf_upload : upload_request * world :=
  match upload_single pdf_upload no_files with
  | (inr req, w) => (req, w)
  | (inl _, w) => (UploadRequest None None, w)
  end.
Definition pdf_request : upload_request := stored_pdf_upload.1.
Definition pdf_world : world := stored_pdf_upload.2.
Definition pdf_file : uploaded_file :=
  UploadedFile (lit "lease.pdf") (lit "application/pdf") 4 (lit "uploads/77aa01").


(** The page with the short file chosen and a question typed, and with
    only a text typed. *)
Definition short_part : multipart_file :=
  MultipartFile (lit "lease.txt") (lit "text/plain") 20 short_content.
Definition asking_state : client_state :=
  ClientState (Some short_part) (lit " When is rent due? ").
Definition typing_state : client_state :=
  ClientState None (lit "  Rent is due monthly. ").

(** ** More vocabulary and requests, for the application *)

(** A value without numbers, the part of JSON on which text and value
    are the same thing to the code. *)
Fixpoint number_free (v : json) : bool :=
  match v with
  | JNum _ _ => false
  | JArr items => forallb number_free items
  | JObj props => forallb (fun kv => number_free (snd kv)) props
  | JNull | JBool _ | JStr _ => true
  end.

(** A request with a JSON body, its length counted on the (ASCII) text. *)
Definition json_request (m path : jsstring) (content : jsstring) : http_request :=
  HttpRequest (Request m path) (JsonBody (N.of_nat (length content)) content).

(** POST /analyze with the short text, with nothing, with the long text. *)
Definition short_analyze : http_request :=
  json_request (lit "POST") (lit "/analyze") (ql "{~text~: ~Rent is due monthly.~}").


(** A preflight and a plain request for a path the service does not
    know. *)
Definition favicon_preflight : http_request :=
  HttpRequest (Request (lit "OPTIONS") (lit "/favicon.ico")) NoBody.
Definition favicon_request : http_request :=
  HttpRequest (Request (lit "GET") (lit "/favicon.ico")) NoBody.
(** * Properties *)

(** ** Strings and patterns *)

Section Strings.

Lemma match_prefix_Some pat s rest :
  match_prefix pat s = Some rest <-> s = pat ++ rest.
Proof.
  revert s. induction pat as [|p pat IH]; intros s; simpl.
  - split; [intros [= ->]|intros ->]; done.
  - destruct s as [|c s]; [split; done|].
    destruct (N.eqb_spec p c) as [->|Hne].
    + rewrite IH. split; [intros ->|intros [= ->]]; done.
    + split; [done|intros [= ? ?]; done].
Qed.

Lemma startsWith_prefix s pat : startsWith s pat = true <-> pat `prefix_of` s.
Proof.
  unfold startsWith. split.
  - destruct (match_prefix pat s) as [rest|] eqn:Hm; [|done].
    intros _. exists rest. by apply match_prefix_Some.
  - intros [rest ->].
    by rewrite (proj2 (match_prefix_Some pat _ rest) eq_refl).
Qed.

Lemma match_prefix_app pat s rest u :
  match_prefix pat s = Some rest -> match_prefix pat (s ++ u) = Some (rest ++ u).
Proof.
  rewrite !match_prefix_Some. intros ->. by rewrite app_assoc.
Qed.

(** A pattern without line feed does not start to match across the joint
    with a text that begins with a line feed. *)
Lemma match_prefix_None_app pat s u :
  LF ∉ pat -> match_prefix pat s = None -> match_prefix pat (s ++ LF :: u) = None.
Proof.
  revert s. induction pat as [|p pat IH]; intros s Hlf; simpl; [done|].
  destruct s as [|c s]; simpl.
  - intros _. destruct (N.eqb_spec p LF) as [->|]; [|done].
    exfalso. apply Hlf. left.
  - destruct (p =? c); [|done]. apply IH. set_solver.
Qed.

Lemma skip_optional_LF_app rest u :
  rest ≠ [] -> skip_optional_LF (rest ++ u) = skip_optional_LF rest ++ u.
Proof. destruct rest as [|c rest]; [done|]. intros _. simpl. by destruct (c =? LF). Qed.

Lemma skip_optional_LF_suffix s : skip_optional_LF s `suffix_of` s.
Proof.
  destruct s as [|c s]; simpl; [done|].
  destruct (c =? LF); [by apply suffix_cons_r|done].
Qed.

Lemma skip_optional_LF_length s : (length (skip_optional_LF s) <= length s)%nat.
Proof. apply suffix_length, skip_optional_LF_suffix. Qed.

(** Fuel beyond the length of the text changes nothing. *)
Lemma remove_fences_fuel p pat f1 f2 s :
  (length s <= f1)%nat -> (length s <= f2)%nat ->
  remove_fences (p :: pat) f1 s = remove_fences (p :: pat) f2 s.
Proof.
  revert f2 s. induction f1 as [|f1 IH]; intros f2 s H1 H2.
  - destruct s; [|simpl in H1; lia]. by destruct f2.
  - destruct f2 as [|f2]; [destruct s; [done|simpl in H2; lia]|].
    destruct s as [|c s]; [done|].
    cbn [remove_fences].
    destruct (match_prefix (p :: pat) (c :: s)) as [rest|] eqn:Hm.
    + apply match_prefix_Some in Hm. simpl in Hm. injection Hm as -> ->.
      pose proof (skip_optional_LF_length rest).
      simpl in H1, H2. rewrite length_app in H1, H2.
      apply IH; lia.
    + f_equal. simpl in H1, H2. apply IH; lia.
Qed.

Lemma replace_all_nil pat : replace_all pat [] = [].
Proof. done. Qed.

Lemma replace_all_match p pat c s rest :
  match_prefix (p :: pat) (c :: s) = Some rest ->
  replace_all (p :: pat) (c :: s) = replace_all (p :: pat) (skip_optional_LF rest).
Proof.
  intros Hm. unfold replace_all. cbn [length remove_fences]. rewrite Hm.
  apply match_prefix_Some in Hm. simpl in Hm. injection Hm as -> ->.
  pose proof (skip_optional_LF_length rest).
  apply remove_fences_fuel; rewrite ?length_app; lia.
Qed.

Lemma replace_all_keep p pat c s :
  match_prefix (p :: pat) (c :: s) = None ->
  replace_all (p :: pat) (c :: s) = c :: replace_all (p :: pat) s.
Proof. intros Hm. unfold replace_all. cbn [length remove_fences]. by rewrite Hm. Qed.

End Strings.

Section FenceStripping.

Lemma trimStart_snoc s w :
  is_js_whitespace w = true ->
  trimStart (s ++ [w]) = match trimStart s with [] => [] | t => t ++ [w] end.
Proof.
  intros Hw. induction s as [|c s IH]; simpl; [by rewrite Hw|].
  destruct (is_js_whitespace c); done.
Qed.

Lemma trimEnd_snoc s w : is_js_whitespace w = true -> trimEnd (s ++ [w]) = trimEnd s.
Proof. intros Hw. unfold trimEnd. rewrite rev_unit. simpl. by rewrite Hw. Qed.

(** Trailing white space does not survive [trim]. *)
Lemma trim_snoc s w : is_js_whitespace w = true -> trim (s ++ [w]) = trim s.
Proof.
  intros Hw. unfold trim. rewrite trimStart_snoc by done.
  destruct (trimStart s) as [|c t]; [done|]. by apply trimEnd_snoc.
Qed.

Lemma LF_not_in_fence_json : LF ∉ fence_json.
Proof. rewrite list_elem_of_In. vm_compute. intuition discriminate. Qed.

Lemma LF_not_in_fence : LF ∉ fence.
Proof. rewrite list_elem_of_In. vm_compute. intuition discriminate. Qed.

(** A replacement leaves a tail [\n u] alone when the pattern occurs
    neither in the tail nor at the very end of the text. *)
Lemma replace_all_tail_kept p pat u s :
  LF ∉ p :: pat ->
  replace_all (p :: pat) (LF :: u) = LF :: u ->
  ~ (p :: pat) `suffix_of` s ->
  replace_all (p :: pat) (s ++ LF :: u) = replace_all (p :: pat) s ++ LF :: u.
Proof.
  intros Hlf Hu.
  remember (length s) as n eqn:Hn. revert s Hn.
  induction n as [n IH] using lt_wf_ind. intros s Hn Hsuf.
  destruct s as [|c s]; [done|].
  rewrite <- app_comm_cons.
  destruct (match_prefix (p :: pat) (c :: s)) as [rest|] eqn:Hm.
  - rewrite (replace_all_match _ _ _ _ _ Hm).
    pose proof (match_prefix_app _ _ _ (LF :: u) Hm) as Hm'.
    rewrite <- app_comm_cons in Hm'.
    rewrite (replace_all_match _ _ _ _ _ Hm').
    apply match_prefix_Some in Hm.
    destruct rest as [|r rest].
    { exfalso. apply Hsuf. rewrite Hm, app_nil_r. done. }
    rewrite skip_optional_LF_app by done.
    assert (skip_optional_LF (r :: rest) `suffix_of` c :: s) as Hs.
    { rewrite Hm. apply suffix_app_r, skip_optional_LF_suffix. }
    eapply IH; [|done|].
    + subst n. pose proof (skip_optional_LF_length (r :: rest)).
      rewrite Hm, length_app. simpl in *. lia.
    + intros Hp. apply Hsuf. by etrans.
  - rewrite (replace_all_keep _ _ _ _ Hm).
    pose proof (match_prefix_None_app _ _ u Hlf Hm) as Hm'.
    rewrite <- app_comm_cons in Hm'.
    rewrite (replace_all_keep _ _ _ _ Hm'). simpl. f_equal.
    eapply IH; [|done|].
    + subst n. simpl. lia.
    + intros Hp. apply Hsuf. by apply suffix_cons_r.
Qed.

(** A replacement that removes the tail [\n u] but for its line feed
    leaves at most that line feed behind the replaced text. *)
Lemma replace_all_tail_removed p pat u t :
  LF ∉ p :: pat ->
  replace_all (p :: pat) (LF :: u) = [LF] ->
  replace_all (p :: pat) (skip_optional_LF (LF :: u)) = [] ->
  replace_all (p :: pat) (t ++ LF :: u) = replace_all (p :: pat) t ++ [LF]
  \/ replace_all (p :: pat) (t ++ LF :: u) = replace_all (p :: pat) t.
Proof.
  intros Hlf Hu Hu'.
  remember (length t) as n eqn:Hn. revert t Hn.
  induction n as [n IH] using lt_wf_ind. intros t Hn.
  destruct t as [|c t]; [by left|].
  rewrite <- app_comm_cons.
  destruct (match_prefix (p :: pat) (c :: t)) as [rest|] eqn:Hm.
  - rewrite (replace_all_match _ _ _ _ _ Hm).
    pose proof (match_prefix_app _ _ _ (LF :: u) Hm) as Hm'.
    rewrite <- app_comm_cons in Hm'.
    rewrite (replace_all_match _ _ _ _ _ Hm').
    apply match_prefix_Some in Hm.
    destruct rest as [|r rest]; [right; by rewrite app_nil_l, Hu'|].
    rewrite skip_optional_LF_app by done.
    eapply IH; [|done].
    subst n. pose proof (skip_optional_LF_length (r :: rest)).
    rewrite Hm, length_app. simpl in *. lia.
  - rewrite (replace_all_keep _ _ _ _ Hm).
    pose proof (match_prefix_None_app _ _ u Hlf Hm) as Hm'.
    rewrite <- app_comm_cons in Hm'.
    rewrite (replace_all_keep _ _ _ _ Hm').
    destruct (IH (length t) ltac:(subst n; simpl; lia) t eq_refl) as [->| ->];
      [left|right]; done.
Qed.

(** Wrapping a text in fences does not change what the service parses,
    unless the text itself ends with an opening fence. *)
Lemma cleanText_fenced s :
  ~ fence_json `suffix_of` s -> cleanText (fenced s) = cleanText s.
Proof.
  intros Hsuf. unfold cleanText, fenced.
  assert (replace_all fence_json (fence_json ++ LF :: s ++ LF :: fence)
          = replace_all fence_json (s ++ LF :: fence)) as ->.
  { apply (replace_all_match 96 (lit "``json") 96
             (lit "``json" ++ LF :: s ++ LF :: fence) (LF :: s ++ LF :: fence)).
    by apply match_prefix_Some. }
  pose proof (replace_all_tail_kept 96 (lit "``json") fence s LF_not_in_fence_json)
    as Hkept.
  change (96 :: lit "``json") with fence_json in Hkept.
  rewrite Hkept; [|by vm_compute|done].
  destruct (replace_all_tail_removed 96 (lit "``") fence
              (replace_all fence_json s) LF_not_in_fence) as [Ht|Ht];
    [by vm_compute|by vm_compute| |];
    change (96 :: lit "``") with fence in Ht; rewrite Ht; [|done].
  by apply trim_snoc.
Qed.

(** A text without any fence goes through both replacements unchanged. *)
Lemma replace_all_absent p pat s :
  occurs (p :: pat) s = false -> replace_all (p :: pat) s = s.
Proof.
  induction s as [|c s IH]; [done|].
  cbn [occurs]. unfold startsWith. intros [Hhere Hlater]%orb_false_elim.
  destruct (match_prefix (p :: pat) (c :: s)) eqn:Hm; [done|].
  rewrite (replace_all_keep _ _ _ _ Hm). f_equal. by apply IH.
Qed.

Lemma occurs_fence_json s : occurs fence s = false -> occurs fence_json s = false.
Proof.
  induction s as [|c s IH]; [done|].
  cbn [occurs]. intros [Hhere Hlater]%orb_false_elim.
  rewrite (IH Hlater), orb_false_r.
  destruct (startsWith (c :: s) fence_json) eqn:Hs; [|done].
  apply startsWith_prefix in Hs as [k Hk].
  rewrite <- Hhere. symmetry. apply startsWith_prefix.
  exists (lit "json" ++ k). rewrite Hk. done.
Qed.

Lemma cleanText_fence_free s : occurs fence s = false -> cleanText s = trim s.
Proof.
  intros Hfree. unfold cleanText.
  change fence_json with (96 :: lit "``json"). change fence with (96 :: lit "``").
  rewrite (replace_all_absent 96 (lit "``json")) by (by apply occurs_fence_json).
  by rewrite (replace_all_absent 96 (lit "``")).
Qed.

End FenceStripping.

Section ParserShape.

Lemma expect_Some c s rest : expect c s = Some rest <-> s = c :: rest.
Proof.
  destruct s as [|x s]; simpl; [done|].
  destruct (N.eqb_spec x c) as [->|Hne]; split; intros [= ]; subst; done.
Qed.

Lemma skip_ws_suffix s : skip_ws s `suffix_of` s.
Proof.
  induction s as [|c s IH]; simpl; [done|].
  destruct (is_json_ws c); [by apply suffix_cons_r|done].
Qed.

Lemma skip_ws_nil s : skip_ws s = [] -> Forall (fun c => is_json_ws c = true) s.
Proof.
  induction s as [|c s IH]; simpl; [done|].
  destruct (is_json_ws c) eqn:Hc; [|done]. intros H. constructor; auto.
Qed.

Lemma consumed_upto_suffix P s' s rest :
  consumed_upto P s' rest -> s' `suffix_of` s -> consumed_upto P s rest.
Proof.
  intros (pre & c & -> & Hc) [k ->]. exists (k ++ pre), c.
  by rewrite <- app_assoc.
Qed.

Lemma consumed_upto_cons P x s rest :
  consumed_upto P s rest -> consumed_upto P (x :: s) rest.
Proof. intros H. eapply consumed_upto_suffix; [done|by apply suffix_cons_r]. Qed.

Lemma consumed_upto_rest_suffix P s rest :
  consumed_upto P s rest -> rest `suffix_of` s.
Proof. intros (pre & c & -> & _). by exists (pre ++ [c]); rewrite <- app_assoc. Qed.

Lemma consumed_upto_trans P Q s mid rest :
  consumed_upto P s mid -> consumed_upto Q mid rest -> consumed_upto Q s rest.
Proof.
  intros H1 H2. eapply consumed_upto_suffix; [done|].
  by eapply consumed_upto_rest_suffix.
Qed.

Lemma consumed_upto_weaken (P Q : N -> Prop) s rest :
  (forall c, P c -> Q c) -> consumed_upto P s rest -> consumed_upto Q s rest.
Proof. intros HPQ (pre & c & -> & Hc). exists pre, c. auto. Qed.

(** A string literal ends with its closing quote. *)
Lemma parse_string_consumed s str rest :
  parse_string s = Some (str, rest) -> consumed_upto (fun c => c = 34) s rest.
Proof.
  remember (length s) as n eqn:Hn. revert s str rest Hn.
  induction n as [n IH] using lt_wf_ind. intros s str rest Hn H.
  destruct s as [|c s1]; [done|]. simpl in H.
  destruct (N.eqb_spec c 34) as [->|_].
  { injection H as <- <-. by exists [], 34. }
  destruct (c =? 92).
  - destruct s1 as [|e s2]; [done|].
    destruct (e =? 117).
    + destruct s2 as [|x3 [|x2 [|x1 [|x0 s6]]]]; try done.
      destruct (hex4 x3 x2 x1 x0); [|done].
      destruct (parse_string s6) as [[str' rest']|] eqn:Hrec; [|done].
      injection H as <- <-.
      do 6 apply consumed_upto_cons.
      eapply IH; [|done|done]. subst n. simpl. lia.
    + destruct (simple_escape e); [|done].
      destruct (parse_string s2) as [[str' rest']|] eqn:Hrec; [|done].
      injection H as <- <-.
      do 2 apply consumed_upto_cons.
      eapply IH; [|done|done]. subst n. simpl. lia.
  - destruct (c <? 32); [done|].
    destruct (parse_string s1) as [[str' rest']|] eqn:Hrec; [|done].
    injection H as <- <-.
    apply consumed_upto_cons.
    eapply IH; [|done|done]. subst n. simpl. lia.
Qed.

Lemma span_digits_spec s ds rest :
  span_digits s = (ds, rest) ->
  s = ds ++ rest /\ Forall (fun c => is_digit c = true) ds.
Proof.
  revert ds rest. induction s as [|c s IH]; intros ds rest; simpl.
  - intros [= <- <-]. done.
  - destruct (is_digit c) eqn:Hc.
    + destruct (span_digits s) as [ds' rest'].
      intros [= <- <-]. destruct (IH _ _ eq_refl) as [-> Hall].
      split; [done|]. by constructor.
    + intros [= <- <-]. done.
Qed.

(** A non-empty run of digits ends with a digit. *)
Lemma span_digits1_consumed s ds rest :
  span_digits1 s = Some (ds, rest) ->
  consumed_upto (fun c => is_digit c = true) s rest.
Proof.
  unfold span_digits1.
  destruct (span_digits s) as [[|d ds'] rest'] eqn:Hspan; [done|].
  intros [= <- <-]. apply span_digits_spec in Hspan as [-> Hall].
  destruct (exists_last (l:=d :: ds')) as (pre & c & Heq); [done|].
  rewrite Heq in *. exists pre, c. rewrite <- app_assoc. split; [done|].
  apply Forall_app in Hall as [_ Hc]. by inversion Hc.
Qed.

Lemma parse_number_consumed s m e rest :
  parse_number s = Some (m, e, rest) ->
  consumed_upto (fun c => is_digit c = true) s rest.
Proof.
  unfold parse_number. intros H.
  assert (exists neg s1, s1 `suffix_of` s /\
            match expect 45 s with Some s' => (true, s') | None => (false, s) end
            = (neg, s1)) as (neg & s1 & Hs1 & Hsign).
  { destruct (expect 45 s) as [s'|] eqn:He; [|by eauto].
    apply expect_Some in He as ->. eexists _, _. split; [|done]. by apply suffix_cons_r. }
  rewrite Hsign in H. cbv zeta in H.
  destruct (match expect 48 s1 with Some s2 => Some ([48], s2) | None => span_digits1 s1 end)
    as [[ds s2]|] eqn:Hint; [|done].
  assert (consumed_upto (fun c => is_digit c = true) s1 s2) as H2.
  { destruct (expect 48 s1) as [s2'|] eqn:He.
    - apply expect_Some in He as ->. injection Hint as <- <-. by exists [], 48.
    - by eapply span_digits1_consumed. }
  destruct (match expect 46 s2 with Some s3 => span_digits1 s3 | None => Some ([], s2) end)
    as [[fs s4]|] eqn:Hfrac; [|done].
  assert (consumed_upto (fun c => is_digit c = true) s1 s4) as H4.
  { destruct (expect 46 s2) as [s3|] eqn:He.
    - apply expect_Some in He as ->. apply span_digits1_consumed in Hfrac.
      eapply consumed_upto_trans; [exact H2|]. by apply consumed_upto_cons.
    - by injection Hfrac as <- <-. }
  assert (consumed_upto (fun c => is_digit c = true) s1 rest) as H7.
  { destruct s4 as [|c s5]; [by injection H as <- <- <-|].
    destruct ((c =? 101) || (c =? 69)); [|by injection H as <- <- <-].
    assert (exists eneg s6, s6 `suffix_of` s5 /\
              match expect 45 s5 with
              | Some s' => (true, s')
              | None => match expect 43 s5 with
                        | Some s' => (false, s')
                        | None => (false, s5)
                        end
              end = (eneg, s6)) as (eneg & s6 & Hs6 & Hesign).
    { destruct (expect 45 s5) as [s'|] eqn:He.
      - apply expect_Some in He as ->. eexists _, _. split; [|done]. by apply suffix_cons_r.
      - destruct (expect 43 s5) as [s'|] eqn:He'; [|by eauto].
        apply expect_Some in He' as ->. eexists _, _. split; [|done].
        by apply suffix_cons_r. }
    rewrite Hesign in H.
    destruct (span_digits1 s6) as [[es s7]|] eqn:Hexp; [|done].
    injection H as <- <- <-.
    eapply consumed_upto_trans; [exact H4|].
    apply consumed_upto_cons. eapply consumed_upto_suffix; [|done].
    by eapply span_digits1_consumed. }
  by eapply consumed_upto_suffix.
Qed.

Lemma consumed_upto_skip_ws P s rest :
  consumed_upto P (skip_ws s) rest -> consumed_upto P s rest.
Proof. intros H. eapply consumed_upto_suffix; [done|apply skip_ws_suffix]. Qed.

Lemma expect_consumed c s rest :
  expect c s = Some rest -> consumed_upto (fun x => x = c) s rest.
Proof. intros ->%expect_Some. by exists [], c. Qed.

Lemma is_digit_value_end c : is_digit c = true -> value_end c.
Proof.
  unfold is_digit. intros [Hlo Hhi]%andb_prop.
  apply N.leb_le in Hlo, Hhi.
  assert (c = 48 \/ c = 49 \/ c = 50 \/ c = 51 \/ c = 52 \/ c = 53 \/ c = 54
          \/ c = 55 \/ c = 56 \/ c = 57) as Hc by lia.
  by destruct Hc as [->|[->|[->|[->|[->|[->|[->|[->|[->| ->]]]]]]]]].
Qed.

#[local] Arguments match_prefix : simpl never.
#[local] Arguments parse_string : simpl never.
#[local] Arguments parse_number : simpl never.
#[local] Arguments expect : simpl never.
#[local] Arguments skip_ws : simpl never.
#[local] Arguments N.eqb : simpl never.
#[local] Arguments lit : simpl never.

(** What a value consumes ends with a code unit that is neither [n] nor
    white space; an element list ends with a closing bracket and a member
    list with a closing brace. *)
Lemma parse_consumed fuel :
  (forall s v r, parse_value fuel s = Some (v, r) ->
                 consumed_upto value_end s r)
  /\ (forall s vs r, parse_elements fuel s = Some (vs, r) ->
                     consumed_upto (fun c => c = 93) s r)
  /\ (forall s kvs r, parse_members fuel s = Some (kvs, r) ->
                      consumed_upto (fun c => c = 125) s r).
Proof.
  induction fuel as [|fuel (IHv & IHe & IHm)]; [done|].
  split; [|split].
  - intros s v r H. destruct s as [|c s']; [done|]. simpl in H.
    destruct (c =? 110).
    { destruct (match_prefix (lit "ull") s') as [rest|] eqn:Hm; [|done].
      injection H as <- <-. apply match_prefix_Some in Hm as ->.
      by exists (c :: lit "ul"), 108. }
    destruct (c =? 116).
    { destruct (match_prefix (lit "rue") s') as [rest|] eqn:Hm; [|done].
      injection H as <- <-. apply match_prefix_Some in Hm as ->.
      by exists (c :: lit "ru"), 101. }
    destruct (c =? 102).
    { destruct (match_prefix (lit "alse") s') as [rest|] eqn:Hm; [|done].
      injection H as <- <-. apply match_prefix_Some in Hm as ->.
      by exists (c :: lit "als"), 101. }
    destruct (c =? 34).
    { destruct (parse_string s') as [[str rest]|] eqn:Hs; [|done].
      injection H as <- <-. apply consumed_upto_cons.
      eapply consumed_upto_weaken; [|by eapply parse_string_consumed].
      by intros ? ->. }
    destruct (c =? 91).
    { apply consumed_upto_cons, consumed_upto_skip_ws.
      destruct (expect 93 (skip_ws s')) as [rest|] eqn:He.
      - injection H as <- <-.
        eapply consumed_upto_weaken; [|by eapply expect_consumed]. by intros ? ->.
      - destruct (parse_elements fuel (skip_ws s')) as [[items rest]|] eqn:Hel; [|done].
        injection H as <- <-.
        eapply consumed_upto_weaken; [|by eapply IHe]. by intros ? ->. }
    destruct (c =? 123).
    { apply consumed_upto_cons, consumed_upto_skip_ws.
      destruct (expect 125 (skip_ws s')) as [rest|] eqn:He.
      - injection H as <- <-.
        eapply consumed_upto_weaken; [|by eapply expect_consumed]. by intros ? ->.
      - destruct (parse_members fuel (skip_ws s')) as [[props rest]|] eqn:Hel; [|done].
        injection H as <- <-.
        eapply consumed_upto_weaken; [|by eapply IHm]. by intros ? ->. }
    destruct (parse_number (c :: s')) as [[[m e] rest]|] eqn:Hn; [|done].
    injection H as <- <-.
    eapply consumed_upto_weaken; [|by eapply parse_number_consumed].
    apply is_digit_value_end.
  - intros s vs r H. simpl in H.
    destruct (parse_value fuel s) as [[v r0]|] eqn:Hv; [|done].
    apply IHv in Hv.
    eapply consumed_upto_trans; [exact Hv|]. apply consumed_upto_skip_ws.
    destruct (expect 93 (skip_ws r0)) as [rest|] eqn:He.
    { injection H as <- <-. by apply expect_consumed. }
    destruct (expect 44 (skip_ws r0)) as [r'|] eqn:He'; [|done].
    destruct (parse_elements fuel (skip_ws r')) as [[vs' rest]|] eqn:Hel; [|done].
    injection H as <- <-.
    eapply consumed_upto_trans; [by eapply expect_consumed|].
    apply consumed_upto_skip_ws. by eapply IHe.
  - intros s kvs r H. simpl in H.
    destruct (expect 34 s) as [s'|] eqn:Hq; [|done].
    eapply consumed_upto_trans; [by eapply expect_consumed|].
    destruct (parse_string s') as [[k r0]|] eqn:Hk; [|done].
    eapply consumed_upto_trans; [by eapply parse_string_consumed|].
    apply consumed_upto_skip_ws.
    destruct (expect 58 (skip_ws r0)) as [r1|] eqn:Hc; [|done].
    eapply consumed_upto_trans; [by eapply expect_consumed|].
    apply consumed_upto_skip_ws.
    destruct (parse_value fuel (skip_ws r1)) as [[v r2]|] eqn:Hv; [|done].
    eapply consumed_upto_trans; [by eapply IHv|].
    apply consumed_upto_skip_ws.
    destruct (expect 125 (skip_ws r2)) as [rest|] eqn:He.
    { injection H as <- <-. by apply expect_consumed. }
    destruct (expect 44 (skip_ws r2)) as [r'|] eqn:He'; [|done].
    destruct (parse_members fuel (skip_ws r')) as [[kvs' rest]|] eqn:Hm; [|done].
    injection H as <- <-.
    eapply consumed_upto_trans; [by eapply expect_consumed|].
    apply consumed_upto_skip_ws. by eapply IHm.
Qed.

(** A text that [JSON.parse] accepts does not end with the letter [n]. *)
Lemma JSON_parse_last s v : JSON_parse s = Some v -> last s <> Some 110.
Proof.
  unfold JSON_parse. intros H.
  destruct (parse_value _ (skip_ws s)) as [[v' rest]|] eqn:Hv; [|done].
  destruct (skip_ws rest) eqn:Hrest; [|done].
  apply skip_ws_nil in Hrest.
  apply parse_consumed, consumed_upto_skip_ws in Hv as (pre & c & -> & Hc & _).
  rewrite last_app_cons. intros Hl.
  destruct rest as [|x rest' _] using rev_ind.
  - simpl in Hl. congruence.
  - rewrite app_comm_cons, last_snoc in Hl. injection Hl as ->.
    apply Forall_app in Hrest as [_ Hx]. by inversion Hx.
Qed.

Lemma JSON_parse_no_trailing_fence s v :
  JSON_parse s = Some v -> ~ fence_json `suffix_of` s.
Proof.
  intros H [k ->]. apply JSON_parse_last in H. apply H.
  by rewrite last_app.
Qed.



Lemma consumed_upto_length P s rest :
  consumed_upto P s rest -> (length rest < length s)%nat.
Proof. intros (pre & c & -> & _). rewrite length_app. simpl. lia. Qed.

Lemma skip_ws_length s : (length (skip_ws s) <= length s)%nat.
Proof. apply suffix_length, skip_ws_suffix. Qed.

Lemma expect_length c s rest : expect c s = Some rest -> (length rest < length s)%nat.
Proof. intros ->%expect_Some. simpl. lia. Qed.

(** Twice the length of the text is fuel enough: one unit more changes
    nothing. *)
Lemma parse_fuel_enough fuel :
  (forall s, (2 * length s <= fuel)%nat ->
             parse_value (S fuel) s = parse_value fuel s)
  /\ (forall s, (2 * length s + 1 <= fuel)%nat ->
                parse_elements (S fuel) s = parse_elements fuel s)
  /\ (forall s, (2 * length s + 1 <= fuel)%nat ->
                parse_members (S fuel) s = parse_members fuel s).
Proof.
  induction fuel as [|fuel (IHv & IHe & IHm)].
  { split; [|split]; intros s Hs; [|lia..]. by destruct s; [|simpl in Hs; lia]. }
  remember (S fuel) as fuel1 eqn:Hfuel in *.
  split; [|split].
  - intros s Hs. destruct s as [|c s']; [by subst|]. simpl in Hs.
    pose proof (skip_ws_length s').
    simpl. rewrite IHe, IHm by lia. by subst.
  - intros s Hs. simpl. rewrite IHv by lia.
    destruct (parse_value fuel s) as [[v r]|] eqn:Hv; [|by subst; simpl; rewrite Hv].
    pose proof (consumed_upto_length _ _ _ (proj1 (parse_consumed fuel) _ _ _ Hv)).
    pose proof (skip_ws_length r).
    destruct (expect 93 (skip_ws r)) as [rest|] eqn:He;
      [by subst; simpl; rewrite Hv, He|].
    destruct (expect 44 (skip_ws r)) as [r'|] eqn:He';
      [|by subst; simpl; rewrite Hv, He, He'].
    pose proof (expect_length _ _ _ He'). pose proof (skip_ws_length r').
    rewrite IHe by lia. subst. simpl. by rewrite Hv, He, He'.
  - intros s Hs. simpl.
    destruct (expect 34 s) as [s'|] eqn:Hq; [|by subst; simpl; rewrite Hq].
    pose proof (expect_length _ _ _ Hq).
    destruct (parse_string s') as [[k r0]|] eqn:Hk; [|by subst; simpl; rewrite Hq, Hk].
    pose proof (consumed_upto_length _ _ _ (parse_string_consumed _ _ _ Hk)).
    pose proof (skip_ws_length r0).
    destruct (expect 58 (skip_ws r0)) as [r1|] eqn:Hc;
      [|by subst; simpl; rewrite Hq, Hk, Hc].
    pose proof (expect_length _ _ _ Hc). pose proof (skip_ws_length r1).
    rewrite IHv by lia.
    destruct (parse_value fuel (skip_ws r1)) as [[v r]|] eqn:Hv;
      [|by subst; simpl; rewrite Hq, Hk, Hc, Hv].
    pose proof (consumed_upto_length _ _ _ (proj1 (parse_consumed fuel) _ _ _ Hv)).
    pose proof (skip_ws_length r).
    destruct (expect 125 (skip_ws r)) as [rest|] eqn:He;
      [by subst; simpl; rewrite Hq, Hk, Hc, Hv, He|].
    destruct (expect 44 (skip_ws r)) as [r'|] eqn:He';
      [|by subst; simpl; rewrite Hq, Hk, Hc, Hv, He, He'].
    pose proof (expect_length _ _ _ He'). pose proof (skip_ws_length r').
    rewrite IHm by lia. subst. simpl. by rewrite Hq, Hk, Hc, Hv, He, He'.
Qed.

(** [JSON_parse] gives what any larger amount of fuel gives. *)
Lemma JSON_parse_fuel s extra :
  parse_value (2 * length s + 2 + extra) (skip_ws s)
  = parse_value (2 * length s + 2) (skip_ws s).
Proof.
  induction extra as [|extra IH]; [by rewrite Nat.add_0_r|].
  rewrite Nat.add_succ_r, <- IH.
  apply parse_fuel_enough. pose proof (skip_ws_length s). lia.
Qed.

End ParserShape.

(** *** Trailing white space does not change what is parsed *)

Section TrailingWhiteSpace.

Lemma is_json_ws_cases c :
  is_json_ws c = true -> c = 32 \/ c = 9 \/ c = 10 \/ c = 13.
Proof.
  unfold is_json_ws. rewrite !orb_true_iff, !N.eqb_eq. tauto.
Qed.

Ltac ws_cases H :=
  apply is_json_ws_cases in H as [-> | [-> | [-> | ->]]].

Lemma expect_app c a w :
  json_blank w -> is_json_ws c = false ->
  expect c (a ++ w) = (fun r => r ++ w) <$> expect c a.
Proof.
  intros Hw Hc. destruct a as [|x a]; simpl; [|by destruct (x =? c)].
  destruct Hw as [|x w Hx _]; [done|]. simpl.
  destruct (N.eqb_spec x c) as [->|]; [congruence|done].
Qed.

Lemma match_prefix_app_blank pat a w :
  json_blank w -> Forall (fun p => is_json_ws p = false) pat ->
  match_prefix pat (a ++ w) = (fun r => r ++ w) <$> match_prefix pat a.
Proof.
  intros Hw Hpat. revert a. induction Hpat as [|p pat Hp _ IH]; intros a; [done|].
  destruct a as [|x a]; simpl; [|by destruct (p =? x)].
  destruct Hw as [|x w Hx _]; [done|]. simpl.
  destruct (N.eqb_spec p x) as [->|]; [congruence|done].
Qed.

Lemma span_digits_app a w :
  json_blank w -> span_digits (a ++ w) = extend_rest w (span_digits a).
Proof.
  intros Hw. induction a as [|c a IH]; simpl.
  - destruct Hw as [|x w Hx _]; [done|]. simpl. by ws_cases Hx.
  - destruct (is_digit c); [|done]. rewrite IH. by destruct (span_digits a).
Qed.

Lemma span_digits1_app a w :
  json_blank w -> span_digits1 (a ++ w) = extend_rest w <$> span_digits1 a.
Proof.
  intros Hw. unfold span_digits1. rewrite span_digits_app by done.
  by destruct (span_digits a) as [[|d ds] r].
Qed.

Lemma parse_string_blank w : json_blank w -> parse_string w = None.
Proof.
  induction 1 as [|c w Hc _ IH]; [done|]. simpl. rewrite IH. by ws_cases Hc.
Qed.

Lemma hex_value_ws c : is_json_ws c = true -> hex_value c = None.
Proof. intros Hc. by ws_cases Hc. Qed.

Lemma parse_string_app a w :
  json_blank w -> parse_string (a ++ w) = extend_rest w <$> parse_string a.
Proof.
  intros Hw. remember (length a) as n eqn:Hn. revert a Hn.
  induction n as [n IH] using lt_wf_ind. intros a Hn.
  destruct a as [|c a1]; [by rewrite parse_string_blank|].
  simpl. destruct (c =? 34); [done|]. destruct (c =? 92).
  - destruct a1 as [|e a2]; simpl.
    { destruct Hw as [|x w Hx _]; [done|]. by ws_cases Hx. }
    destruct (e =? 117).
    + unfold hex4.
      destruct a2 as [|x3 [|x2 [|x1 [|x0 a6]]]]; simpl.
      * destruct Hw as [|y3 w H3 Hw]; [done|]. rewrite (hex_value_ws _ H3).
        by destruct w as [|? [|? [|? ?]]].
      * destruct Hw as [|y2 w H2 Hw]; [done|]. rewrite (hex_value_ws _ H2).
        destruct w as [|? [|? ?]]; try done; by destruct (hex_value x3).
      * destruct Hw as [|y1 w H1 Hw]; [done|]. rewrite (hex_value_ws _ H1).
        destruct w as [|? ?]; try done; by destruct (hex_value x3), (hex_value x2).
      * destruct Hw as [|y0 w H0 Hw]; [done|]. rewrite (hex_value_ws _ H0).
        by destruct (hex_value x3), (hex_value x2), (hex_value x1).
      * rewrite (IH (length a6)) by (subst n; simpl; lia || done).
        destruct (hex_value x3), (hex_value x2), (hex_value x1), (hex_value x0);
          try done; by destruct (parse_string a6) as [[? ?]|].
    + rewrite (IH (length a2)) by (subst n; simpl; lia || done).
      destruct (simple_escape e); [|done]. by destruct (parse_string a2) as [[? ?]|].
  - destruct (c <? 32); [done|].
    rewrite (IH (length a1)) by (subst n; simpl; lia || done).
    by destruct (parse_string a1) as [[? ?]|].
Qed.

Lemma parse_number_app a w :
  json_blank w -> parse_number (a ++ w) = extend_rest w <$> parse_number a.
Proof.
  intros Hw. unfold parse_number.
  rewrite (expect_app 45) by done.
  destruct (expect 45 a) as [a1|]; simpl.
  all: match goal with
       | |- context [expect 48 (?x ++ _)] =>
           rewrite (expect_app 48 x) by done;
           destruct (expect 48 x) as [a2|]; simpl;
           [|rewrite (span_digits1_app x) by done;
             destruct (span_digits1 x) as [[ds a2]|]; simpl; [|done]]
       end.
  all: rewrite (expect_app 46) by done;
       destruct (expect 46 a2) as [a3|]; simpl;
       [rewrite (span_digits1_app a3) by done;
        destruct (span_digits1 a3) as [[fs a4]|]; simpl; [|done]|].
  all: match goal with
       | |- context [match ?x ++ _ with [] => _ | _ :: _ => _ end] =>
           destruct x as [|c a5]; simpl;
           [destruct Hw as [|y w' Hy Hw']; [done|]; simpl;
            assert ((y =? 101) || (y =? 69) = false) as -> by (by ws_cases Hy);
            done|]
       end.
  all: destruct ((c =? 101) || (c =? 69)); [|done].
  all: rewrite (expect_app 45) by done;
       destruct (expect 45 a5) as [a6|]; simpl;
       [|rewrite (expect_app 43) by done; destruct (expect 43 a5) as [a6|]; simpl].
  all: match goal with
       | |- context [span_digits1 (?x ++ _)] =>
           rewrite (span_digits1_app x) by done;
           by destruct (span_digits1 x) as [[es a7]|]
       end.
Qed.

(** After skipping white space either something is left, and the
    appended white space follows it, or nothing is left at all. *)
Lemma skip_ws_app a w :
  json_blank w ->
  (skip_ws a <> [] /\ skip_ws (a ++ w) = skip_ws a ++ w)
  \/ (skip_ws a = [] /\ skip_ws (a ++ w) = []).
Proof.
  intros Hw. induction a as [|c a IH]; simpl.
  - right. split; [done|]. induction Hw as [|x w Hx _ IHw]; simpl; [done|by rewrite Hx].
  - destruct (is_json_ws c); [done|]. by left.
Qed.

Lemma parse_number_blank w : json_blank w -> parse_number w = None.
Proof. intros Hw. by rewrite <- (app_nil_l w), parse_number_app. Qed.

Lemma parse_value_blank fuel w : json_blank w -> parse_value fuel w = None.
Proof.
  intros Hw. destruct fuel as [|fuel]; [done|].
  destruct Hw as [|x w Hx Hw]; [done|].
  assert (json_blank (x :: w)) as Hxw by (by constructor).
  cbn [parse_value]. rewrite (parse_number_blank _ Hxw). by ws_cases Hx.
Qed.

Lemma expect_nil c : expect c [] = None.
Proof. done. Qed.

#[local] Arguments match_prefix : simpl never.
#[local] Arguments parse_string : simpl never.
#[local] Arguments parse_number : simpl never.
#[local] Arguments expect : simpl never.
#[local] Arguments skip_ws : simpl never.
#[local] Arguments N.eqb : simpl never.
#[local] Arguments lit : simpl never.

Lemma parse_value_nil fuel : parse_value fuel [] = None.
Proof. by destruct fuel. Qed.

Lemma parse_elements_nil fuel : parse_elements fuel [] = None.
Proof. destruct fuel; [done|]. simpl. by rewrite parse_value_nil. Qed.

Lemma parse_members_nil fuel : parse_members fuel [] = None.
Proof. by destruct fuel. Qed.

Lemma literal_not_blank (l : jsstring) :
  forallb (fun p => negb (is_json_ws p)) l = true ->
  Forall (fun p => is_json_ws p = false) l.
Proof.
  rewrite forallb_forall, Forall_forall. intros H p Hp.
  apply list_elem_of_In, H, negb_true_iff in Hp. done.
Qed.

(** Appending JSON white space to a text changes no parser's result but
    for the rest it returns. *)
Lemma parse_app_blank fuel w :
  json_blank w ->
  (forall a, parse_value fuel (a ++ w) = extend_rest w <$> parse_value fuel a)
  /\ (forall a, parse_elements fuel (a ++ w) = extend_rest w <$> parse_elements fuel a)
  /\ (forall a, parse_members fuel (a ++ w) = extend_rest w <$> parse_members fuel a).
Proof.
  intros Hw. induction fuel as [|fuel (IHv & IHe & IHm)]; [done|].
  split; [|split]; intros a.
  - destruct a as [|c a']; [by rewrite app_nil_l, parse_value_blank|].
    rewrite <- app_comm_cons. simpl.
    destruct (c =? 110).
    { rewrite match_prefix_app_blank by (done || by apply literal_not_blank).
      by destruct (match_prefix (lit "ull") a'). }
    destruct (c =? 116).
    { rewrite match_prefix_app_blank by (done || by apply literal_not_blank).
      by destruct (match_prefix (lit "rue") a'). }
    destruct (c =? 102).
    { rewrite match_prefix_app_blank by (done || by apply literal_not_blank).
      by destruct (match_prefix (lit "alse") a'). }
    destruct (c =? 34).
    { rewrite parse_string_app by done. by destruct (parse_string a') as [[? ?]|]. }
    destruct (c =? 91).
    { destruct (skip_ws_app a' w Hw) as [[Hne ->] | [-> ->]].
      - rewrite (expect_app 93) by done.
        destruct (expect 93 (skip_ws a')); [done|]. simpl.
        rewrite IHe. by destruct (parse_elements fuel (skip_ws a')) as [[? ?]|].
      - by rewrite expect_nil, parse_elements_nil. }
    destruct (c =? 123).
    { destruct (skip_ws_app a' w Hw) as [[Hne ->] | [-> ->]].
      - rewrite (expect_app 125) by done.
        destruct (expect 125 (skip_ws a')); [done|]. simpl.
        rewrite IHm. by destruct (parse_members fuel (skip_ws a')) as [[? ?]|].
      - by rewrite expect_nil, parse_members_nil. }
    rewrite app_comm_cons, parse_number_app by done.
    by destruct (parse_number (c :: a')) as [[[? ?] ?]|].
  - simpl. rewrite IHv.
    destruct (parse_value fuel a) as [[v r]|]; [|done]. simpl.
    destruct (skip_ws_app r w Hw) as [[Hne ->] | [-> ->]]; [|by rewrite !expect_nil].
    rewrite (expect_app 93), (expect_app 44) by done.
    destruct (expect 93 (skip_ws r)); [done|]. simpl.
    destruct (expect 44 (skip_ws r)) as [r'|]; [|done]. simpl.
    destruct (skip_ws_app r' w Hw) as [[Hne' ->] | [-> ->]];
      [|by rewrite parse_elements_nil].
    rewrite IHe. by destruct (parse_elements fuel (skip_ws r')) as [[? ?]|].
  - simpl. rewrite (expect_app 34) by done.
    destruct (expect 34 a) as [s'|]; [|done]. simpl.
    rewrite parse_string_app by done.
    destruct (parse_string s') as [[k r0]|]; [|done]. simpl.
    destruct (skip_ws_app r0 w Hw) as [[Hne0 ->] | [-> ->]]; [|by rewrite !expect_nil].
    rewrite (expect_app 58) by done.
    destruct (expect 58 (skip_ws r0)) as [r1|]; [|done]. simpl.
    destruct (skip_ws_app r1 w Hw) as [[Hne1 ->] | [-> ->]];
      [|by rewrite parse_value_nil].
    rewrite IHv.
    destruct (parse_value fuel (skip_ws r1)) as [[v r]|]; [|done]. simpl.
    destruct (skip_ws_app r w Hw) as [[Hne ->] | [-> ->]]; [|by rewrite !expect_nil].
    rewrite (expect_app 125), (expect_app 44) by done.
    destruct (expect 125 (skip_ws r)); [done|]. simpl.
    destruct (expect 44 (skip_ws r)) as [r'|]; [|done]. simpl.
    destruct (skip_ws_app r' w Hw) as [[Hne' ->] | [-> ->]];
      [|by rewrite parse_members_nil].
    rewrite IHm. by destruct (parse_members fuel (skip_ws r')) as [[? ?]|].
Qed.

End TrailingWhiteSpace.

(** *** [JSON.parse] after [trim] *)

Section ParseTrimmed.

Lemma parse_number_head c s r :
  parse_number (c :: s) = Some r -> c = 45 \/ is_digit c = true.
Proof.
  unfold parse_number, expect, span_digits1. cbn [span_digits].
  destruct (N.eqb_spec c 45) as [->|_]; [by left|].
  destruct (N.eqb_spec c 48) as [->|_]; [by right|].
  simpl. destruct (is_digit c); [by right|done].
Qed.

(** A value starts with a code unit that [trim] keeps. *)
Lemma parse_value_head fuel s v r :
  parse_value fuel s = Some (v, r) ->
  exists c s', s = c :: s' /\ is_js_whitespace c = false.
Proof.
  destruct fuel as [|fuel]; [done|]. destruct s as [|c s']; [done|].
  intros H. exists c, s'. split; [done|]. cbn [parse_value] in H.
  destruct (N.eqb_spec c 110) as [->|_]; [done|].
  destruct (N.eqb_spec c 116) as [->|_]; [done|].
  destruct (N.eqb_spec c 102) as [->|_]; [done|].
  destruct (N.eqb_spec c 34) as [->|_]; [done|].
  destruct (N.eqb_spec c 91) as [->|_]; [done|].
  destruct (N.eqb_spec c 123) as [->|_]; [done|].
  destruct (parse_number (c :: s')) as [res|] eqn:Hn; [|done].
  apply parse_number_head in Hn as [->|Hd]; [done|].
  by apply is_digit_value_end.
Qed.

Lemma json_ws_js_whitespace c : is_json_ws c = true -> is_js_whitespace c = true.
Proof. intros Hc. by apply is_json_ws_cases in Hc as [-> | [-> | [-> | ->]]]. Qed.

Lemma json_blank_blank w : json_blank w -> blank w.
Proof. intros Hw. eapply Forall_impl; [exact Hw|]. apply json_ws_js_whitespace. Qed.

Lemma trimStart_skip_ws s c s' :
  skip_ws s = c :: s' -> is_js_whitespace c = false -> trimStart s = skip_ws s.
Proof.
  intros Hs Hc. induction s as [|x t IH]; [done|]. simpl in *.
  destruct (is_json_ws x) eqn:Hx.
  - rewrite (json_ws_js_whitespace _ Hx). auto.
  - injection Hs as -> ->. by rewrite Hc.
Qed.

Lemma trimEnd_blank_tail y w : blank w -> trimEnd (y ++ w) = trimEnd y.
Proof.
  induction w as [|x w IH] using rev_ind; intros Hw; [by rewrite app_nil_r|].
  apply Forall_app in Hw as [Hw Hx]. inversion Hx; subst.
  rewrite app_assoc, trimEnd_snoc by done. auto.
Qed.

Lemma trimEnd_kept pre c : is_js_whitespace c = false -> trimEnd (pre ++ [c]) = pre ++ [c].
Proof.
  intros Hc. unfold trimEnd. rewrite rev_unit. simpl. rewrite Hc.
  simpl. by rewrite rev_involutive.
Qed.

(** More fuel than twice the length gives the same result. *)
Lemma parse_value_fuel_ge s f g :
  (2 * length s <= f)%nat -> (f <= g)%nat -> parse_value g s = parse_value f s.
Proof.
  intros Hf Hg. induction Hg as [|g Hg IH]; [done|].
  rewrite <- IH. apply parse_fuel_enough. lia.
Qed.

(** What [JSON.parse] accepts, it accepts with the same value once the
    text is trimmed. *)
Lemma JSON_parse_trim s v : JSON_parse s = Some v -> JSON_parse (trim s) = Some v.
Proof.
  unfold JSON_parse. intros H.
  destruct (parse_value _ (skip_ws s)) as [[v' rest]|] eqn:Hv; [|done].
  destruct (skip_ws rest) eqn:Hrest; [|done]. injection H as ->.
  apply skip_ws_nil in Hrest.
  destruct (parse_value_head _ _ _ _ Hv) as (c0 & body & Hbody & Hc0).
  pose proof (proj1 (parse_consumed _) _ _ _ Hv) as (pre & c & Hsplit & _ & Hc).
  assert (trim s = pre ++ [c]) as Htrim.
  { unfold trim. rewrite (trimStart_skip_ws s c0 body Hbody Hc0), Hsplit.
    change (pre ++ c :: rest) with (pre ++ [c] ++ rest).
    rewrite app_assoc, trimEnd_blank_tail by (by apply json_blank_blank).
    by apply trimEnd_kept. }
  assert (skip_ws (pre ++ [c]) = pre ++ [c]) as Hskip.
  { assert (exists x', pre ++ [c] = c0 :: x') as [x' Hx'].
    { rewrite Hbody in Hsplit. destruct pre as [|p pre]; simpl in *.
      - injection Hsplit as -> _. by eexists.
      - injection Hsplit as -> _. by eexists. }
    rewrite Hx'. simpl.
    destruct (is_json_ws c0) eqn:Hws; [|done].
    apply json_ws_js_whitespace in Hws. congruence. }
  rewrite Htrim, Hskip.
  change (pre ++ c :: rest) with (pre ++ [c] ++ rest) in Hsplit.
  rewrite app_assoc in Hsplit.
  assert (length (pre ++ [c]) <= length s)%nat as Hlen.
  { pose proof (skip_ws_length s) as Hl. rewrite Hsplit, length_app in Hl. lia. }
  rewrite Hsplit in Hv.
  rewrite (proj1 (parse_app_blank _ rest Hrest)) in Hv.
  rewrite (parse_value_fuel_ge (pre ++ [c]) (2 * length (pre ++ [c]) + 2)
             (2 * length s + 2)) in Hv by lia.
  destruct (parse_value _ (pre ++ [c])) as [[v1 r1]|]; [|done].
  unfold extend_rest in Hv. simpl in Hv. injection Hv as -> Hr.
  assert (r1 = []) as ->.
  { apply (f_equal length) in Hr. rewrite length_app in Hr.
    destruct r1; [done|simpl in Hr; lia]. }
  done.
Qed.

End ParseTrimmed.

(** ** The prompt builder *)

Section Prompt.

Lemma includes_app_l s t u : includes t u -> includes (s ++ t) u.
Proof. intros (a & b & ->). exists (s ++ a), b. by rewrite <- app_assoc. Qed.

Lemma includes_app_r s t u : includes s u -> includes (s ++ t) u.
Proof. intros (a & b & ->). exists a, (b ++ t). by rewrite <- !app_assoc. Qed.

Lemma includes_refl s : includes s s.
Proof. exists [], []. by rewrite app_nil_r. Qed.

Lemma includes_nil s : includes s [].
Proof. by exists [], s. Qed.

Lemma question_line_includes q : includes (question_line (Some q)) q.
Proof.
  destruct q as [|c q]; [apply includes_nil|].
  unfold question_line. apply includes_app_l, includes_app_r, includes_refl.
Qed.

(** C8: [buildLegalAnalysisPrompt] is a function of its two arguments
    alone; its result contains the literal text, contains the literal query
    whenever one is supplied, and is otherwise the fixed template: head,
    text, separator, the question line of a non-empty query, tail. *)
Theorem buildLegalAnalysisPrompt_template (text : jsstring) (query : option jsstring) :
  (forall text' query', text' = text -> query' = query ->
     buildLegalAnalysisPrompt text' query' = buildLegalAnalysisPrompt text query)
  /\ includes (buildLegalAnalysisPrompt text query) text
  /\ (forall q, query = Some q -> includes (buildLegalAnalysisPrompt text query) q)
  /\ buildLegalAnalysisPrompt text query
     = prompt_head ++ text ++ prompt_mid
       ++ (if truthy_string query
           then ql "SPECIFIC QUESTION: ~" ++ default [] query ++ ql "~"
           else [])
       ++ prompt_tail
  /\ (truthy_string query = false ->
      buildLegalAnalysisPrompt text query = prompt_head ++ text ++ prompt_mid ++ prompt_tail).
Proof.
  unfold buildLegalAnalysisPrompt. repeat split.
  - by intros ? ? -> ->.
  - apply includes_app_l, includes_app_r, includes_refl.
  - intros q ->.
    apply includes_app_l, includes_app_l, includes_app_l, includes_app_r,
      question_line_includes.
  - by destruct query as [[|c q]|].
  - by destruct query as [[|c q]|].
Qed.

End Prompt.

(** ** The charts *)

Section Charts.

Lemma count_level_cons (level l : jsstring) (levels : list jsstring) :
  count_level level (l :: levels)
  = (if bool_decide (l = level) then 1 else 0) + count_level level levels.
Proof.
  unfold count_level. rewrite filter_cons.
  case_bool_decide as Hd; destruct (decide (l = level)); try done; simpl; lia.
Qed.

(** Incrementing under [k] adds one to the counter [level] when [k] is
    that level and leaves it alone otherwise. *)
Lemma increment_level (k level : jsstring) (n : N) (counts : gmap jsstring jsnum) :
  level <> lit "__proto__" ->
  counts !! level = Some (Num n) ->
  increment k counts !! level
  = Some (Num ((if bool_decide (k = level) then 1 else 0) + n)).
Proof.
  intros Hproto Hn. unfold increment, jsstring_eqb.
  destruct (decide (k = level)) as [->|Hne].
  - rewrite (bool_decide_eq_false_2 _ Hproto), Hn, lookup_insert_eq.
    rewrite bool_decide_eq_true_2 by done. do 2 f_equal. lia.
  - rewrite (bool_decide_eq_false_2 (k = level)) by done.
    destruct (bool_decide (k = lit "__proto__")); [by rewrite Hn|].
    destruct (counts !! k) as [[m|]|]; by rewrite lookup_insert_ne, Hn.
Qed.

Lemma fold_increment_level {A} (key : A -> jsstring) (level : jsstring) (items : list A) :
  level <> lit "__proto__" ->
  forall (n : N) (counts : gmap jsstring jsnum),
  counts !! level = Some (Num n) ->
  fold_left (fun counts x => increment (key x) counts) items counts !! level
  = Some (Num (n + count_level level (key <$> items))).
Proof.
  intros Hproto. induction items as [|x items IH]; intros n counts Hn.
  - simpl. rewrite Hn. do 2 f_equal. unfold count_level. simpl. lia.
  - cbn [fold_left]. erewrite IH; [|by apply increment_level].
    rewrite fmap_cons, count_level_cons. do 2 f_equal. case_bool_decide; lia.
Qed.

Lemma chart_data_fold {A} (key : A -> jsstring) (items : list A) :
  chart_data (fold_left (fun counts x => increment (key x) counts) items zero_counts)
  = counts_by_level (key <$> items).
Proof.
  unfold chart_data, counts_by_level. cbn [map].
  rewrite (fold_increment_level key (lit "high") items ltac:(done) 0 zero_counts)
    by (by vm_compute).
  rewrite (fold_increment_level key (lit "medium") items ltac:(done) 0 zero_counts)
    by (by vm_compute).
  rewrite (fold_increment_level key (lit "low") items ltac:(done) 0 zero_counts)
    by (by vm_compute).
  by rewrite !N.add_0_l.
Qed.

(** C9: the bar chart shows how many risk factors are high, medium and
    low, in that order, and the doughnut how many action items have each
    priority, all zero without [actionItems]; one high-risk factor gives
    the bar data 1, 0, 0. *)
Theorem updateChartsWithRiskData_counts (data : AnalysisResult) :
  updateChartsWithRiskData true true data
  = (Some (counts_by_level (risk <$> riskFactors data)),
     Some (counts_by_level (priority <$> default [] (actionItems data))))
  /\ (actionItems data = None ->
      (updateChartsWithRiskData true true data).2
      = Some [Some (Num 0); Some (Num 0); Some (Num 0)])
  /\ (forall f, riskFactors data = [f] -> risk f = lit "high" ->
      (updateChartsWithRiskData true true data).1
      = Some [Some (Num 1); Some (Num 0); Some (Num 0)]).
Proof.
  assert (updateChartsWithRiskData true true data
          = (Some (counts_by_level (risk <$> riskFactors data)),
             Some (counts_by_level (priority <$> default [] (actionItems data)))))
    as Heq.
  { unfold updateChartsWithRiskData, riskCounts, actionCounts.
    rewrite chart_data_fold.
    destruct (actionItems data) as [items|]; simpl; [by rewrite chart_data_fold|done]. }
  split; [done|]. rewrite Heq. split.
  - by intros ->.
  - intros f -> Hf. simpl. rewrite Hf. done.
Qed.

End Charts.

(** ** The final handler *)

Section NotFound.

(** For a path that starts with none of /api, /analyze and /upload, the
    final handler returns without sending a response. *)
Lemma not_found_handler_none (req : request) :
  ~ lit "/api" `prefix_of` req_path req ->
  ~ lit "/analyze" `prefix_of` req_path req ->
  ~ lit "/upload" `prefix_of` req_path req ->
  not_found_handler req = None.
Proof.
  rewrite <- !startsWith_prefix, !not_true_iff_false.
  unfold not_found_handler. by intros -> -> ->.
Qed.

(** The other branch: a path under one of the three prefixes gets the
    structured 404. *)
Lemma not_found_handler_404 (req : request) :
  lit "/api" `prefix_of` req_path req
  \/ lit "/analyze" `prefix_of` req_path req
  \/ lit "/upload" `prefix_of` req_path req ->
  not_found_handler req
  = Some (error_response 404 (lit "Not Found")
            (lit "Route " ++ method req ++ lit " " ++ req_path req ++ lit " not found")).
Proof.
  rewrite <- !startsWith_prefix. unfold not_found_handler.
  intros [-> | [-> | ->]]; by rewrite ?orb_true_r.
Qed.

End NotFound.

(** ** The handlers *)

Section Handlers.

Variable E : env.

#[local] Arguments lit : simpl never.
#[local] Arguments ql : simpl never.
#[local] Arguments buildLegalAnalysisPrompt : simpl never.
#[local] Arguments parseAnalysis : simpl never.
#[local] Arguments trim : simpl never.
#[local] Arguments truncate : simpl never.
#[local] Arguments obj_get : simpl never.
#[local] Arguments obj_set : simpl never.
#[local] Arguments spread : simpl never.
#[local] Arguments error_response : simpl never.
#[local] Arguments N.ltb : simpl never.
#[local] Arguments js_length : simpl never.

Lemma generateContent_run prompt w :
  generateContent E prompt w
  = (match generate E prompt with Some r => Returned r | None => Thrown end,
     World (files w) (prompts w ++ [prompt])).
Proof. unfold generateContent. by destruct (generate E prompt). Qed.

Lemma structure_invalid_run analysisData w :
  exists o, structure_invalid analysisData w = (o, w).
Proof.
  unfold structure_invalid, get_prop, mbind, M_bind.
  destruct analysisData; simpl; try (by eexists);
    repeat (match goal with |- context [if ?b then _ else _] => destruct b end);
    simpl; by eexists.
Qed.

Lemma obj_get_set k v props : obj_get k (obj_set k v props) = Some v.
Proof.
  unfold obj_get, obj_set, jsstring_eqb.
  induction props as [|[k' v'] props IH]; simpl.
  - by rewrite bool_decide_eq_true_2.
  - case_bool_decide as Hk; simpl.
    + by rewrite bool_decide_eq_true_2.
    + by rewrite bool_decide_eq_false_2.
Qed.

Lemma obj_get_set_ne k k' v props :
  k <> k' -> obj_get k (obj_set k' v props) = obj_get k props.
Proof.
  intros Hne. unfold obj_get, obj_set, jsstring_eqb.
  induction props as [|[k0 v0] props IH]; simpl.
  - by rewrite bool_decide_eq_false_2.
  - case_bool_decide as Hk; simpl.
    + subst k0. by rewrite !bool_decide_eq_false_2.
    + by rewrite IH.
Qed.

Lemma js_length_pos t : 1 <= js_length t -> exists c t', t = c :: t'.
Proof. destruct t as [|c t']; [unfold js_length; simpl; lia|by eauto]. Qed.

(** What /analyze does with a text that passes validation: one prompt is
    sent, and the answer decides the response. *)
Lemma analyze_valid_run b t w :
  text b = Some t -> 1 <= js_length t <= 10000 ->
  exists resp,
    analyze E b w
    = (Returned resp,
       World (files w) (prompts w ++ [buildLegalAnalysisPrompt t (query b)]))
    /\ (status resp = 200 \/ status resp = 500).
Proof.
  intros Ht [Hlo Hhi]. destruct (js_length_pos t Hlo) as (c & t' & ->).
  unfold analyze, try_catch, analyze_try. rewrite Ht.
  rewrite (proj2 (N.ltb_ge _ _) Hhi).
  unfold mbind at 1, M_bind at 1. rewrite generateContent_run.
  destruct (generate E _) as [responseText|]; [|by eexists; eauto].
  destruct (parseAnalysis responseText) as [analysisData|]; [|by eexists; eauto].
  unfold mbind, M_bind.
  destruct (structure_invalid_run analysisData
              (World (files w) (prompts w ++ [buildLegalAnalysisPrompt (c :: t') (query b)])))
    as [[[|]|] ->]; by eexists; eauto.
Qed.

(** The handler of /analyze answers 400 with the kind [Validation Error]
    when [text] is absent, empty or longer than 10000; a text of length 1
    to 10000 passes validation: its prompt is built and sent, and the
    response is not a 400. *)
Lemma analyze_validation_typed (b : analyze_body) (w : world) :
  (text b = None \/ text b = Some []
   \/ (exists t, text b = Some t /\ 10000 < js_length t) ->
   exists message,
     analyze E b w = (Returned (error_response 400 (lit "Validation Error") message), w))
  /\ (forall t, text b = Some t -> 1 <= js_length t <= 10000 ->
      prompts (analyze E b w).2 = prompts w ++ [buildLegalAnalysisPrompt t (query b)]
      /\ exists resp, (analyze E b w).1 = Returned resp /\ status resp <> 400).
Proof.
  split.
  - unfold analyze, try_catch, analyze_try.
    intros [-> | [-> | (t & -> & Hlong)]]; [by eexists..|].
    destruct t as [|c t']; [by eexists|].
    rewrite (proj2 (N.ltb_lt _ _) Hlong). by eexists.
  - intros t Ht Hlen.
    destruct (analyze_valid_run b t w Ht Hlen) as (resp & -> & Hstatus).
    split; [done|]. exists resp. split; [done|]. destruct Hstatus as [-> | ->]; done.
Qed.

(** Extraction reads the file system and leaves it as it was. *)
Lemma extractText_world f w o w1 : extractText E f w = (o, w1) -> w1 = w.
Proof.
  unfold extractText, readFileSync, mbind, M_bind, lift_option.
  repeat (match goal with |- context [if ?b then _ else _] => destruct b end);
    destruct (files w !! path f) as [buffer|]; simpl;
    try destruct (pdf_parse E buffer); simpl; by intros [= <- <-].
Qed.

Lemma metadata_textLength_200 props timestamp fileName fileSize n :
  metadata_textLength
    (Response 200 (JObj (obj_set (lit "metadata")
       (JObj [ (lit "timestamp", timestamp); (lit "fileName", fileName);
               (lit "fileSize", fileSize); (lit "textLength", JInt n) ])
       props)))
  = Some (JInt n).
Proof. unfold metadata_textLength. simpl. by rewrite obj_get_set. Qed.

(** What /upload does once the text is extracted and the temporary file
    is there: the file is deleted; a blank text is refused; otherwise one
    prompt is sent, built from the truncated text, and the answer decides
    the response. *)
Lemma upload_run req f t w :
  file req = Some f -> extractText E f w = (Returned t, w) ->
  is_Some (files w !! path f) ->
  match trim t with
  | [] =>
      upload E req w
      = (Returned (error_response 400 (lit "Processing Error")
                     (lit "Could not extract text from the uploaded file")),
         World (delete (path f) (files w)) (prompts w))
  | _ :: _ =>
      let prompt := buildLegalAnalysisPrompt (truncate t) (body_query req) in
      exists resp,
        upload E req w
        = (Returned resp, World (delete (path f) (files w)) (prompts w ++ [prompt]))
        /\ (status resp = 200 \/ status resp = 500)
        /\ (status resp = 200 ->
            metadata_textLength resp = Some (JInt (js_length (truncate t))))
        /\ (forall responseText analysisData,
              generate E prompt = Some responseText ->
              parseAnalysis responseText = Some analysisData ->
              status resp = 200
              /\ forall k, k <> lit "metadata" ->
                   body_field k resp = obj_get k (spread analysisData))
  end.
Proof.
  intros Hf Ht [buffer Hbuf].
  unfold upload, try_catch, upload_try. rewrite Hf.
  unfold mbind, M_bind. rewrite Ht. unfold unlinkSync. rewrite Hbuf.
  destruct (trim t) as [|c t'] eqn:Htrim; [done|].
  cbv zeta. rewrite generateContent_run.
  cbn [files prompts set_files].
  destruct (generate E _) as [responseText|] eqn:Hgen.
  - destruct (parseAnalysis responseText) as [analysisData|] eqn:Hparse.
    + eexists. split; [done|]. split; [by left|]. split.
      * intros _. apply metadata_textLength_200.
      * intros ? ? [= <-]. rewrite Hparse. intros [= <-]. split; [done|].
        intros k Hk. unfold body_field. simpl. by apply obj_get_set_ne.
    + eexists. split; [done|]. split; [by right|]. split; [done|].
      intros ? ? [= <-]. by rewrite Hparse.
  - unfold upload_catch. rewrite Hf.
    unfold mbind, M_bind, existsSync. cbn [files].
    rewrite lookup_delete_eq.
    rewrite bool_decide_eq_false_2 by (by intros [? ?]).
    eexists. split; [done|]. split; [by right|]. split; done.
Qed.

Lemma trimStart_blank t : blank t -> trimStart t = [].
Proof. induction 1 as [|c t Hc _ IH]; simpl; [done|by rewrite Hc]. Qed.

Lemma trimStart_nil_blank t : trimStart t = [] -> blank t.
Proof.
  induction t as [|c t IH]; simpl; [by constructor|].
  destruct (is_js_whitespace c) eqn:Hc; [|done]. intros H. constructor; [done|by apply IH].
Qed.

Lemma trimStart_suffix t : trimStart t `suffix_of` t.
Proof.
  induction t as [|c t IH]; simpl; [done|].
  destruct (is_js_whitespace c); [by apply suffix_cons_r|done].
Qed.

(** A text trims to nothing exactly when it is empty or all white space. *)
Lemma trim_nil_blank t : trim t = [] <-> blank t.
Proof.
  unfold trim, trimEnd. split.
  - intros H. apply (f_equal (@rev N)) in H. rewrite rev_involutive in H. simpl in H.
    apply trimStart_nil_blank in H.
    apply Forall_rev in H. rewrite rev_involutive in H.
    destruct (trimStart t) as [|c t'] eqn:Ht; [by apply trimStart_nil_blank|].
    exfalso. inversion H as [|? ? Hc _]; subst.
    clear H. induction t as [|x t IH]; simpl in Ht; [done|].
    destruct (is_js_whitespace x) eqn:Hx; [auto|]. injection Ht as -> ->. congruence.
  - intros H. by rewrite (trimStart_blank _ H).
Qed.

(** C5: when the text extracted from an uploaded file is empty or all
    white space, /upload answers 400 with the kind [Processing Error] and
    the message that no text could be extracted, and sends no prompt to
    the generation service. *)
Theorem upload_blank_text (req : upload_request) (f : uploaded_file)
    (t : jsstring) (w : world) :
  file req = Some f ->
  is_Some (files w !! path f) ->
  (extractText E f w).1 = Returned t ->
  blank t ->
  (upload E req w).1
  = Returned (error_response 400 (lit "Processing Error")
                (lit "Could not extract text from the uploaded file"))
  /\ prompts (upload E req w).2 = prompts w.
Proof.
  intros Hf Hfile Ht Hblank.
  destruct (extractText E f w) as [o w1] eqn:Hex.
  pose proof (extractText_world _ _ _ _ Hex) as ->. simpl in Ht. subst o.
  pose proof (upload_run req f t w Hf Hex Hfile) as Hrun.
  rewrite (proj2 (trim_nil_blank t) Hblank) in Hrun. by rewrite Hrun.
Qed.

Lemma truncate_long t :
  10000 < js_length t ->
  truncate t = substring0 10000 t ++ lit "..."
  /\ js_length (truncate t) = 10003.
Proof.
  intros Hlong. unfold truncate. rewrite (proj2 (N.ltb_lt _ _) Hlong).
  split; [done|]. unfold js_length, substring0 in *.
  rewrite length_app, length_take. change (length (lit "...")) with 3%nat. lia.
Qed.

(** C2: when the text extracted from an uploaded file is longer than
    10000, what goes into the prompt is its first 10000 code units
    followed by the marker of three dots (code unit 46), and a successful
    response records the length of that truncated text, 10003, as
    [metadata.textLength], whatever the length of the extracted text. *)
Theorem upload_truncates (req : upload_request) (f : uploaded_file)
    (t : jsstring) (w : world) :
  file req = Some f ->
  is_Some (files w !! path f) ->
  (extractText E f w).1 = Returned t ->
  10000 < N.of_nat (length t) ->
  exists kept rest,
    t = kept ++ rest
    /\ N.of_nat (length kept) = 10000
    /\ (~ blank t ->
        prompts (upload E req w).2
        = prompts w ++ [buildLegalAnalysisPrompt (kept ++ [46; 46; 46]) (body_query req)])
    /\ (blank t -> prompts (upload E req w).2 = prompts w)
    /\ (forall resp, (upload E req w).1 = Returned resp -> status resp = 200 ->
        metadata_textLength resp = Some (JNum 10003 0)).
Proof.
  intros Hf Hfile Ht Hlong.
  destruct (truncate_long t Hlong) as [Htr Hlen].
  exists (take (N.to_nat 10000) t), (drop (N.to_nat 10000) t).
  split; [by rewrite take_drop|].
  split; [rewrite length_take; lia|].
  change (take (N.to_nat 10000) t ++ [46; 46; 46]) with (substring0 10000 t ++ lit "...").
  rewrite <- Htr.
  destruct (extractText E f w) as [o w1] eqn:Hex.
  pose proof (extractText_world _ _ _ _ Hex) as ->. simpl in Ht. subst o.
  pose proof (upload_run req f t w Hf Hex Hfile) as Hrun.
  destruct (trim t) as [|c t'] eqn:Htrim.
  - apply trim_nil_blank in Htrim. rewrite Hrun. repeat split; try done.
    intros resp [= <-]. done.
  - assert (~ blank t) as Hnb by (rewrite <- trim_nil_blank; congruence).
    destruct Hrun as (resp & -> & _ & Hmeta & _). repeat split; try done.
    intros resp' [= <-] H200. rewrite (Hmeta H200). by rewrite Hlen.
Qed.

(** Every path through the handler of /upload ends with a response and
    without the temporary file: it is unlinked right after extraction, or
    by the catch block when extraction throws. *)
Lemma upload_cleanup (req : upload_request) (f : uploaded_file) (w : world) :
  file req = Some f ->
  (exists resp, (upload E req w).1 = Returned resp)
  /\ files (upload E req w).2 !! path f = None.
Proof.
  intros Hf.
  assert (exists resp w', upload_catch req w = (Returned resp, w')
                          /\ files w' !! path f = None) as Hcatch.
  { unfold upload_catch. rewrite Hf.
    unfold mbind, M_bind, existsSync, unlinkSync.
    destruct (files w !! path f) as [buffer|] eqn:Hbuf.
    - rewrite bool_decide_eq_true_2 by done. rewrite Hbuf.
      eexists _, _. split; [done|]. apply lookup_delete_eq.
    - rewrite bool_decide_eq_false_2 by (by intros [? ?]).
      eexists _, _. split; done. }
  destruct (extractText E f w) as [o w1] eqn:Hex.
  pose proof (extractText_world _ _ _ _ Hex) as ->.
  destruct o as [t|].
  - destruct (files w !! path f) as [buffer|] eqn:Hbuf.
    + pose proof (upload_run req f t w Hf Hex ltac:(by eexists)) as Hrun.
      destruct (trim t).
      * rewrite Hrun. split; [by eexists|]. apply lookup_delete_eq.
      * destruct Hrun as (resp & -> & _). split; [by eexists|]. apply lookup_delete_eq.
    + destruct Hcatch as (resp & w' & Hc & Hnone).
      unfold upload, try_catch, upload_try. rewrite Hf.
      unfold mbind, M_bind. rewrite Hex. unfold unlinkSync. rewrite Hbuf, Hc.
      split; [by eexists|done].
  - destruct Hcatch as (resp & w' & Hc & Hnone).
    unfold upload, try_catch, upload_try. rewrite Hf.
    unfold mbind, M_bind. rewrite Hex, Hc. split; [by eexists|done].
Qed.

(** C7: whatever happens in the handler of /upload once a file is
    attached (extraction succeeds or throws, the text is blank, the
    generation service fails, its answer does not parse), the handler
    responds and the temporary file is gone from storage when it does. *)
Theorem upload_deletes_temp_file (req : upload_request) (f : uploaded_file)
    (w : world) :
  file req = Some f ->
  (exists resp, (upload E req w).1 = Returned resp)
  /\ files (upload E req w).2 !! path f = None.
Proof. apply upload_cleanup. Qed.

End Handlers.

(** ** Missing fields in the answer *)

Section Structure.

Variable E : env.

#[local] Arguments lit : simpl never.
#[local] Arguments obj_get : simpl never.
#[local] Arguments error_response : simpl never.

(** /analyze refuses an answer that is an object, or any other value but
    [null], without [simplified] or without [riskAssessment]. *)
Lemma analyze_refuses_missing_field b t w responseText analysisData :
  text b = Some t -> 1 <= js_length t <= 10000 ->
  generate E (buildLegalAnalysisPrompt t (query b)) = Some responseText ->
  parseAnalysis responseText = Some analysisData ->
  analysisData <> JNull ->
  own_property (lit "simplified") analysisData = None
  \/ own_property (lit "riskAssessment") analysisData = None ->
  (analyze E b w).1
  = Returned (error_response 500 (lit "API Processing Error")
                (lit "Invalid analysis response structure")).
Proof.
  intros Ht [Hlo Hhi] Hgen Hparse Hnull Hmiss.
  destruct (js_length_pos t Hlo) as (c & t' & ->).
  unfold analyze, try_catch, analyze_try. rewrite Ht.
  rewrite (proj2 (N.ltb_ge _ _) Hhi).
  unfold mbind at 1, M_bind at 1. rewrite generateContent_run, Hgen, Hparse.
  unfold structure_invalid, get_prop, own_property, mbind, M_bind, mret, M_ret in *.
  destruct analysisData as [| | | | |props]; try done; simpl.
  destruct Hmiss as [-> | ->]; [done|].
  by destruct (truthy (obj_get (lit "simplified") props)).
Qed.

(** An answer that is [null] makes the check itself throw: /analyze then
    answers 500 from its outer handler. *)
Lemma analyze_null_answer b t w responseText :
  text b = Some t -> 1 <= js_length t <= 10000 ->
  generate E (buildLegalAnalysisPrompt t (query b)) = Some responseText ->
  parseAnalysis responseText = Some JNull ->
  (analyze E b w).1
  = Returned (error_response 500 (lit "Internal Server Error")
                (lit "An unexpected error occurred while analyzing the document")).
Proof.
  intros Ht [Hlo Hhi] Hgen Hparse.
  destruct (js_length_pos t Hlo) as (c & t' & ->).
  unfold analyze, try_catch, analyze_try. rewrite Ht.
  rewrite (proj2 (N.ltb_ge _ _) Hhi).
  unfold mbind at 1, M_bind at 1. by rewrite generateContent_run, Hgen, Hparse.
Qed.

(** /upload has no such check: whatever the answer parses to, the
    response is a 200 that carries the answer's own properties. *)
Lemma upload_accepts_any_answer req f t w responseText analysisData :
  file req = Some f ->
  is_Some (files w !! path f) ->
  (extractText E f w).1 = Returned t ->
  ~ blank t ->
  generate E (buildLegalAnalysisPrompt (truncate t) (body_query req)) = Some responseText ->
  parseAnalysis responseText = Some analysisData ->
  exists resp,
    (upload E req w).1 = Returned resp /\ status resp = 200
    /\ forall k, k <> lit "metadata" ->
         body_field k resp = obj_get k (spread analysisData).
Proof.
  intros Hf Hfile Ht Hnb Hgen Hparse.
  destruct (extractText E f w) as [o w1] eqn:Hex.
  pose proof (extractText_world _ _ _ _ _ Hex) as ->. simpl in Ht. subst o.
  pose proof (upload_run E req f t w Hf Hex Hfile) as Hrun.
  destruct (trim t) as [|c t'] eqn:Htrim; [by apply trim_nil_blank in Htrim|].
  destruct Hrun as (resp & -> & _ & _ & Hany).
  exists resp. split; [done|]. by eapply Hany.
Qed.

End Structure.

(** C1, for /upload: a text file is uploaded and the generation service
    answers with valid JSON that has [simplified] but no [riskAssessment];
    the response is a 200 whose body has no [riskAssessment], not a 500. *)
Theorem upload_accepts_answer_without_riskAssessment :
  parseAnalysis answer_without_risk
  = Some (JObj [(lit "simplified", JStr (lit "A lease."))])
  /\ (post_upload (example_env (Some answer_without_risk))
        (text_upload (ascii_bytes "The tenant pays rent monthly.")) no_files).1
     = Returned (Response 200 (JObj [
         (lit "simplified", JStr (lit "A lease."));
         (lit "metadata", JObj [
            (lit "timestamp", JStr (lit "2024-05-01T12:00:00.000Z"));
            (lit "fileName", JStr (lit "lease.txt"));
            (lit "fileSize", JInt 29);
            (lit "textLength", JInt 29) ]) ])).
Proof. split; by vm_compute. Qed.

(** The same answer on /analyze is refused with a 500. *)
Lemma analyze_refuses_answer_without_riskAssessment :
  (analyze (example_env (Some answer_without_risk))
     (AnalyzeBody (Some (lit "The tenant pays rent monthly.")) None) no_files).1
  = Returned (error_response 500 (lit "API Processing Error")
                (lit "Invalid analysis response structure")).
Proof. by vm_compute. Qed.

(** ** The transport layer *)

(** A file longer than the limit is refused with a 400. *)
Lemma post_upload_too_large E r p w :
  document r = Some p -> fileFilter p = None -> fileSize_limit < part_size p ->
  post_upload E r w
  = (Returned (error_response 400 (lit "File Error")
                 (lit "File size too large. Maximum size is 10MB.")), w).
Proof.
  intros Hp Hfilter Hsize. unfold post_upload, upload_single.
  rewrite Hp, Hfilter, (proj2 (N.leb_le _ _) (N.lt_le_incl _ _ Hsize)). done.
Qed.

(** A file of another type than PDF or plain text is refused with a 500
    that says an unexpected error occurred. *)
Lemma post_upload_other_type E r p w :
  document r = Some p ->
  part_mimetype p <> lit "application/pdf" -> part_mimetype p <> lit "text/plain" ->
  post_upload E r w
  = (Returned (error_response 500 (lit "Internal Server Error")
                 (lit "An unexpected error occurred")), w).
Proof.
  intros Hp Hpdf Htxt. unfold post_upload, upload_single, fileFilter, jsstring_eqb.
  rewrite Hp, !bool_decide_eq_false_2 by done. done.
Qed.

(** Through the whole route, a request with a file leaves nothing at the
    temporary path: a refused file is never stored, an accepted one is
    deleted by the handler. *)
Lemma post_upload_leaves_no_temp_file E r p w :
  document r = Some p -> files w !! tmp_path r = None ->
  files (post_upload E r w).2 !! tmp_path r = None.
Proof.
  intros Hp Hfree. unfold post_upload, upload_single. rewrite Hp.
  destruct (fileFilter p); [done|].
  destruct (fileSize_limit <=? part_size p); [done|].
  by apply (upload_cleanup E _ (UploadedFile (part_originalname p) (part_mimetype p)
                                 (part_size p) (tmp_path r))).
Qed.

(** C4, for the media type: an image sent to /upload is answered with
    500 [Internal Server Error], not with a 400. *)
Theorem post_upload_image_500 (E : env) (w : world) :
  post_upload E image_upload w
  = (Returned (error_response 500 (lit "Internal Server Error")
                 (lit "An unexpected error occurred")), w).
Proof. by apply (post_upload_other_type E image_upload _ w eq_refl). Qed.

(** ** Fenced answers *)

(** C6: when the generation service wraps a JSON text, one that
    [JSON.parse] accepts as some value [v], in a fence tagged [json], the
    service parses the wrapped text to the same result as the raw text;
    and when the raw text contains no fence of its own, that result is
    [v]. *)
Theorem fenced_answer_parses_alike (s : jsstring) (v : json) :
  JSON_parse s = Some v ->
  parseAnalysis (fenced s) = parseAnalysis s
  /\ (occurs fence s = false -> parseAnalysis (fenced s) = Some v).
Proof.
  intros Hv. unfold parseAnalysis.
  rewrite (cleanText_fenced s (JSON_parse_no_trailing_fence s v Hv)).
  split; [done|]. intros Hfree.
  rewrite (cleanText_fence_free s Hfree). by apply JSON_parse_trim.
Qed.

Lemma fenced_answer_parses_alike_witness :
  JSON_parse answer_complete = Some answer_complete_value
  /\ parseAnalysis (fenced answer_complete) = parseAnalysis answer_complete
  /\ (occurs fence answer_complete = false ->
      parseAnalysis (fenced answer_complete) = Some answer_complete_value).
Proof.
  assert (JSON_parse answer_complete = Some answer_complete_value) as H
    by (vm_compute; reflexivity).
  exact (conj H (fenced_answer_parses_alike answer_complete answer_complete_value H)).
Defined.

(** The complete answer has no fence of its own, and parses to its value
    fenced or not. *)
Lemma fenced_answer_example :
  occurs fence answer_complete = false
  /\ parseAnalysis (fenced answer_complete) = Some answer_complete_value
  /\ parseAnalysis answer_complete = Some answer_complete_value.
Proof. by vm_compute. Qed.

(** A fence inside a string literal is removed by the replacements, fenced
    or not: the string of three backquotes comes out empty either way. *)
Lemma inner_fence_example :
  JSON_parse (ql "~```~") = Some (JStr (lit "```"))
  /\ parseAnalysis (ql "~```~") = Some (JStr [])
  /\ parseAnalysis (fenced (ql "~```~")) = Some (JStr []).
Proof. by vm_compute. Qed.

(** ** Worked examples *)

Lemma upload_blank_text_witness :
  file blank_request = Some blank_file
  /\ is_Some (files blank_world !! path blank_file)
  /\ (extractText example_service blank_file blank_world).1 = Returned blank_text
  /\ blank blank_text
  /\ (upload example_service blank_request blank_world).1
     = Returned (error_response 400 (lit "Processing Error")
                   (lit "Could not extract text from the uploaded file"))
  /\ prompts (upload example_service blank_request blank_world).2 = prompts blank_world.
Proof.
  assert (file blank_request = Some blank_file) as H1 by (vm_compute; reflexivity).
  assert (is_Some (files blank_world !! path blank_file)) as H2
    by (eexists; vm_compute; reflexivity).
  assert ((extractText example_service blank_file blank_world).1 = Returned blank_text)
    as H3 by (vm_compute; reflexivity).
  assert (blank blank_text) as H4 by (repeat constructor).
  exact (conj H1 (conj H2 (conj H3 (conj H4
    (upload_blank_text example_service blank_request blank_file blank_text blank_world
       H1 H2 H3 H4))))).
Defined.

Lemma upload_truncates_witness :
  file long_request = Some long_file
  /\ is_Some (files long_world !! path long_file)
  /\ (extractText example_service long_file long_world).1 = Returned long_text
  /\ 10000 < N.of_nat (length long_text)
  /\ exists kept rest,
       long_text = kept ++ rest
       /\ N.of_nat (length kept) = 10000
       /\ (~ blank long_text ->
           prompts (upload example_service long_request long_world).2
           = prompts long_world
             ++ [buildLegalAnalysisPrompt (kept ++ [46; 46; 46]) (body_query long_request)])
       /\ (blank long_text ->
           prompts (upload example_service long_request long_world).2 = prompts long_world)
       /\ (forall resp,
           (upload example_service long_request long_world).1 = Returned resp ->
           status resp = 200 -> metadata_textLength resp = Some (JNum 10003 0)).
Proof.
  assert (file long_request = Some long_file) as H1 by (vm_compute; reflexivity).
  assert (is_Some (files long_world !! path long_file)) as H2
    by (eexists; vm_compute; reflexivity).
  assert ((extractText example_service long_file long_world).1 = Returned long_text)
    as H3 by (vm_compute; reflexivity).
  assert (10000 < N.of_nat (length long_text)) as H4 by (vm_compute; reflexivity).
  exact (conj H1 (conj H2 (conj H3 (conj H4
    (upload_truncates example_service long_request long_file long_text long_world
       H1 H2 H3 H4))))).
Defined.

(** The long upload end to end: the response is a 200 whose
    [metadata.textLength] is 10003. *)
Lemma upload_long_text_example :
  exists resp,
    (post_upload example_service (text_upload long_content) no_files).1 = Returned resp
    /\ status resp = 200
    /\ metadata_textLength resp = Some (JInt 10003)
    /\ body_field (lit "simplified") resp = Some (JStr (lit "A lease.")).
Proof. eexists. vm_compute. repeat split; reflexivity. Qed.

Lemma upload_deletes_temp_file_witness :
  file long_request = Some long_file
  /\ (exists resp, (upload example_service long_request long_world).1 = Returned resp)
  /\ files (upload example_service long_request long_world).2 !! path long_file = None.
Proof.
  assert (file long_request = Some long_file) as H1 by (vm_compute; reflexivity).
  exact (conj H1
    (upload_deletes_temp_file example_service long_request long_file long_world H1)).
Defined.

(** * More properties *)

(** ** Cleaning an answer *)

Section Cleaning.

(** A replacement leaves a tail [\n u] alone, but for the line feed when
    the text ends with the pattern. *)
Lemma replace_all_tail_LF p pat u s :
  LF ∉ p :: pat ->
  replace_all (p :: pat) (LF :: u) = LF :: u ->
  replace_all (p :: pat) u = u ->
  replace_all (p :: pat) (s ++ LF :: u) = replace_all (p :: pat) s ++ LF :: u
  \/ replace_all (p :: pat) (s ++ LF :: u) = replace_all (p :: pat) s ++ u.
Proof.
  intros Hlf Hu Hu'.
  remember (length s) as n eqn:Hn. revert s Hn.
  induction n as [n IH] using lt_wf_ind. intros s Hn.
  destruct s as [|c s]; [by left|].
  rewrite <- app_comm_cons.
  destruct (match_prefix (p :: pat) (c :: s)) as [rest|] eqn:Hm.
  - rewrite (replace_all_match _ _ _ _ _ Hm).
    pose proof (match_prefix_app _ _ _ (LF :: u) Hm) as Hm'.
    rewrite <- app_comm_cons in Hm'.
    rewrite (replace_all_match _ _ _ _ _ Hm').
    apply match_prefix_Some in Hm.
    destruct rest as [|r rest].
    { right. rewrite app_nil_l.
      change (skip_optional_LF (LF :: u)) with u. by rewrite Hu'. }
    rewrite skip_optional_LF_app by done.
    eapply IH; [|done].
    subst n. pose proof (skip_optional_LF_length (r :: rest)).
    rewrite Hm, length_app. simpl in *. lia.
  - rewrite (replace_all_keep _ _ _ _ Hm).
    pose proof (match_prefix_None_app _ _ u Hlf Hm) as Hm'.
    rewrite <- app_comm_cons in Hm'.
    rewrite (replace_all_keep _ _ _ _ Hm').
    destruct (IH (length s) ltac:(subst n; simpl; lia) s eq_refl) as [->| ->];
      [left|right]; done.
Qed.

(** Whether a fence starts a text is decided by its first three code
    units. *)
Lemma match_prefix_fence3 c d e x :
  match_prefix fence (c :: d :: e :: x)
  = if (96 =? c) && (96 =? d) && (96 =? e) then Some x else None.
Proof.
  change fence with [96; 96; 96]. cbn [match_prefix].
  destruct (96 =? c); [|done]. destruct (96 =? d); [|done]. by destruct (96 =? e).
Qed.

(** A closing fence right at the end is removed with the rest. *)
Lemma replace_fence_absorbs t :
  replace_all fence (t ++ fence) = replace_all fence t.
Proof.
  remember (length t) as n eqn:Hn. revert t Hn.
  induction n as [n IH] using lt_wf_ind. intros t Hn.
  change fence with (96 :: lit "``") in *.
  destruct t as [|c [|d [|e t']]].
  - by vm_compute.
  - destruct (N.eqb_spec 96 c) as [<-|Hc]; [by vm_compute|].
    assert (forall x, match_prefix (96 :: lit "``") (c :: x) = None) as Hk.
    { intros x. cbn [match_prefix]. by rewrite (proj2 (N.eqb_neq _ _) Hc). }
    change ([c] ++ 96 :: lit "``") with (c :: 96 :: lit "``").
    rewrite (replace_all_keep _ _ _ _ (Hk (96 :: lit "``"))).
    by rewrite (replace_all_keep _ _ _ _ (Hk [])).
  - assert (forall x, 96 <> c \/ 96 <> d ->
                      match_prefix (96 :: lit "``") (c :: d :: x) = None) as Hk.
    { intros x Hcd. change (lit "``") with [96; 96]. cbn [match_prefix].
      destruct (N.eqb_spec 96 c); [|done]. destruct (N.eqb_spec 96 d); [|done].
      by destruct Hcd. }
    destruct (N.eqb_spec 96 c) as [<-|Hc];
      [destruct (N.eqb_spec 96 d) as [<-|Hd]; [by vm_compute|]|].
    all: change ([c; d] ++ 96 :: lit "``") with (c :: d :: 96 :: lit "``") ||
         change ([96; d] ++ 96 :: lit "``") with (96 :: d :: 96 :: lit "``").
    all: rewrite (replace_all_keep _ _ _ _ (Hk (96 :: lit "``") ltac:(tauto))).
    all: rewrite (replace_all_keep _ _ _ _ (Hk [] ltac:(tauto))).
    all: f_equal; apply (IH 1%nat ltac:(subst n; simpl; lia) [d] eq_refl).
  - pose proof (match_prefix_fence3 c d e t') as Hm.
    pose proof (match_prefix_fence3 c d e (t' ++ 96 :: lit "``")) as Hm'.
    change fence with (96 :: lit "``") in Hm, Hm'.
    rewrite <- !app_comm_cons.
    destruct ((96 =? c) && (96 =? d) && (96 =? e)).
    + rewrite (replace_all_match _ _ _ _ _ Hm), (replace_all_match _ _ _ _ _ Hm').
      destruct t' as [|r rest]; [by vm_compute|].
      rewrite skip_optional_LF_app by done.
      apply (IH (length (skip_optional_LF (r :: rest)))); [|done].
      subst n. pose proof (skip_optional_LF_length (r :: rest)). simpl in *. lia.
    + rewrite (replace_all_keep _ _ _ _ Hm), (replace_all_keep _ _ _ _ Hm').
      f_equal. rewrite !app_comm_cons.
      apply (IH (length (d :: e :: t'))); [subst n; simpl; lia|done].
Qed.

(** What is left of the closing fence line after both replacements is at
    most a line feed. *)
Lemma replace_both_closing s :
  let t := replace_all fence_json s in
  replace_all fence (replace_all fence_json (s ++ LF :: fence)) = replace_all fence t ++ [LF]
  \/ replace_all fence (replace_all fence_json (s ++ LF :: fence)) = replace_all fence t.
Proof.
  intros t.
  pose proof (replace_all_tail_LF 96 (lit "``json") fence s LF_not_in_fence_json)
    as Hjson.
  change (96 :: lit "``json") with fence_json in Hjson.
  destruct Hjson as [-> | ->]; [by vm_compute|by vm_compute| |].
  - pose proof (replace_all_tail_removed 96 (lit "``") fence t LF_not_in_fence) as Hf.
    change (96 :: lit "``") with fence in Hf.
    apply Hf; by vm_compute.
  - right. apply replace_fence_absorbs.
Qed.

Lemma cleanText_fenced_any s : cleanText (fenced s) = cleanText s.
Proof.
  unfold cleanText, fenced.
  assert (replace_all fence_json (fence_json ++ LF :: s ++ LF :: fence)
          = replace_all fence_json (s ++ LF :: fence)) as ->.
  { apply (replace_all_match 96 (lit "``json") 96
             (lit "``json" ++ LF :: s ++ LF :: fence) (LF :: s ++ LF :: fence)).
    by apply match_prefix_Some. }
  destruct (replace_both_closing s) as [-> | ->]; [|done].
  by apply trim_snoc.
Qed.

Lemma cleanText_plain_fenced s : cleanText (plain_fenced s) = cleanText s.
Proof.
  unfold cleanText, plain_fenced.
  assert (replace_all fence_json (fence ++ LF :: s ++ LF :: fence)
          = fence ++ LF :: replace_all fence_json (s ++ LF :: fence)) as ->.
  { change fence_json with (96 :: lit "``json").
    change (fence ++ LF :: s ++ LF :: fence)
      with (96 :: 96 :: 96 :: LF :: s ++ LF :: fence).
    by rewrite !replace_all_keep. }
  assert (forall y, replace_all fence (fence ++ LF :: y) = replace_all fence y) as ->.
  { intros y.
    apply (replace_all_match 96 (lit "``") 96 (lit "``" ++ LF :: y) (LF :: y)).
    by apply match_prefix_Some. }
  destruct (replace_both_closing s) as [-> | ->]; [|done].
  by apply trim_snoc.
Qed.

(** X1: wrapping any text at all in a fence, tagged [json] or untagged,
    changes nothing of what the service cleans it to. *)
Theorem cleanText_ignores_wrapping (s : jsstring) :
  cleanText (fenced s) = cleanText s /\ cleanText (plain_fenced s) = cleanText s.
Proof. split; [apply cleanText_fenced_any|apply cleanText_plain_fenced]. Qed.

End Cleaning.

Section CleanedText.

(** The second replacement does not make a text start with more
    backquotes than it had. *)
Lemma replace_fence_head t :
  (startsWith (replace_all fence t) [96] = true -> startsWith t [96] = true)
  /\ (startsWith (replace_all fence t) [96; 96] = true -> startsWith t [96; 96] = true).
Proof.
  remember (length t) as n eqn:Hn. revert t Hn.
  induction n as [n IH] using lt_wf_ind. intros t Hn.
  destruct t as [|c t']; [done|].
  change fence with (96 :: lit "``") in *.
  destruct (match_prefix (96 :: lit "``") (c :: t')) as [rest|] eqn:Hm.
  - apply match_prefix_Some in Hm. rewrite Hm at 2 4. done.
  - rewrite (replace_all_keep _ _ _ _ Hm).
    destruct (IH (length t') ltac:(subst n; simpl; lia) t' eq_refl) as [IH1 IH2].
    unfold startsWith in *. cbn [match_prefix] in *.
    destruct (96 =? c); [|done]. split; [done|].
    destruct (replace_all (96 :: lit "``") t') as [|x y]; [done|].
    destruct (N.eqb_spec 96 x) as [<-|]; [|done].
    intros _. specialize (IH1 eq_refl).
    destruct t' as [|x' y']; [done|]. by destruct (96 =? x').
Qed.

(** After the second replacement no fence is left. *)
Lemma replace_fence_no_fence t : occurs fence (replace_all fence t) = false.
Proof.
  remember (length t) as n eqn:Hn. revert t Hn.
  induction n as [n IH] using lt_wf_ind. intros t Hn.
  destruct t as [|c t']; [done|].
  destruct (match_prefix fence (c :: t')) as [rest|] eqn:Hm.
  - change fence with (96 :: lit "``") in *.
    rewrite (replace_all_match _ _ _ _ _ Hm).
    apply match_prefix_Some in Hm.
    apply (IH (length (skip_optional_LF rest))); [|done].
    subst n. pose proof (skip_optional_LF_length rest).
    rewrite Hm, length_app. simpl in *. lia.
  - change fence with (96 :: lit "``") in *.
    rewrite (replace_all_keep _ _ _ _ Hm). cbn [occurs].
    rewrite (IH (length t') ltac:(subst n; simpl; lia) t' eq_refl), orb_false_r.
    destruct (replace_fence_head t') as [_ H2].
    change fence with (96 :: lit "``") in H2.
    unfold startsWith in *. change (lit "``") with [96; 96] in *.
    cbn [match_prefix] in *.
    destruct (96 =? c); [|done].
    destruct (replace_all [96; 96; 96] t') as [|x [|y z]]; [done|by destruct (96 =? x)|].
    destruct (96 =? x); [|done]. destruct (96 =? y); [|done].
    specialize (H2 eq_refl).
    destruct t' as [|x' [|y' z']]; [done|by destruct (96 =? x')|].
    destruct (96 =? x'); [|done]. by destruct (96 =? y').
Qed.

Lemma occurs_cons_false pat a s : occurs pat (a :: s) = false -> occurs pat s = false.
Proof. cbn [occurs]. by intros [_ ?]%orb_false_elim. Qed.

Lemma occurs_suffix pat s t :
  t `suffix_of` s -> occurs pat s = false -> occurs pat t = false.
Proof.
  intros [k ->]. induction k as [|a k IH]; [done|].
  intros H. apply IH. by eapply occurs_cons_false.
Qed.

Lemma occurs_prefix pat s t :
  occurs pat (s ++ t) = false -> occurs pat s = false.
Proof.
  induction s as [|a s IH]; [done|].
  rewrite <- app_comm_cons. cbn [occurs].
  intros [Hhere Hlater]%orb_false_elim. rewrite (IH Hlater), orb_false_r.
  unfold startsWith in *.
  destruct (match_prefix pat (a :: s)) as [rest|] eqn:Hm; [|done].
  by rewrite app_comm_cons, (match_prefix_app _ _ _ t Hm) in Hhere.
Qed.

Lemma trimEnd_prefix s : trimEnd s `prefix_of` s.
Proof.
  unfold trimEnd. destruct (trimStart_suffix (rev s)) as [k Hk].
  exists (rev k). rewrite <- rev_app_distr, <- Hk. by rewrite rev_involutive.
Qed.

Lemma occurs_trim pat s : occurs pat s = false -> occurs pat (trim s) = false.
Proof.
  intros H. unfold trim.
  destruct (trimEnd_prefix (trimStart s)) as [k Hk].
  apply (occurs_prefix pat _ k). rewrite <- Hk.
  by eapply occurs_suffix; [apply trimStart_suffix|].
Qed.

Lemma cleanText_no_fence s : occurs fence (cleanText s) = false.
Proof. apply occurs_trim, replace_fence_no_fence. Qed.

(** X2: whatever the generation service answers, the text handed to
    [JSON.parse] contains no code fence (and so no tagged one either). *)
Theorem cleanText_has_no_fence (responseText : jsstring) :
  occurs fence (cleanText responseText) = false
  /\ occurs fence_json (cleanText responseText) = false.
Proof.
  split; [apply cleanText_no_fence|apply occurs_fence_json, cleanText_no_fence].
Qed.

Lemma trimStart_idem s : trimStart (trimStart s) = trimStart s.
Proof.
  induction s as [|c s IH]; [done|]. simpl.
  destruct (is_js_whitespace c) eqn:Hc; [done|]. simpl. by rewrite Hc.
Qed.

Lemma trimEnd_idem s : trimEnd (trimEnd s) = trimEnd s.
Proof. unfold trimEnd. by rewrite rev_involutive, trimStart_idem. Qed.

Lemma trimStart_snoc_kept s c :
  is_js_whitespace c = false -> trimStart (s ++ [c]) = trimStart s ++ [c].
Proof.
  intros Hc. induction s as [|x s IH]; simpl; [by rewrite Hc|].
  by destruct (is_js_whitespace x).
Qed.

Lemma trimEnd_cons_kept c s :
  is_js_whitespace c = false -> trimEnd (c :: s) = c :: trimEnd s.
Proof.
  intros Hc. unfold trimEnd. simpl rev at 2.
  rewrite trimStart_snoc_kept by done. by rewrite rev_unit.
Qed.

(** Trimming twice is trimming once. *)
Lemma trim_idem s : trim (trim s) = trim s.
Proof.
  unfold trim. destruct (trimStart s) as [|c y] eqn:Hs; [done|].
  assert (is_js_whitespace c = false) as Hc.
  { clear -Hs. induction s as [|x s IH]; [done|]. simpl in Hs.
    destruct (is_js_whitespace x) eqn:Hx; [auto|]. by injection Hs as -> _. }
  rewrite trimEnd_cons_kept by done. simpl. rewrite Hc.
  by rewrite <- trimEnd_cons_kept, trimEnd_idem.
Qed.

(** X3: cleaning is idempotent, and what it returns has no white space
    left at either end. *)
Theorem cleanText_idempotent (responseText : jsstring) :
  cleanText (cleanText responseText) = cleanText responseText
  /\ trim (cleanText responseText) = cleanText responseText.
Proof.
  assert (trim (cleanText responseText) = cleanText responseText) as Htrim
    by apply trim_idem.
  split; [|done].
  by rewrite (cleanText_fence_free _ (cleanText_no_fence responseText)).
Qed.

(** X4: an answer without any fence is only trimmed before it is parsed. *)
Theorem cleanText_only_trims (responseText : jsstring) :
  occurs fence responseText = false -> cleanText responseText = trim responseText.
Proof. apply cleanText_fence_free. Qed.

Lemma cleanText_only_trims_witness :
  occurs fence (lit "  {}  ") = false
  /\ cleanText (lit "  {}  ") = trim (lit "  {}  ").
Proof.
  assert (occurs fence (lit "  {}  ") = false) as H by (vm_compute; reflexivity).
  exact (conj H (cleanText_only_trims (lit "  {}  ") H)).
Defined.

End CleanedText.

(** ** More on the handlers *)

Section MoreHandlers.

Variable E : env.

#[local] Arguments lit : simpl never.
#[local] Arguments ql : simpl never.
#[local] Arguments buildLegalAnalysisPrompt : simpl never.
#[local] Arguments parseAnalysis : simpl never.
#[local] Arguments trim : simpl never.
#[local] Arguments truncate : simpl never.
#[local] Arguments obj_get : simpl never.
#[local] Arguments obj_set : simpl never.
#[local] Arguments spread : simpl never.
#[local] Arguments error_response : simpl never.
#[local] Arguments N.ltb : simpl never.
#[local] Arguments js_length : simpl never.

(** /analyze on a text that passes validation, step by step. *)
Lemma analyze_valid_unfold b t w :
  text b = Some t -> 1 <= js_length t <= 10000 ->
  analyze E b w
  = let w1 := World (files w) (prompts w ++ [buildLegalAnalysisPrompt t (query b)]) in
    match generate E (buildLegalAnalysisPrompt t (query b)) with
    | None =>
        (Returned (error_response 500 (lit "Internal Server Error")
           (lit "An unexpected error occurred while analyzing the document")), w1)
    | Some responseText =>
        match parseAnalysis responseText with
        | None => (Returned parse_failure, w1)
        | Some analysisData =>
            match structure_invalid analysisData w1 with
            | (Returned true, _) =>
                (Returned (error_response 500 (lit "API Processing Error")
                   (lit "Invalid analysis response structure")), w1)
            | (Returned false, _) =>
                (Returned (Response 200 (JObj (obj_set (lit "metadata")
                   (JObj [ (lit "timestamp", JStr (now_iso E));
                           (lit "textLength", JInt (js_length t));
                           (lit "hasQuery", JBool (truthy_string (query b))) ])
                   (spread analysisData)))), w1)
            | (Thrown, _) =>
                (Returned (error_response 500 (lit "Internal Server Error")
                   (lit "An unexpected error occurred while analyzing the document")), w1)
            end
        end
    end.
Proof.
  intros Ht [Hlo Hhi]. destruct (js_length_pos t Hlo) as (c & t' & ->).
  unfold analyze, try_catch, analyze_try. rewrite Ht.
  rewrite (proj2 (N.ltb_ge _ _) Hhi).
  unfold mbind at 1, M_bind at 1. rewrite generateContent_run. cbv zeta.
  destruct (generate E _) as [responseText|]; [|done].
  destruct (parseAnalysis responseText) as [analysisData|]; [|done].
  unfold mbind, M_bind.
  destruct (structure_invalid_run analysisData
              (World (files w) (prompts w ++ [buildLegalAnalysisPrompt (c :: t') (query b)])))
    as [[[|]|] ->]; done.
Qed.

(** The check of /analyze on an object. *)
Lemma structure_invalid_object props w :
  structure_invalid (JObj props) w
  = (Returned (negb (truthy (obj_get (lit "simplified") props)
                     && truthy (obj_get (lit "riskAssessment") props))), w).
Proof.
  unfold structure_invalid, get_prop, mbind, M_bind, mret, M_ret.
  by destruct (truthy (obj_get (lit "simplified") props)),
              (truthy (obj_get (lit "riskAssessment") props)).
Qed.

(** On a value that is no object the check fails or throws. *)
Lemma structure_invalid_other analysisData w :
  (forall props, analysisData <> JObj props) ->
  structure_invalid analysisData w = (Returned true, w)
  \/ structure_invalid analysisData w = (Thrown, w).
Proof.
  intros Hno. destruct analysisData; try (by left); [by right|].
  by destruct (Hno props).
Qed.

(** X6: when the generation service fails on a valid text, /analyze
    answers 500 [Internal Server Error]; the prompt was sent. *)
Theorem analyze_oracle_failure (b : analyze_body) (t : jsstring) (w : world) :
  text b = Some t -> 1 <= js_length t <= 10000 ->
  generate E (buildLegalAnalysisPrompt t (query b)) = None ->
  analyze E b w
  = (Returned (error_response 500 (lit "Internal Server Error")
       (lit "An unexpected error occurred while analyzing the document")),
     World (files w) (prompts w ++ [buildLegalAnalysisPrompt t (query b)])).
Proof. intros Ht Hlen Hgen. by rewrite (analyze_valid_unfold b t w Ht Hlen), Hgen. Qed.

(** X7: when the answer to a valid text is not JSON once cleaned,
    /analyze answers 500 [API Processing Error] with the message that the
    analysis could not be parsed. *)
Theorem analyze_unparsable_answer (b : analyze_body) (t responseText : jsstring)
    (w : world) :
  text b = Some t -> 1 <= js_length t <= 10000 ->
  generate E (buildLegalAnalysisPrompt t (query b)) = Some responseText ->
  JSON_parse (cleanText responseText) = None ->
  (analyze E b w).1
  = Returned (error_response 500 (lit "API Processing Error")
       (lit "Failed to parse analysis from AI service")).
Proof.
  intros Ht Hlen Hgen Hparse. rewrite (analyze_valid_unfold b t w Ht Hlen), Hgen.
  cbv zeta. unfold parseAnalysis. by rewrite Hparse.
Qed.

(** X8: /analyze answers 200 exactly when the parsed answer is an object
    whose [simplified] and [riskAssessment] are both truthy; a field that
    is present but empty, zero, false or null is refused like a missing
    one, and so is every answer that is not an object.  Otherwise the
    status is 500. *)
Theorem analyze_accepts_iff (b : analyze_body) (t responseText : jsstring)
    (analysisData : json) (w : world) :
  text b = Some t -> 1 <= js_length t <= 10000 ->
  generate E (buildLegalAnalysisPrompt t (query b)) = Some responseText ->
  parseAnalysis responseText = Some analysisData ->
  exists resp,
    (analyze E b w).1 = Returned resp
    /\ (status resp = 200 <->
        exists props, analysisData = JObj props
          /\ truthy (obj_get (lit "simplified") props) = true
          /\ truthy (obj_get (lit "riskAssessment") props) = true)
    /\ (status resp <> 200 -> status resp = 500).
Proof.
  intros Ht Hlen Hgen Hparse. rewrite (analyze_valid_unfold b t w Ht Hlen), Hgen.
  cbv zeta. rewrite Hparse.
  destruct analysisData as [| | | | |props].
  6: { rewrite structure_invalid_object.
       destruct (truthy (obj_get (lit "simplified") props)) eqn:H1,
                (truthy (obj_get (lit "riskAssessment") props)) eqn:H2;
         eexists; (split; [done|]); simpl; (split; [|done]); split; try done.
       - intros _. by exists props.
       - intros (? & [= <-] & ? & ?). congruence.
       - intros (? & [= <-] & ? & ?). congruence.
       - intros (? & [= <-] & ? & ?). congruence. }
  all: eexists; (split; [done|]); simpl; (split; [|done]); split; [done|].
  all: by intros (? & ? & _).
Qed.

(** X9: the body of a 200 from /analyze has [metadata] set by the
    service: the timestamp, the length of the submitted text and whether
    a non-empty query came with it.  A [metadata] of the answer's own is
    replaced.  Every other field of the answer whose value holds no
    number is in the body as it is in the answer, and the body has no
    further fields. *)
Theorem analyze_success_body (b : analyze_body) (t responseText : jsstring)
    (props : list (jsstring * json)) (w : world) :
  text b = Some t -> 1 <= js_length t <= 10000 ->
  generate E (buildLegalAnalysisPrompt t (query b)) = Some responseText ->
  parseAnalysis responseText = Some (JObj props) ->
  truthy (obj_get (lit "simplified") props) = true ->
  truthy (obj_get (lit "riskAssessment") props) = true ->
  exists resp,
    (analyze E b w).1 = Returned resp
    /\ status resp = 200
    /\ body_field (lit "metadata") resp
       = Some (JObj [ (lit "timestamp", JStr (now_iso E));
                      (lit "textLength", JNum (Z.of_N (N.of_nat (length t))) 0);
                      (lit "hasQuery", JBool (truthy_string (query b))) ])
    /\ forall k, k <> lit "metadata" ->
         (forall v, obj_get k props = Some v -> number_free v = true ->
                    body_field k resp = Some v)
         /\ (obj_get k props = None -> body_field k resp = None).
Proof.
  intros Ht Hlen Hgen Hparse H1 H2. rewrite (analyze_valid_unfold b t w Ht Hlen), Hgen.
  cbv zeta. rewrite Hparse, structure_invalid_object, H1, H2.
  eexists. split; [done|]. split; [done|]. unfold body_field, own_property. simpl.
  split; [apply obj_get_set|]. intros k Hk. rewrite obj_get_set_ne by done.
  split; [intros v Hv _; exact Hv|intros Hn; exact Hn].
Qed.

End MoreHandlers.

Section MoreUpload.

Variable E : env.

#[local] Arguments lit : simpl never.
#[local] Arguments ql : simpl never.
#[local] Arguments buildLegalAnalysisPrompt : simpl never.
#[local] Arguments parseAnalysis : simpl never.
#[local] Arguments trim : simpl never.
#[local] Arguments truncate : simpl never.
#[local] Arguments obj_get : simpl never.
#[local] Arguments obj_set : simpl never.
#[local] Arguments spread : simpl never.
#[local] Arguments error_response : simpl never.
#[local] Arguments N.ltb : simpl never.
#[local] Arguments js_length : simpl never.

(** The catch block of /upload: the temporary file is removed if it is
    there, and the answer is the generic 500. *)
Lemma upload_catch_run req f w :
  file req = Some f ->
  upload_catch req w
  = (Returned (error_response 500 (lit "Internal Server Error")
       (lit "An unexpected error occurred while processing the file")),
     World (delete (path f) (files w)) (prompts w)).
Proof.
  intros Hf. unfold upload_catch. rewrite Hf.
  unfold mbind, M_bind, existsSync, unlinkSync.
  destruct (files w !! path f) as [buffer|] eqn:Hbuf.
  - rewrite bool_decide_eq_true_2 by done. by rewrite Hbuf.
  - rewrite bool_decide_eq_false_2 by (by intros [? ?]).
    unfold mret, M_ret. rewrite delete_id by done. by destruct w.
Qed.

(** /upload when the handler throws before the file is unlinked. *)
Lemma upload_thrown_early req f w :
  file req = Some f ->
  (extractText E f w = (Thrown, w)
   \/ exists t, extractText E f w = (Returned t, w) /\ files w !! path f = None) ->
  upload E req w
  = (Returned (error_response 500 (lit "Internal Server Error")
       (lit "An unexpected error occurred while processing the file")),
     World (delete (path f) (files w)) (prompts w)).
Proof.
  intros Hf Hcase. unfold upload, try_catch, upload_try. rewrite Hf.
  unfold mbind, M_bind.
  destruct Hcase as [-> | (t & -> & Hnone)].
  - by apply upload_catch_run.
  - unfold unlinkSync. rewrite Hnone. by apply upload_catch_run.
Qed.

(** X10: /upload never fails to respond, with status 200, 400 or 500;
    it sends at most one prompt; and all it does to the file system is
    remove the temporary file of the request: every other file is as it
    was. *)
Theorem upload_only_removes_temp_file (req : upload_request) (w : world) :
  exists resp,
    (upload E req w).1 = Returned resp
    /\ (status resp = 200 \/ status resp = 400 \/ status resp = 500)
    /\ files (upload E req w).2
       = match file req with
         | Some f => delete (path f) (files w)
         | None => files w
         end
    /\ (prompts (upload E req w).2 = prompts w
        \/ exists prompt, prompts (upload E req w).2 = prompts w ++ [prompt]).
Proof.
  destruct (file req) as [f|] eqn:Hf.
  2: { unfold upload, try_catch, upload_try. rewrite Hf. eexists. simpl. eauto 10. }
  destruct (extractText E f w) as [o w1] eqn:Hex.
  pose proof (extractText_world _ _ _ _ _ Hex) as ->.
  destruct o as [t|].
  - destruct (files w !! path f) as [buffer|] eqn:Hbuf.
    + pose proof (upload_run E req f t w Hf Hex ltac:(by eexists)) as Hrun.
      destruct (trim t).
      * rewrite Hrun. eexists. simpl. eauto 10.
      * destruct Hrun as (resp & -> & Hst & _). exists resp. simpl.
        repeat split; [tauto|eauto].
    + rewrite (upload_thrown_early req f w Hf) by eauto. eexists. simpl. eauto 10.
  - rewrite (upload_thrown_early req f w Hf) by eauto. eexists. simpl. eauto 10.
Qed.

(** X11: when the PDF parser rejects an uploaded PDF, /upload answers 500
    [Internal Server Error], sends no prompt, and the temporary file is
    removed by the catch block. *)
Theorem upload_pdf_failure (req : upload_request) (f : uploaded_file)
    (buffer : list Byte.byte) (w : world) :
  file req = Some f ->
  mimetype f = lit "application/pdf" ->
  files w !! path f = Some buffer ->
  pdf_parse E buffer = None ->
  upload E req w
  = (Returned (error_response 500 (lit "Internal Server Error")
       (lit "An unexpected error occurred while processing the file")),
     World (delete (path f) (files w)) (prompts w)).
Proof.
  intros Hf Hpdf Hbuf Hfail. apply (upload_thrown_early req f w Hf). left.
  unfold extractText, jsstring_eqb. rewrite Hpdf, bool_decide_eq_true_2 by done.
  unfold mbind, M_bind, readFileSync. rewrite Hbuf. simpl. by rewrite Hfail.
Qed.

Lemma truncate_short t : js_length t <= 10000 -> truncate t = t.
Proof. intros H. unfold truncate. by rewrite (proj2 (N.ltb_ge _ _) H). Qed.

(** X12: an extracted text of at most 10000 code units is not touched:
    the prompt is built from the whole text, and a successful response
    records its length as [metadata.textLength]. *)
Theorem upload_short_text (req : upload_request) (f : uploaded_file)
    (t : jsstring) (w : world) :
  file req = Some f ->
  is_Some (files w !! path f) ->
  (extractText E f w).1 = Returned t ->
  ~ blank t ->
  js_length t <= 10000 ->
  prompts (upload E req w).2
  = prompts w ++ [buildLegalAnalysisPrompt t (body_query req)]
  /\ (forall resp, (upload E req w).1 = Returned resp -> status resp = 200 ->
      metadata_textLength resp = Some (JInt (js_length t))).
Proof.
  intros Hf Hfile Ht Hnb Hlen.
  destruct (extractText E f w) as [o w1] eqn:Hex.
  pose proof (extractText_world _ _ _ _ _ Hex) as ->. simpl in Ht. subst o.
  pose proof (upload_run E req f t w Hf Hex Hfile) as Hrun.
  destruct (trim t) as [|c t'] eqn:Htrim; [by apply trim_nil_blank in Htrim|].
  rewrite (truncate_short t Hlen) in Hrun.
  destruct Hrun as (resp & -> & _ & Hmeta & _). split; [done|].
  intros resp' [= <-]. apply Hmeta.
Qed.

(** X13: once a prompt was sent for an upload, a failure of the
    generation service gives 500 [Internal Server Error] and an answer
    that is not JSON gives 500 [API Processing Error]. *)
Theorem upload_failure_kinds (req : upload_request) (f : uploaded_file)
    (t : jsstring) (w : world) :
  file req = Some f ->
  is_Some (files w !! path f) ->
  (extractText E f w).1 = Returned t ->
  ~ blank t ->
  (generate E (buildLegalAnalysisPrompt (truncate t) (body_query req)) = None ->
   (upload E req w).1
   = Returned (error_response 500 (lit "Internal Server Error")
        (lit "An unexpected error occurred while processing the file")))
  /\ (forall responseText,
      generate E (buildLegalAnalysisPrompt (truncate t) (body_query req))
      = Some responseText ->
      JSON_parse (cleanText responseText) = None ->
      (upload E req w).1
      = Returned (error_response 500 (lit "API Processing Error")
           (lit "Failed to parse analysis from AI service"))).
Proof.
  intros Hf [buffer Hbuf] Ht Hnb.
  destruct (extractText E f w) as [o w1] eqn:Hex.
  pose proof (extractText_world _ _ _ _ _ Hex) as ->. simpl in Ht. subst o.
  assert (exists c t', trim t = c :: t') as (c & t' & Htrim).
  { destruct (trim t) eqn:Htrim; [by apply trim_nil_blank in Htrim|by eauto]. }
  unfold upload, try_catch, upload_try. rewrite Hf.
  unfold mbind, M_bind. rewrite Hex. unfold unlinkSync. rewrite Hbuf, Htrim.
  cbv zeta. rewrite generateContent_run. split.
  - intros ->. by rewrite (upload_catch_run req f _ Hf).
  - intros responseText -> Hparse. unfold parseAnalysis. by rewrite Hparse.
Qed.

(** X14: the body of a 200 from /upload carries [metadata] as the
    service sets it: the timestamp, the name and size of the uploaded file
    and the length of the text that went into the prompt.  A [metadata] of
    the answer's own is replaced. *)
Theorem upload_success_metadata (req : upload_request) (f : uploaded_file)
    (t responseText : jsstring) (analysisData : json) (w : world) :
  file req = Some f ->
  is_Some (files w !! path f) ->
  (extractText E f w).1 = Returned t ->
  ~ blank t ->
  generate E (buildLegalAnalysisPrompt (truncate t) (body_query req)) = Some responseText ->
  parseAnalysis responseText = Some analysisData ->
  exists resp,
    (upload E req w).1 = Returned resp
    /\ status resp = 200
    /\ body_field (lit "metadata") resp
       = Some (JObj [ (lit "timestamp", JStr (now_iso E));
                      (lit "fileName", JStr (originalname f));
                      (lit "fileSize", JInt (size f));
                      (lit "textLength", JInt (js_length (truncate t))) ]).
Proof.
  intros Hf [buffer Hbuf] Ht Hnb Hgen Hparse.
  destruct (extractText E f w) as [o w1] eqn:Hex.
  pose proof (extractText_world _ _ _ _ _ Hex) as ->. simpl in Ht. subst o.
  assert (exists c t', trim t = c :: t') as (c & t' & Htrim).
  { destruct (trim t) eqn:Htrim; [by apply trim_nil_blank in Htrim|by eauto]. }
  unfold upload, try_catch, upload_try. rewrite Hf.
  unfold mbind, M_bind. rewrite Hex. unfold unlinkSync. rewrite Hbuf, Htrim.
  cbv zeta. rewrite generateContent_run, Hgen, Hparse.
  eexists. split; [done|]. split; [done|].
  unfold body_field, own_property. simpl. apply obj_get_set.
Qed.

(** X15: the text that goes into the prompt of an upload never has more
    than 10003 code units; a text of at most 10000 is kept as it is; and
    truncating again changes nothing. *)
Theorem truncate_bounds (t : jsstring) :
  js_length (truncate t) <= 10003
  /\ (js_length t <= 10000 -> truncate t = t)
  /\ truncate (truncate t) = truncate t.
Proof.
  destruct (N.ltb_spec 10000 (js_length t)) as [Hlong|Hshort].
  - destruct (truncate_long t Hlong) as [Heq Hlen].
    split; [lia|]. split; [lia|].
    assert (10000 < js_length (truncate t)) as Hlong' by lia.
    destruct (truncate_long _ Hlong') as [-> _]. rewrite Heq.
    unfold substring0, js_length in *. f_equal.
    rewrite take_app_le by (rewrite length_take; lia).
    rewrite take_take. f_equal; lia.
  - rewrite (truncate_short t Hshort). split; [lia|]. split; [done|].
    by apply truncate_short.
Qed.

End MoreUpload.

(** ** More on the transport layer and the final handler *)

(** X16: a file of an allowed type that is longer than 10 MiB is refused
    with 400 [File Error]; nothing is stored and no prompt is sent. *)
Theorem post_upload_oversize (E : env) (r : multipart_request) (p : multipart_file)
    (w : world) :
  document r = Some p -> fileFilter p = None -> fileSize_limit < part_size p ->
  post_upload E r w
  = (Returned (error_response 400 (lit "File Error")
                 (lit "File size too large. Maximum size is 10MB.")), w).
Proof. apply post_upload_too_large. Qed.

(** X17: the error middleware answers 400 for exactly one error, multer's
    [LIMIT_FILE_SIZE]; every other error, whatever it says, gets the same
    500 [Internal Server Error] body. *)
Theorem error_middleware_400_iff (err : js_error) :
  (status (error_middleware err) = 400 <-> err = MulterError (lit "LIMIT_FILE_SIZE"))
  /\ (err <> MulterError (lit "LIMIT_FILE_SIZE") ->
      error_middleware err
      = error_response 500 (lit "Internal Server Error")
          (lit "An unexpected error occurred")).
Proof.
  destruct err as [code|message|code type]; unfold error_middleware, jsstring_eqb.
  - case_bool_decide as Hc; [subst code|]; split; try done.
    split; [done|]. by intros [= ->].
  - split; [split|]; done.
  - split; [split|]; done.
Qed.

(** X18: through the whole route, a request that carries a file leaves
    nothing at its temporary path: a refused file is never stored and an
    accepted one is deleted by the handler, whatever happens next. *)
Theorem post_upload_no_leftover (E : env) (r : multipart_request)
    (p : multipart_file) (w : world) :
  document r = Some p -> files w !! tmp_path r = None ->
  files (post_upload E r w).2 !! tmp_path r = None.
Proof. apply post_upload_leaves_no_temp_file. Qed.

(** X19: for a path under /api, /analyze or /upload the final handler
    answers 404 [Not Found] with a message that names the method and the
    path. *)
Theorem not_found_handler_answers_404 (req : request) :
  lit "/api" `prefix_of` req_path req
  \/ lit "/analyze" `prefix_of` req_path req
  \/ lit "/upload" `prefix_of` req_path req ->
  not_found_handler req
  = Some (error_response 404 (lit "Not Found")
            (lit "Route " ++ method req ++ lit " " ++ req_path req ++ lit " not found")).
Proof. apply not_found_handler_404. Qed.

(** ** The client *)

Section Client.

(** X20: a click on the toggle switches a dark page to light and every
    other page (light, unknown or without the attribute) to dark.  After
    the click the stored theme and the attribute agree, the icon is the
    sun exactly in the dark theme, the next click switches to the other
    of the two, and two further clicks lead back. *)
Theorem toggle_theme_alternates (st : theme_state) :
  (data_theme st = Some (lit "dark") -> data_theme (toggle_theme st) = Some (lit "light"))
  /\ (data_theme st <> Some (lit "dark") ->
      data_theme (toggle_theme st) = Some (lit "dark"))
  /\ stored_theme (toggle_theme st) = data_theme (toggle_theme st)
  /\ (theme_icon (toggle_theme st) = [9728; 65039]
      <-> data_theme (toggle_theme st) = Some (lit "dark"))
  /\ (theme_icon (toggle_theme st) = [55356; 57113]
      <-> data_theme (toggle_theme st) = Some (lit "light"))
  /\ data_theme (toggle_theme (toggle_theme st)) <> data_theme (toggle_theme st)
  /\ toggle_theme (toggle_theme (toggle_theme st)) = toggle_theme st.
Proof.
  assert ((data_theme st = Some (lit "dark")
           /\ toggle_theme st
              = ThemeState (Some (lit "light")) (Some (lit "light")) moon_icon)
          \/ (data_theme st <> Some (lit "dark")
              /\ toggle_theme st
                 = ThemeState (Some (lit "dark")) (Some (lit "dark")) sun_icon))
    as [[Hst ->] | [Hst ->]].
  { unfold toggle_theme. case_bool_decide; [by left|by right]. }
  all: split; [done|]; split; [done|].
  all: vm_compute; repeat split; first [done | by intros [=]].
Qed.

(** X21: the theme survives a reload: loading the page with what a click
    stored, whatever the attribute and icon of the fresh page, gives the
    state the click left.  With nothing stored, or an empty item, the page
    loads light with the moon icon. *)
Theorem load_theme_restores (st : theme_state) (attribute : option jsstring)
    (icon : jsstring) :
  load_theme (ThemeState (stored_theme (toggle_theme st)) attribute icon)
  = toggle_theme st
  /\ load_theme (ThemeState None attribute icon)
     = ThemeState None (Some (lit "light")) moon_icon
  /\ load_theme (ThemeState (Some []) attribute icon)
     = ThemeState (Some []) (Some (lit "light")) moon_icon.
Proof.
  assert (toggle_theme st = ThemeState (Some (lit "dark")) (Some (lit "dark")) sun_icon
          \/ toggle_theme st
             = ThemeState (Some (lit "light")) (Some (lit "light")) moon_icon)
    as [-> | ->].
  { unfold toggle_theme.
    destruct (bool_decide (data_theme st = Some (lit "dark"))); [by right|by left]. }
  all: by vm_compute.
Qed.

Lemma analyzeText_request (st : client_state) :
  (analyzeText st = None <-> blank (searchInput st))
  /\ (forall req, analyzeText st = Some req ->
      req = PostAnalyze (trim (searchInput st))
      /\ trim (searchInput st) <> []
      /\ trim (trim (searchInput st)) = trim (searchInput st)).
Proof.
  unfold analyzeText. rewrite <- trim_nil_blank.
  destruct (trim (searchInput st)) as [|c t] eqn:Htrim.
  - split; [done|]. by intros req.
  - split; [split; done|]. intros req [= <-]. split; [done|]. split; [done|].
    rewrite <- Htrim. apply trim_idem.
Qed.

(** X22: the text path of the client sends nothing exactly when the
    search box is empty or all white space; what it sends otherwise is the
    trimmed value, which is not empty and has no white space at either
    end. *)
Theorem analyzeText_sends (st : client_state) :
  (analyzeText st = None <-> blank (searchInput st))
  /\ (forall req, analyzeText st = Some req ->
      req = PostAnalyze (trim (searchInput st))
      /\ trim (searchInput st) <> []
      /\ trim (trim (searchInput st)) = trim (searchInput st)).
Proof. apply analyzeText_request. Qed.

(** X23: with a file chosen, Enter always sends the file to /upload; the
    query goes with it exactly when the search box is not blank, and is
    then the trimmed value.  Choosing a file sends it at once without
    query. *)
Theorem on_enter_with_file (st : client_state) (f : multipart_file) :
  currentFile st = Some f ->
  (blank (searchInput st) -> on_enter st = Some (PostUpload f None))
  /\ (~ blank (searchInput st) ->
      on_enter st = Some (PostUpload f (Some (trim (searchInput st)))))
  /\ on_file_chosen st (Some f)
     = (ClientState (Some f) (searchInput st), Some (PostUpload f None)).
Proof.
  intros Hf. unfold on_enter, on_file_chosen, analyzeDocument. rewrite Hf. simpl.
  rewrite <- trim_nil_blank.
  destruct (trim (searchInput st)) as [|c t]; split; done.
Qed.

End Client.

(** ** More on the charts *)

Section ChartTotals.

Lemma count_level_known (levels : list jsstring) :
  count_level (lit "high") levels + (count_level (lit "medium") levels
    + (count_level (lit "low") levels + 0))
  = N.of_nat (length (filter (fun l => known_level l = true) levels)).
Proof.
  induction levels as [|l levels IH]; [done|].
  rewrite !count_level_cons, filter_cons.
  assert (known_level l
          = (bool_decide (l = lit "high") || bool_decide (l = lit "medium")
             || bool_decide (l = lit "low"))) as Hk by done.
  destruct (decide (known_level l = true)) as [Hl|Hl]; rewrite Hk in Hl; cbn [length];
    repeat case_bool_decide; subst; try done; lia.
Qed.

Lemma filter_fmap_length {A B} (f : A -> B) (P : B -> Prop)
    `{!forall y, Decision (P y)} (l : list A) :
  length (filter P (f <$> l)) = length (filter (fun x => P (f x)) l).
Proof.
  induction l as [|x l IH]; [done|].
  rewrite fmap_cons, !filter_cons. destruct (decide (P (f x))); simpl; by rewrite IH.
Qed.

Lemma filter_all_length {A} (P : A -> Prop) `{!forall x, Decision (P x)} (l : list A) :
  length (filter P l) = length l <-> Forall P l.
Proof.
  induction l as [|x l IH]; [by split|].
  rewrite filter_cons. destruct (decide (P x)) as [Hx|Hx].
  - simpl. rewrite Forall_cons. split.
    + intros [= Hlen]. split; [done|]. by apply IH.
    + intros [_ Hl]. f_equal. by apply IH.
  - split.
    + intros Hlen. pose proof (length_filter P l). simpl in Hlen. lia.
    + by intros [? _]%Forall_cons.
Qed.

(** X25: the three bars add up to the number of risk factors whose level
    is exactly high, medium or low: a factor with any other level, or with
    other capitals, appears in no bar, and never makes a bar anything but a
    number. *)
Theorem bar_chart_total (data : AnalysisResult) :
  exists bars,
    (updateChartsWithRiskData true true data).1 = Some bars
    /\ chart_total bars
       = Some (N.of_nat (length (filter (fun f => known_level (risk f) = true)
                                   (riskFactors data))))
    /\ (chart_total bars = Some (N.of_nat (length (riskFactors data)))
        <-> Forall (fun f => known_level (risk f) = true) (riskFactors data)).
Proof.
  exists (counts_by_level (risk <$> riskFactors data)).
  assert (chart_total (counts_by_level (risk <$> riskFactors data))
          = Some (N.of_nat (length (filter (fun f => known_level (risk f) = true)
                                      (riskFactors data))))) as Htotal.
  { unfold counts_by_level. cbn [map chart_total].
    rewrite count_level_known. do 2 f_equal.
    exact (filter_fmap_length risk (fun l => known_level l = true) (riskFactors data)). }
  split; [|split; [done|]].
  - unfold updateChartsWithRiskData, riskCounts. cbn [fst]. by rewrite chart_data_fold.
  - rewrite Htotal. split.
    + intros [= Hlen%Nat2N.inj]. by apply filter_all_length in Hlen.
    + intros Hall.
      by rewrite (proj2 (filter_all_length
                          (fun f => known_level (risk f) = true) (riskFactors data)) Hall).
Qed.

End ChartTotals.

(** ** The route /upload, from the multipart request to the prompt *)

Section UploadRoute.

Variable E : env.

#[local] Arguments lit : simpl never.
#[local] Arguments buildLegalAnalysisPrompt : simpl never.
#[local] Arguments trim : simpl never.
#[local] Arguments truncate : simpl never.
#[local] Arguments error_response : simpl never.






End UploadRoute.

(** ** The properties above on concrete requests *)

Lemma analyze_oracle_failure_witness :
  text short_body = Some short_text
  /\ 1 <= js_length short_text <= 10000
  /\ analyze (example_env None) short_body no_files
     = (Returned (error_response 500 (lit "Internal Server Error")
          (lit "An unexpected error occurred while analyzing the document")),
        World (files no_files)
          (prompts no_files ++ [buildLegalAnalysisPrompt short_text (query short_body)])).
Proof.
  assert (1 <= js_length short_text <= 10000) as Hlen by (by vm_compute).
  exact (conj eq_refl (conj Hlen
    (analyze_oracle_failure (example_env None) short_body short_text no_files
       eq_refl Hlen eq_refl))).
Defined.

Lemma analyze_unparsable_answer_witness :
  JSON_parse (cleanText (lit "I cannot help with that.")) = None
  /\ (analyze (example_env (Some (lit "I cannot help with that."))) short_body no_files).1
     = Returned (error_response 500 (lit "API Processing Error")
          (lit "Failed to parse analysis from AI service")).
Proof.
  assert (1 <= js_length short_text <= 10000) as Hlen by (by vm_compute).
  assert (JSON_parse (cleanText (lit "I cannot help with that.")) = None) as Hparse
    by (vm_compute; reflexivity).
  exact (conj Hparse
    (analyze_unparsable_answer (example_env (Some (lit "I cannot help with that.")))
       short_body short_text (lit "I cannot help with that.") no_files
       eq_refl Hlen eq_refl Hparse)).
Defined.

Lemma analyze_accepts_iff_witness :
  parseAnalysis (fenced answer_complete) = Some answer_complete_value
  /\ exists resp,
       (analyze example_service short_body no_files).1 = Returned resp
       /\ (status resp = 200 <->
           exists props, answer_complete_value = JObj props
             /\ truthy (obj_get (lit "simplified") props) = true
             /\ truthy (obj_get (lit "riskAssessment") props) = true)
       /\ (status resp <> 200 -> status resp = 500).
Proof.
  assert (1 <= js_length short_text <= 10000) as Hlen by (by vm_compute).
  assert (parseAnalysis (fenced answer_complete) = Some answer_complete_value) as Hparse
    by (vm_compute; reflexivity).
  exact (conj Hparse
    (analyze_accepts_iff example_service short_body short_text (fenced answer_complete)
       answer_complete_value no_files eq_refl Hlen eq_refl Hparse)).
Defined.

Lemma analyze_success_body_witness :
  exists resp,
    (analyze example_service short_body no_files).1 = Returned resp
    /\ status resp = 200
    /\ body_field (lit "metadata") resp
       = Some (JObj [ (lit "timestamp", JStr (now_iso example_service));
                      (lit "textLength", JNum (Z.of_N (N.of_nat (length short_text))) 0);
                      (lit "hasQuery", JBool (truthy_string (query short_body))) ])
    /\ forall k, k <> lit "metadata" ->
         (forall v,
            obj_get k [ (lit "simplified", JStr (lit "A lease."));
                        (lit "riskAssessment",
                         JObj [ (lit "overallRisk", JStr (lit "high"));
                                (lit "riskFactors", JArr []) ]) ] = Some v ->
            number_free v = true -> body_field k resp = Some v)
         /\ (obj_get k [ (lit "simplified", JStr (lit "A lease."));
                         (lit "riskAssessment",
                          JObj [ (lit "overallRisk", JStr (lit "high"));
                                 (lit "riskFactors", JArr []) ]) ] = None ->
             body_field k resp = None).
Proof.
  assert (1 <= js_length short_text <= 10000) as Hlen by (by vm_compute).
  assert (parseAnalysis (fenced answer_complete) = Some answer_complete_value) as Hparse
    by (vm_compute; reflexivity).
  exact (analyze_success_body example_service short_body short_text
           (fenced answer_complete) _ no_files eq_refl Hlen eq_refl Hparse
           eq_refl eq_refl).
Defined.

Lemma upload_pdf_failure_witness :
  file pdf_request = Some pdf_file
  /\ files pdf_world !! path pdf_file = Some (ascii_bytes "%PDF")
  /\ upload example_service pdf_request pdf_world
     = (Returned (error_response 500 (lit "Internal Server Error")
          (lit "An unexpected error occurred while processing the file")),
        World (delete (path pdf_file) (files pdf_world)) (prompts pdf_world)).
Proof.
  assert (file pdf_request = Some pdf_file) as H1 by (vm_compute; reflexivity).
  assert (files pdf_world !! path pdf_file = Some (ascii_bytes "%PDF")) as H2
    by (vm_compute; reflexivity).
  exact (conj H1 (conj H2
    (upload_pdf_failure example_service pdf_request pdf_file (ascii_bytes "%PDF")
       pdf_world H1 eq_refl H2 eq_refl))).
Defined.

Lemma short_text_not_blank : ~ blank short_text.
Proof. intros H%trim_nil_blank. by vm_compute in H. Qed.

Lemma upload_short_text_witness :
  file short_request = Some short_file
  /\ (extractText example_service short_file short_world).1 = Returned short_text
  /\ js_length short_text <= 10000
  /\ prompts (upload example_service short_request short_world).2
     = prompts short_world ++ [buildLegalAnalysisPrompt short_text (body_query short_request)]
  /\ (forall resp,
        (upload example_service short_request short_world).1 = Returned resp ->
        status resp = 200 ->
        metadata_textLength resp = Some (JInt (js_length short_text))).
Proof.
  assert (file short_request = Some short_file) as H1 by (vm_compute; reflexivity).
  assert (is_Some (files short_world !! path short_file)) as H2
    by (eexists; vm_compute; reflexivity).
  assert ((extractText example_service short_file short_world).1 = Returned short_text)
    as H3 by (vm_compute; reflexivity).
  assert (js_length short_text <= 10000) as H4 by (by vm_compute).
  exact (conj H1 (conj H3 (conj H4
    (upload_short_text example_service short_request short_file short_text short_world
       H1 H2 H3 short_text_not_blank H4)))).
Defined.

Lemma upload_failure_kinds_witness :
  (generate (example_env None)
     (buildLegalAnalysisPrompt (truncate short_text) (body_query short_request)) = None ->
   (upload (example_env None) short_request short_world).1
   = Returned (error_response 500 (lit "Internal Server Error")
        (lit "An unexpected error occurred while processing the file")))
  /\ (forall responseText,
      generate (example_env None)
        (buildLegalAnalysisPrompt (truncate short_text) (body_query short_request))
      = Some responseText ->
      JSON_parse (cleanText responseText) = None ->
      (upload (example_env None) short_request short_world).1
      = Returned (error_response 500 (lit "API Processing Error")
           (lit "Failed to parse analysis from AI service"))).
Proof.
  assert (file short_request = Some short_file) as H1 by (vm_compute; reflexivity).
  assert (is_Some (files short_world !! path short_file)) as H2
    by (eexists; vm_compute; reflexivity).
  assert ((extractText (example_env None) short_file short_world).1 = Returned short_text)
    as H3 by (vm_compute; reflexivity).
  exact (upload_failure_kinds (example_env None) short_request short_file short_text
           short_world H1 H2 H3 short_text_not_blank).
Defined.

Lemma upload_success_metadata_witness :
  exists resp,
    (upload example_service short_request short_world).1 = Returned resp
    /\ status resp = 200
    /\ body_field (lit "metadata") resp
       = Some (JObj [ (lit "timestamp", JStr (now_iso example_service));
                      (lit "fileName", JStr (originalname short_file));
                      (lit "fileSize", JInt (size short_file));
                      (lit "textLength", JInt (js_length (truncate short_text))) ]).
Proof.
  assert (file short_request = Some short_file) as H1 by (vm_compute; reflexivity).
  assert (is_Some (files short_world !! path short_file)) as H2
    by (eexists; vm_compute; reflexivity).
  assert ((extractText example_service short_file short_world).1 = Returned short_text)
    as H3 by (vm_compute; reflexivity).
  assert (parseAnalysis (fenced answer_complete) = Some answer_complete_value) as Hparse
    by (vm_compute; reflexivity).
  exact (upload_success_metadata example_service short_request short_file short_text
           (fenced answer_complete) answer_complete_value short_world
           H1 H2 H3 short_text_not_blank eq_refl Hparse).
Defined.

Lemma post_upload_oversize_witness :
  fileSize_limit < fileSize_limit + 1
  /\ post_upload example_service oversize_upload no_files
     = (Returned (error_response 400 (lit "File Error")
                    (lit "File size too large. Maximum size is 10MB.")), no_files).
Proof.
  assert (fileSize_limit < fileSize_limit + 1) as Hsize by (vm_compute; reflexivity).
  exact (conj Hsize
    (post_upload_oversize example_service oversize_upload _ no_files
       eq_refl eq_refl Hsize)).
Defined.

Lemma post_upload_no_leftover_witness :
  files no_files !! tmp_path (text_upload short_content) = None
  /\ files (post_upload example_service (text_upload short_content) no_files).2
       !! tmp_path (text_upload short_content) = None.
Proof.
  assert (files no_files !! tmp_path (text_upload short_content) = None) as Hfree
    by (vm_compute; reflexivity).
  exact (conj Hfree
    (post_upload_no_leftover example_service (text_upload short_content) _ no_files
       eq_refl Hfree)).
Defined.

Lemma not_found_handler_answers_404_witness :
  lit "/api" `prefix_of` lit "/api/cases"
  /\ not_found_handler (Request (lit "GET") (lit "/api/cases"))
     = Some (error_response 404 (lit "Not Found") (lit "Route GET /api/cases not found")).
Proof.
  assert (lit "/api" `prefix_of` lit "/api/cases") as Hp
    by (exists (lit "/cases"); vm_compute; reflexivity).
  exact (conj Hp
    (not_found_handler_answers_404 (Request (lit "GET") (lit "/api/cases"))
       (or_introl Hp))).
Defined.

Lemma on_enter_with_file_witness :
  on_enter asking_state = Some (PostUpload short_part (Some (lit "When is rent due?")))
  /\ on_file_chosen asking_state (Some short_part)
     = (ClientState (Some short_part) (searchInput asking_state),
        Some (PostUpload short_part None)).
Proof.
  assert (~ blank (searchInput asking_state)) as Hnb
    by (intros H%trim_nil_blank; by vm_compute in H).
  destruct (on_enter_with_file asking_state short_part eq_refl) as (_ & Hsend & Hchosen).
  exact (conj (Hsend Hnb) Hchosen).
Defined.



(** ** The application *)

Section Application.

Variable E : env.

#[local] Arguments lit : simpl never.
#[local] Arguments ql : simpl never.
#[local] Arguments buildLegalAnalysisPrompt : simpl never.
#[local] Arguments parseAnalysis : simpl never.
#[local] Arguments obj_get : simpl never.
#[local] Arguments obj_set : simpl never.
#[local] Arguments spread : simpl never.
#[local] Arguments error_response : simpl never.
#[local] Arguments N.ltb : simpl never.
#[local] Arguments js_length : simpl never.
#[local] Arguments JSON_parse : simpl never.



Lemma express_json_too_large bytes content :
  json_limit < bytes ->
  express_json E (JsonBody bytes content)
  = inl (BodyParserError 413 (lit "entity.too.large")).
Proof. intros Hsize. unfold express_json. by rewrite (proj2 (N.ltb_lt _ _) Hsize). Qed.

(** On a body whose [text] and [query] are strings or absent, the handler
    is the handler of the data model. *)
Lemma analyze_value_typed props t q w :
  obj_get (lit "text") props = JStr <$> t ->
  obj_get (lit "query") props = JStr <$> q ->
  analyze_value E (Some (JObj props)) w = analyze E (AnalyzeBody t q) w.
Proof.
  intros Ht Hq. unfold analyze_value, analyze, try_catch, analyze_value_try, analyze_try.
  cbn [body_member text query]. rewrite Ht, Hq.
  destruct t as [[|c t]|]; [done| |done]. cbn [fmap option_fmap option_map truthy negb].
  unfold mbind at 1, M_bind at 1. cbn [too_long]. unfold mret at 1, M_ret at 1.
  destruct (10000 <? js_length (c :: t)); [done|].
  assert (build_prompt E (JStr (c :: t)) (JStr <$> q) w
          = (Returned (buildLegalAnalysisPrompt (c :: t) q), w)) as Hprompt.
  { unfold build_prompt, template_string, buildLegalAnalysisPrompt, question_line.
    destruct q as [[|cq q]|]; try done.
    unfold mbind, M_bind, mret, M_ret. cbn [fmap option_fmap option_map truthy].
    do 3 f_equal. by rewrite <- (app_assoc (ql _)), <- (app_assoc (cq :: q)). }
  unfold mbind at 1, M_bind at 1. rewrite Hprompt.
  assert (analyze_metadata E (JStr (c :: t)) (JStr <$> q)
          = JObj [ (lit "timestamp", JStr (now_iso E));
                   (lit "textLength", JInt (js_length (c :: t)));
                   (lit "hasQuery", JBool (truthy_string q)) ]) as ->.
  { unfold analyze_metadata. cbn [length_of app]. by destruct q as [[|cq q]|]. }
  done.
Qed.

Lemma too_long_run v w : exists o, too_long E v w = (o, w).
Proof.
  destruct v; simpl; try (by eexists).
  destruct (obj_get _ _) as [l|]; [|by eexists].
  unfold lift_option. destruct (exceeds_10000 E l); by eexists.
Qed.

Lemma template_string_run v w : exists o, template_string E v w = (o, w).
Proof.
  unfold template_string, lift_option.
  destruct v; try (by eexists); destruct (to_string E _); by eexists.
Qed.

Lemma build_prompt_run v q w : exists o, build_prompt E v q w = (o, w).
Proof.
  unfold build_prompt, mbind, M_bind.
  destruct (template_string_run v w) as [[s|] ->]; [|by eexists].
  destruct q as [q|]; [|by eexists].
  destruct (truthy (Some q)); [|by eexists].
  destruct (template_string_run q w) as [[sq|] ->]; by eexists.
Qed.

(** On any body, the handler of /analyze responds, leaves the file system
    alone and sends at most one prompt. *)
Lemma analyze_value_run body w :
  exists resp sent,
    analyze_value E body w = (Returned resp, World (files w) sent)
    /\ (status resp = 200 \/ status resp = 400 \/ status resp = 500)
    /\ (sent = prompts w \/ exists prompt, sent = prompts w ++ [prompt]).
Proof.
  destruct w as [fs ps]. cbn [files prompts].
  unfold analyze_value, try_catch, analyze_value_try.
  destruct body as [body|]; [|eexists _, _; simpl; by eauto 10].
  destruct body as [| | | | |props]; try (eexists _, _; simpl; by eauto 10).
  cbn [body_member].
  destruct (obj_get (lit "text") props) as [text|]; [|eexists _, _; simpl; by eauto 10].
  destruct (truthy (Some text)); cbn [negb]; [|eexists _, _; simpl; by eauto 10].
  unfold mbind at 1, M_bind at 1.
  destruct (too_long_run text (World fs ps)) as [[[|]|] ->];
    try (eexists _, _; simpl; by eauto 10).
  unfold mbind at 1, M_bind at 1.
  destruct (build_prompt_run text (obj_get (lit "query") props) (World fs ps))
    as [[prompt|] ->]; [|eexists _, _; simpl; by eauto 10].
  unfold mbind at 1, M_bind at 1. rewrite generateContent_run. cbn [files prompts].
  destruct (generate E prompt) as [responseText|]; [|eexists _, _; simpl; by eauto 10].
  destruct (parseAnalysis responseText) as [analysisData|];
    [|eexists _, _; simpl; by eauto 10].
  unfold mbind, M_bind.
  destruct (structure_invalid_run analysisData (World fs (ps ++ [prompt])))
    as [[[|]|] ->]; eexists _, _; simpl; by eauto 10.
Qed.


(** The error middleware answers 400 or 500. *)
Lemma error_middleware_status err :
  status (error_middleware err) = 400 \/ status (error_middleware err) = 500.
Proof.
  destruct err as [code| |]; simpl; [|by right..].
  destruct (jsstring_eqb code _); [by left|by right].
Qed.

(** What the application does with a POST that the router hands to the
    handler of /analyze. *)
Lemma app_post_analyze req w :
  method (request_line req) = lit "POST" ->
  In (map ascii_lower (req_path (request_line req))) [lit "/analyze"; lit "/analyze/"] ->
  app E req w
  = match express_json E (payload req) with
    | inl err => (Returned (Replied (error_middleware err)), w)
    | inr body =>
        match analyze_value E body w with
        | (Returned r, w') => (Returned (Replied r), w')
        | (Thrown, w') => (Thrown, w')
        end
    end.
Proof.
  destruct req as [[m p] b]. cbn [request_line method req_path payload]. intros -> Hp.
  unfold app. cbn [request_line payload].
  assert (cors_preflight (Request (lit "POST") p) = false) as -> by done.
  assert (route_matches (lit "GET") (lit "/") (Request (lit "POST") p) = false) as ->
    by done.
  assert (route_matches (lit "POST") (lit "/analyze") (Request (lit "POST") p) = true)
    as ->.
  { unfold route_matches, path_matches, jsstring_eqb. cbn [method req_path]. cbv zeta.
    change (method_matches (lit "POST") (lit "POST")) with true.
    rewrite (bool_decide_eq_false_2 (lit "/analyze" = lit "/")) by done.
    change (lit "/analyze" ++ lit "/") with (lit "/analyze/").
    cbn [In] in Hp. destruct Hp as [<- | [<- | []]].
    - by rewrite bool_decide_eq_true_2.
    - rewrite (bool_decide_eq_true_2 (lit "/analyze/" = lit "/analyze/")) by done.
      by rewrite orb_true_r. }
  assert (forall r, send (Request (lit "POST") p) r = Replied r) as Hsend by done.
  destruct (express_json E b) as [err|body]; [by rewrite Hsend|].
  destruct (analyze_value E body w) as [[r|] w']; [by rewrite Hsend|done].
Qed.


(** X5: every POST the router hands to /analyze is answered, whatever
    its body (none,
    any JSON text, a form), whatever the generation service and the
    platform do: with status 200, 400 or 500; the file system is left as
    it was and at most one prompt is sent. *)
Theorem analyze_always_responds (req : http_request) (w : world) :
  method (request_line req) = lit "POST" ->
  In (map ascii_lower (req_path (request_line req))) [lit "/analyze"; lit "/analyze/"] ->
  exists resp,
    (app E req w).1 = Returned (Replied resp)
    /\ (status resp = 200 \/ status resp = 400 \/ status resp = 500)
    /\ files (app E req w).2 = files w
    /\ (prompts (app E req w).2 = prompts w
        \/ exists prompt, prompts (app E req w).2 = prompts w ++ [prompt]).
Proof.
  intros Hm Hp. rewrite (app_post_analyze req w Hm Hp).
  destruct (express_json E (payload req)) as [err|body].
  - exists (error_middleware err). cbn [fst snd].
    destruct (error_middleware_status err) as [-> | ->]; eauto 10.
  - destruct (analyze_value_run body w) as (resp & sent & -> & Hstatus & Hsent).
    exists resp. cbn [fst snd files prompts]. eauto.
Qed.

(** X24: when the body [{ text }] that the text path of the client builds
    reaches the handler of /analyze, it is never refused for a missing
    text: the handler sends the prompt of the trimmed value, without
    question line, unless that value is longer than 10000, which it
    refuses with 400. *)
Theorem analyzeText_then_analyze (st : client_state) (t : jsstring) (w : world) :
  analyzeText st = Some (PostAnalyze t) ->
  (N.of_nat (length t) <= 10000 ->
   prompts (analyze_value E (Some (JObj [(lit "text", JStr t)])) w).2
   = prompts w ++ [prompt_head ++ t ++ prompt_mid ++ prompt_tail])
  /\ (10000 < N.of_nat (length t) ->
      analyze_value E (Some (JObj [(lit "text", JStr t)])) w
      = (Returned (error_response 400 (lit "Validation Error")
           (lit "Text must be less than 10,000 characters")), w)).
Proof.
  intros Hsend. apply analyzeText_request in Hsend as ([= ->] & Hne & _).
  rewrite (analyze_value_typed [(lit "text", JStr (trim (searchInput st)))]
             (Some (trim (searchInput st))) None w) by done.
  destruct (trim (searchInput st)) as [|c t] eqn:Htrim; [done|].
  split.
  - intros Hlen.
    assert (1 <= js_length (c :: t) <= 10000) as Hlen'
      by (unfold js_length in *; simpl in *; lia).
    by destruct (analyze_valid_run E (AnalyzeBody (Some (c :: t)) None) _ w eq_refl Hlen')
      as (resp & -> & _).
  - intros Hlong. unfold analyze, try_catch, analyze_try. cbn [text].
    change (js_length (c :: t)) with (N.of_nat (length (c :: t))).
    by rewrite (proj2 (N.ltb_lt _ _) Hlong).
Qed.

(** X28: whatever the route, a request (other than a preflight or a
    HEAD) with a JSON body that is longer than 10 MiB, or that is not
    empty and not JSON text, never reaches a handler: the error
    middleware answers 500 [Internal Server Error] and nothing else
    happens. *)
Theorem refused_body_500 (req : http_request) (bytes : N) (content : jsstring)
    (w : world) :
  method (request_line req) <> lit "OPTIONS" ->
  method (request_line req) <> lit "HEAD" ->
  payload req = JsonBody bytes content ->
  10 * 1024 * 1024 < bytes \/ (content <> [] /\ JSON_parse content = None) ->
  app E req w
  = (Returned (Replied (error_response 500 (lit "Internal Server Error")
                          (lit "An unexpected error occurred"))), w).
Proof.
  intros Hm Hhead Hbody Hrefused. unfold app, cors_preflight, send, jsstring_eqb.
  rewrite !bool_decide_eq_false_2 by done. rewrite Hbody.
  assert (exists code type, express_json E (JsonBody bytes content)
                            = inl (BodyParserError code type)) as (code & type & ->).
  { destruct Hrefused as [Hsize | [Hne Hparse]].
    - rewrite (express_json_too_large bytes content Hsize). by eexists _, _.
    - unfold express_json. destruct (json_limit <? bytes); [by eexists _, _|].
      destruct content as [|c0 content0]; [done|]. rewrite Hparse.
      destruct (skip_ws (c0 :: content0)) as [|c s]; [by eexists _, _|].
      destruct ((c =? 123) || (c =? 91)); by eexists _, _. }
  done.
Qed.

(** A request that is no preflight and whose body the parser does not
    refuse, for a path that is no route's, goes to the final handler. *)
Lemma app_unrouted req body w :
  method (request_line req) <> lit "OPTIONS" ->
  express_json E (payload req) = inr body ->
  ~ In (map ascii_lower (req_path (request_line req)))
       [lit "/"; lit "/analyze"; lit "/analyze/"; lit "/upload"; lit "/upload/";
        lit "/health"; lit "/health/"] ->
  app E req w
  = match not_found_handler (request_line req) with
    | Some r => (Returned (send (request_line req) r), w)
    | None => (Returned NoReply, w)
    end.
Proof.
  intros Hm Hbody Hpath. unfold app. rewrite Hbody.
  unfold cors_preflight, jsstring_eqb. rewrite bool_decide_eq_false_2 by done.
  assert (forall route,
            In route [lit "/"; lit "/analyze"; lit "/upload"; lit "/health"] ->
            path_matches route (req_path (request_line req)) = false) as Hno.
  { intros route Hroute. unfold path_matches, jsstring_eqb. cbv zeta.
    cbn [In] in Hroute, Hpath.
    destruct Hroute as [<- | [<- | [<- | [<- | []]]]].
    - rewrite (bool_decide_eq_true_2 (lit "/" = lit "/")) by done.
      apply bool_decide_eq_false_2. intros Heq. apply Hpath. by left.
    - rewrite (bool_decide_eq_false_2 (lit "/analyze" = lit "/")) by done.
      change (lit "/analyze" ++ lit "/") with (lit "/analyze/").
      rewrite !bool_decide_eq_false_2; [done|..]; intros Heq; apply Hpath; auto 10.
    - rewrite (bool_decide_eq_false_2 (lit "/upload" = lit "/")) by done.
      change (lit "/upload" ++ lit "/") with (lit "/upload/").
      rewrite !bool_decide_eq_false_2; [done|..]; intros Heq; apply Hpath; auto 10.
    - rewrite (bool_decide_eq_false_2 (lit "/health" = lit "/")) by done.
      change (lit "/health" ++ lit "/") with (lit "/health/").
      rewrite !bool_decide_eq_false_2; [done|..]; intros Heq; apply Hpath; auto 10. }
  unfold route_matches.
  rewrite !Hno by (cbn [In]; tauto). by rewrite !andb_false_r.
Qed.

(** C10: a request that is no preflight, whose body the JSON body parser
    does not refuse, whose path is no route's (whatever the case of its
    letters, with or without closing slash) and starts with none of /api,
    /analyze and /upload gets no reply: the final handler returns without
    responding and nothing else does. *)
Theorem final_handler_silent (req : http_request) (w : world) :
  method (request_line req) <> lit "OPTIONS" ->
  (exists body, express_json E (payload req) = inr body) ->
  ~ In (map ascii_lower (req_path (request_line req)))
       [lit "/"; lit "/analyze"; lit "/analyze/"; lit "/upload"; lit "/upload/";
        lit "/health"; lit "/health/"] ->
  ~ lit "/api" `prefix_of` req_path (request_line req) ->
  ~ lit "/analyze" `prefix_of` req_path (request_line req) ->
  ~ lit "/upload" `prefix_of` req_path (request_line req) ->
  app E req w = (Returned NoReply, w).
Proof.
  intros Hm [body Hbody] Hpath H1 H2 H3.
  rewrite (app_unrouted req body w Hm Hbody Hpath).
  by rewrite (not_found_handler_none _ H1 H2 H3).
Qed.

End Application.

(** ** The application on concrete requests *)



Lemma final_handler_silent_witness :
  method (request_line favicon_request) <> lit "OPTIONS"
  /\ ~ lit "/api" `prefix_of` req_path (request_line favicon_request)
  /\ ~ lit "/analyze" `prefix_of` req_path (request_line favicon_request)
  /\ ~ lit "/upload" `prefix_of` req_path (request_line favicon_request)
  /\ app example_service favicon_request no_files = (Returned NoReply, no_files).
Proof.
  assert (method (request_line favicon_request) <> lit "OPTIONS") as Hm
    by (by vm_compute).
  assert (exists body, express_json example_service (payload favicon_request) = inr body)
    as Hbody by (eexists; reflexivity).
  assert (~ In (map ascii_lower (req_path (request_line favicon_request)))
            [lit "/"; lit "/analyze"; lit "/analyze/"; lit "/upload"; lit "/upload/";
             lit "/health"; lit "/health/"]) as Hpath
    by (vm_compute; intuition discriminate).
  assert (forall pat, startsWith (lit "/favicon.ico") pat = false ->
                      ~ pat `prefix_of` req_path (request_line favicon_request)) as Hno.
  { intros pat H Hp. apply startsWith_prefix in Hp. vm_compute in H, Hp. congruence. }
  pose proof (Hno (lit "/api") eq_refl) as H1.
  pose proof (Hno (lit "/analyze") eq_refl) as H2.
  pose proof (Hno (lit "/upload") eq_refl) as H3.
  exact (conj Hm (conj H1 (conj H2 (conj H3
    (final_handler_silent example_service favicon_request no_files
       Hm Hbody Hpath H1 H2 H3))))).
Defined.

(** A preflight for a path that is no route's and has none of the three
    prefixes is answered, with 204, by the cors middleware. *)
Lemma final_handler_silent_counterexample :
  ~ In (map ascii_lower (req_path (request_line favicon_preflight)))
       [lit "/"; lit "/analyze"; lit "/analyze/"; lit "/upload"; lit "/upload/";
        lit "/health"; lit "/health/"]
  /\ ~ lit "/api" `prefix_of` req_path (request_line favicon_preflight)
  /\ ~ lit "/analyze" `prefix_of` req_path (request_line favicon_preflight)
  /\ ~ lit "/upload" `prefix_of` req_path (request_line favicon_preflight)
  /\ app example_service favicon_preflight no_files = (Returned (EmptyReply 204), no_files).
Proof.
  assert (forall pat, startsWith (lit "/favicon.ico") pat = false ->
                      ~ pat `prefix_of` req_path (request_line favicon_preflight)) as Hno.
  { intros pat H Hp. apply startsWith_prefix in Hp. vm_compute in H, Hp. congruence. }
  split; [vm_compute; intuition discriminate|].
  split; [exact (Hno (lit "/api") eq_refl)|].
  split; [exact (Hno (lit "/analyze") eq_refl)|].
  split; [exact (Hno (lit "/upload") eq_refl)|].
  reflexivity.
Qed.

Lemma analyze_always_responds_witness :
  exists resp,
    (app example_service short_analyze no_files).1 = Returned (Replied resp)
    /\ (status resp = 200 \/ status resp = 400 \/ status resp = 500)
    /\ files (app example_service short_analyze no_files).2 = files no_files
    /\ (prompts (app example_service short_analyze no_files).2 = prompts no_files
        \/ exists prompt,
             prompts (app example_service short_analyze no_files).2
             = prompts no_files ++ [prompt]).
Proof.
  exact (analyze_always_responds example_service short_analyze no_files eq_refl
           (or_introl eq_refl)).
Defined.

Lemma analyzeText_then_analyze_witness :
  analyzeText typing_state = Some (PostAnalyze short_text)
  /\ prompts (analyze_value example_service
                (Some (JObj [(lit "text", JStr short_text)])) no_files).2
     = prompts no_files ++ [prompt_head ++ short_text ++ prompt_mid ++ prompt_tail].
Proof.
  assert (analyzeText typing_state = Some (PostAnalyze short_text)) as Hsend
    by (vm_compute; reflexivity).
  assert (N.of_nat (length short_text) <= 10000) as Hlen by (by vm_compute).
  exact (conj Hsend
    (proj1 (analyzeText_then_analyze example_service typing_state short_text no_files
              Hsend) Hlen)).
Defined.

Lemma refused_body_500_witness :
  JSON_parse (ql "{~text~: ") = None
  /\ app example_service (json_request (lit "POST") (lit "/analyze") (ql "{~text~: "))
       no_files
     = (Returned (Replied (error_response 500 (lit "Internal Server Error")
                             (lit "An unexpected error occurred"))), no_files).
Proof.
  assert (JSON_parse (ql "{~text~: ") = None) as Hparse by (vm_compute; reflexivity).
  assert (lit "POST" <> lit "OPTIONS") as Hm by (by vm_compute).
  assert (lit "POST" <> lit "HEAD") as Hhead by (by vm_compute).
  assert (ql "{~text~: " <> []) as Hne by (by vm_compute).
  exact (conj Hparse
    (refused_body_500 example_service
       (json_request (lit "POST") (lit "/analyze") (ql "{~text~: ")) _ _ no_files
       Hm Hhead eq_refl (or_intror (conj Hne Hparse)))).
Defined.
